(** * Asegedech volunteer scheduling backend: serializer, task store, booking
      check and login, embedded from [src/Asegedech/app.py].

    Conventions of the embedding.
    - A Python [str] is a [string]; a character is a code point below 256.
    - A nullable SQL column and an optional JSON key are [option]s.
    - Request fields have the types of the interface: identifiers and
      capacities are integers of any size, texts are strings, lists are
      lists.  [active], which the handlers test for truth, and
      [slotDurationMins], which they convert with [int()], are arbitrary
      JSON values.
    - sqlite3 binds a Python integer only if it is a signed 64-bit
      integer ([int64]) and raises [OverflowError] otherwise.
    - An AUTOINCREMENT table whose counter has reached the largest rowid
      refuses an INSERT.  The task table has this failure, since later
      requests bind the ids it hands out; the admin and the appointment
      tables are taken to have a rowid left.
    - The SQLite file is the record [Store]; a table is the list of its rows
      in rowid order.  A handler is a function from the store, the session,
      the request body and the clock reading to a response and the new
      store (or session).
    - The password primitive [check_password_hash] is a parameter.
    - An uncaught Python exception is the response [server_error] (500). *)

From Stdlib Require Import String Ascii List ZArith NArith Lia Bool Permutation.
From Stdlib Require Import OrderedTypeEx.
From Stdlib Require Import Floats.SpecFloat.
Import ListNotations.
Open Scope string_scope.
Open Scope Z_scope.

(* ================================================================== *)
(** ** Python string primitives used by the handlers *)

Module PyStr.

(** [str.isspace] on one code point below 256. *)
Definition isspace (c : ascii) : bool :=
  let n := N_of_ascii c in
  ((9 <=? n) && (n <=? 13) || (28 <=? n) && (n <=? 32)
   || (n =? 133) || (n =? 160))%N.

Fixpoint lstrip (s : string) : string :=
  match s with
  | EmptyString => EmptyString
  | String c r => if isspace c then lstrip r else s
  end.

Fixpoint rstrip (s : string) : string :=
  match s with
  | EmptyString => EmptyString
  | String c r =>
      match rstrip r with
      | EmptyString => if isspace c then EmptyString else String c EmptyString
      | r' => String c r'
      end
  end.

(** [s.strip()] *)
Definition strip (s : string) : string := rstrip (lstrip s).

(** [s.split(sep)] for a one-character separator: never the empty list. *)
Fixpoint split (sep : ascii) (s : string) : list string :=
  match s with
  | EmptyString => [EmptyString]
  | String c r =>
      if Ascii.eqb c sep then EmptyString :: split sep r
      else match split sep r with
           | [] => [String c EmptyString]
           | p :: ps => String c p :: ps
           end
  end.

(** [sep.join(parts)] for a one-character separator. *)
Fixpoint join (sep : ascii) (parts : list string) : string :=
  match parts with
  | [] => EmptyString
  | [x] => x
  | x :: rest => x ++ String sep (join sep rest)
  end.

(** [sep in s] for a one-character [sep]. *)
Fixpoint contains (sep : ascii) (s : string) : bool :=
  match s with
  | EmptyString => false
  | String c r => Ascii.eqb c sep || contains sep r
  end.

(** Truth value of a string: [bool(s)]. *)
Definition truthy (s : string) : bool :=
  match s with EmptyString => false | _ => true end.

(** [x or ""] for an optional string. *)
Definition or_empty (x : option string) : string :=
  match x with Some s => s | None => EmptyString end.

Definition lower_char (c : ascii) : ascii :=
  let n := N_of_ascii c in
  if ((65 <=? n) && (n <=? 90)
      || (192 <=? n) && (n <=? 222) && negb (n =? 215))%N
  then ascii_of_N (n + 32) else c.

(** [s.lower()] *)
Fixpoint lower (s : string) : string :=
  match s with
  | EmptyString => EmptyString
  | String c r => String (lower_char c) (lower r)
  end.

(** [a < b] and [a >= b] on strings: code point order. *)
Definition lt (a b : string) : bool := String.ltb a b.
Definition ge (a b : string) : bool := negb (String.ltb a b).

End PyStr.

(* ================================================================== *)
(** ** JSON values, with their truth value and their conversion by [int()] *)

#[local] Unset Elimination Schemes.
Inductive json : Type :=
| JNull
| JBool (b : bool)
| JNum (z : Z)
| JFloat (f : spec_float)
| JStr (s : string)
| JArr (items : list json)
| JObj (members : list (string * json)).
#[local] Set Elimination Schemes.

(** [bool(v)] in Python for a decoded JSON value. *)
Definition json_truthy (v : json) : bool :=
  match v with
  | JNull => false
  | JBool b => b
  | JNum z => negb (z =? 0)
  | JFloat f => match f with S754_zero _ => false | _ => true end
  | JStr s => PyStr.truthy s
  | JArr l => match l with [] => false | _ => true end
  | JObj l => match l with [] => false | _ => true end
  end.

(** [data.get(k)] used as a condition: a missing key is [None], falsy. *)
Definition get_truthy (v : option json) : bool :=
  match v with Some j => json_truthy j | None => false end.

(** [int(v)] in Python: [None] when it raises. *)
Module PyInt.

(** The white space that [int()] skips around a numeral. *)
Definition isspace (c : ascii) : bool :=
  let n := N_of_ascii c in
  ((9 <=? n) && (n <=? 13) || (n =? 32) || (n =? 133) || (n =? 160))%N.

Fixpoint lstrip (s : string) : string :=
  match s with
  | EmptyString => EmptyString
  | String c r => if isspace c then lstrip r else s
  end.

Fixpoint rstrip (s : string) : string :=
  match s with
  | EmptyString => EmptyString
  | String c r =>
      match rstrip r with
      | EmptyString => if isspace c then EmptyString else String c EmptyString
      | r' => String c r'
      end
  end.

Definition is_digit (c : ascii) : bool :=
  let n := N_of_ascii c in ((48 <=? n) && (n <=? 57))%N.

Definition digit_value (c : ascii) : Z := Z.of_N (N_of_ascii c - 48).

(** [sys.get_int_max_str_digits()], the default of Python 3.11. *)
Definition max_str_digits : nat := 4300.

(** Decimal digits, single underscores allowed between two digits. *)
Fixpoint digits (acc : Z) (count : nat) (after_digit : bool) (s : string)
  : option Z :=
  match s with
  | EmptyString =>
      if after_digit && (count <=? max_str_digits)%nat then Some acc
      else None
  | String c r =>
      if is_digit c then digits (10 * acc + digit_value c) (S count) true r
      else if Ascii.eqb c "_" && after_digit then digits acc count false r
      else None
  end.

(** [int(s)] for a string: white space, a sign, a numeral. *)
Definition of_str (s : string) : option Z :=
  match rstrip (lstrip s) with
  | String "+" r => digits 0 0 false r
  | String "-" r => option_map Z.opp (digits 0 0 false r)
  | t => digits 0 0 false t
  end.

(** [int(x)] for a float: truncation towards zero; NaN and the infinities
    raise. *)
Definition of_float (f : spec_float) : option Z :=
  match f with
  | S754_zero _ => Some 0
  | S754_finite s m e =>
      let v := Z.shiftl (Zpos m) e in Some (if s then - v else v)
  | S754_infinity _ | S754_nan => None
  end.

Definition of_json (v : json) : option Z :=
  match v with
  | JBool b => Some (if b then 1 else 0)
  | JNum z => Some z
  | JFloat f => of_float f
  | JStr s => of_str s
  | JNull | JArr _ | JObj _ => None
  end.

End PyInt.

(** An integer that sqlite3 can bind: a signed 64-bit integer. *)
Definition int64 (z : Z) : bool :=
  (-9223372036854775808 <=? z) && (z <=? 9223372036854775807).

(** [None] is bound as NULL. *)
Definition int64_opt (x : option Z) : bool :=
  match x with Some z => int64 z | None => true end.

(* ================================================================== *)
(** ** Rows of the three tables *)

Module AdminRow.
Record t : Type := mk
  { id : Z; email : string; password_hash : string; created_at : string }.
End AdminRow.

Module TaskRow.
Record t : Type := mk
  { id : Z;
    title : string;
    description : option string;
    max_volunteers : option Z;
    slot_duration_mins : option Z;
    type : string;
    days_of_week : option string;
    time_windows : option string;
    event_dates : option string;
    active : Z;
    created_at : string;
    updated_at : string }.
End TaskRow.

Module ApptRow.
Record t : Type := mk
  { id : Z;
    task_id : Z;
    date : string;
    start_time : string;
    end_time : string;
    phone : string;
    created_at : string }.
End ApptRow.

(** The decoded task: the dictionary built by [row_to_task]. *)
Module Window.
Record t : Type := mk { start : string; end_ : string }.
End Window.

Module Task.
Record t : Type := mk
  { id : Z;
    title : string;
    description : string;
    maxVolunteers : option Z;
    slotDurationMins : option Z;
    type : string;
    daysOfWeek : list string;
    timeWindows : list Window.t;
    eventDates : list string;
    active : bool;
    createdAt : string;
    updatedAt : string }.
End Task.

(* ================================================================== *)
(** ** Serialization helpers *)

(** A small error monad: [None] is a raised exception (here [IndexError]). *)
Definition bind {A B : Type} (x : option A) (f : A -> option B) : option B :=
  match x with Some a => f a | None => None end.

Notation "x <- e ;; k" := (bind e (fun x => k))
  (at level 61, e at next level, right associativity).

(** [[f(x) for x in xs]] where [f] may raise. *)
Fixpoint traverse {A B : Type} (f : A -> option B) (xs : list A)
  : option (list B) :=
  match xs with
  | [] => Some []
  | x :: r => y <- f x ;; ys <- traverse f r ;; Some (y :: ys)
  end.

(** [[d for d in (col or "").split(",") if d]] *)
Definition csv_items (col : option string) : list string :=
  filter PyStr.truthy (PyStr.split "," (PyStr.or_empty col)).

(** [{"start": p.split("-")[0], "end": p.split("-")[1]}] *)
Definition window_of_fragment (p : string) : option Window.t :=
  s <- nth_error (PyStr.split "-" p) 0 ;;
  e <- nth_error (PyStr.split "-" p) 1 ;;
  Some (Window.mk s e).

(** The [timeWindows] comprehension of [row_to_task]. *)
Definition decode_windows (col : option string) : option (list Window.t) :=
  traverse window_of_fragment
    (filter (PyStr.contains "-") (PyStr.split "|" (PyStr.or_empty col))).

Definition row_to_task (r : TaskRow.t) : option Task.t :=
  ws <- decode_windows (TaskRow.time_windows r) ;;
  Some {| Task.id := TaskRow.id r;
          Task.title := TaskRow.title r;
          Task.description := PyStr.or_empty (TaskRow.description r);
          Task.maxVolunteers := TaskRow.max_volunteers r;
          Task.slotDurationMins := TaskRow.slot_duration_mins r;
          Task.type := TaskRow.type r;
          Task.daysOfWeek := csv_items (TaskRow.days_of_week r);
          Task.timeWindows := ws;
          Task.eventDates := csv_items (TaskRow.event_dates r);
          Task.active := negb (TaskRow.active r =? 0);
          Task.createdAt := TaskRow.created_at r;
          Task.updatedAt := TaskRow.updated_at r |}.

(** A window object of a request: [w.get("start")], [w.get("end")]. *)
Module WindowIn.
Record t : Type := mk { start : option string; end_ : option string }.
End WindowIn.

(** The loop body of [parse_time_windows]: the part appended for [w]. *)
Definition window_part (w : WindowIn.t) : list string :=
  let s := PyStr.strip (PyStr.or_empty (WindowIn.start w)) in
  let e := PyStr.strip (PyStr.or_empty (WindowIn.end_ w)) in
  if PyStr.truthy s && PyStr.truthy e then [s ++ String "-" e] else [].

Definition parse_time_windows (windows : option (list WindowIn.t)) : string :=
  PyStr.join "|"
    (flat_map window_part (match windows with Some l => l | None => [] end)).

Definition to_csv (items : option (list string)) : string :=
  PyStr.join ","
    (filter PyStr.truthy (match items with Some l => l | None => [] end)).

(* ================================================================== *)
(** ** The database *)

Record Store : Type := mkStore
  { admins : list AdminRow.t;
    admins_seq : Z;
    tasks : list TaskRow.t;
    tasks_seq : Z;
    appointments : list ApptRow.t;
    appointments_seq : Z }.

(** [init_db] on a fresh file: three empty tables. *)
Definition init_db : Store := mkStore [] 0 [] 0 [] 0.

(** The rowid given by [INTEGER PRIMARY KEY AUTOINCREMENT]: one more than
    the largest rowid the table ever held. *)
Definition max_rowid (ids : list Z) : Z := fold_right Z.max 0 ids.
Definition next_rowid (seq : Z) (ids : list Z) : Z :=
  Z.max seq (max_rowid ids) + 1.

(** [SELECT ... FROM tasks WHERE id=?] followed by [fetchone()]. *)
Definition select_task (st : Store) (task_id : Z) : option TaskRow.t :=
  find (fun r => TaskRow.id r =? task_id) (tasks st).

(** [SELECT * FROM tasks WHERE id=? AND active=1] followed by [fetchone()]. *)
Definition select_active_task (st : Store) (task_id : Z) : option TaskRow.t :=
  find (fun r => (TaskRow.id r =? task_id) && (TaskRow.active r =? 1))
       (tasks st).

(** [ORDER BY id DESC]: insertion into a list kept in descending id order. *)
Fixpoint insert_desc (r : TaskRow.t) (l : list TaskRow.t) : list TaskRow.t :=
  match l with
  | [] => [r]
  | x :: rest =>
      if TaskRow.id x <=? TaskRow.id r then r :: l
      else x :: insert_desc r rest
  end.

Definition order_by_id_desc (l : list TaskRow.t) : list TaskRow.t :=
  fold_right insert_desc [] l.

(** [SELECT start_time, end_time FROM appointments WHERE task_id=? AND date=?] *)
Definition select_appointments (st : Store) (task_id : Z) (date : string)
  : list ApptRow.t :=
  filter (fun a => (ApptRow.task_id a =? task_id)
                   && String.eqb (ApptRow.date a) date)
         (appointments st).

(** The admins table has a UNIQUE index on [email]; SQLite answers
    [WHERE email=?] and [WHERE email IN (?, ?)] by probing that index once
    per distinct value, the values taken in ascending order. *)
Fixpoint insert_value (v : string) (l : list string) : list string :=
  match l with
  | [] => [v]
  | x :: rest =>
      match String.compare v x with
      | Lt => v :: l
      | Eq => l
      | Gt => x :: insert_value v rest
      end
  end.

Definition in_values (params : list string) : list string :=
  fold_right insert_value [] params.

Definition select_admins (st : Store) (params : list string)
  : list AdminRow.t :=
  flat_map (fun v => filter (fun r => String.eqb (AdminRow.email r) v)
                            (admins st))
           (in_values params).

(** [cur.fetchone()] *)
Definition fetchone {A : Type} (rows : list A) : option A := hd_error rows.

(** [seed_admin]: [ensure(email)] inserts the account when it is missing.
    The salted hash that [generate_password_hash("admin")] returns and the
    clock reading of the insert are inputs of each call. *)
Definition ensure (st : Store) (email hash now : string) : Store :=
  match fetchone (select_admins st [email]) with
  | Some _ => st
  | None =>
      let new_id := next_rowid (admins_seq st) (map AdminRow.id (admins st)) in
      {| admins := admins st ++ [AdminRow.mk new_id email hash now];
         admins_seq := new_id;
         tasks := tasks st; tasks_seq := tasks_seq st;
         appointments := appointments st;
         appointments_seq := appointments_seq st |}
  end.

Definition seed_admin (st : Store) (hash1 hash2 now1 now2 : string) : Store :=
  ensure (ensure st "admin@example.com" hash1 now1) "admin" hash2 now2.

(* ================================================================== *)
(** ** Sessions and responses *)

Record Session : Type := mkSession
  { admin_id : option Z; admin_email : option string }.

Definition no_session : Session := mkSession None None.

Inductive Body : Type :=
| BTask (t : Task.t)
| BTasks (l : list Task.t)
| BOk
| BLoggedIn (email : string)
| BInvalidCredentials
| BError (msg : string)
| BException.

Record Response : Type := mkResponse { status : Z; body : Body }.

Definition json_error (code : Z) (msg : string) : Response :=
  mkResponse code (BError msg).

(** What Flask answers when a handler raises. *)
Definition server_error : Response := mkResponse 500 BException.

(** [require_admin]: [session.get("admin_id")] must be truthy. *)
Definition require_admin (sess : Session) : bool :=
  match admin_id sess with
  | Some i => negb (i =? 0)
  | None => false
  end.

(* ================================================================== *)
(** ** Request bodies *)

Module LoginIn.
Record t : Type := mk { email : option string; password : option string }.
End LoginIn.

Module TaskIn.
Record t : Type := mk
  { title : option string;
    description : option string;
    maxVolunteers : option Z;
    slotDurationMins : option json;
    type : option string;
    daysOfWeek : option (list string);
    timeWindows : option (list WindowIn.t);
    eventDates : option (list string);
    active : option json }.
End TaskIn.

Module BookIn.
Record t : Type := mk
  { taskId : option Z;
    date : option string;
    startTime : option string;
    endTime : option string;
    phone : option string }.
End BookIn.

(* ================================================================== *)
(** ** Auth API *)

Section Auth.

(** [werkzeug.security.check_password_hash], an external primitive. *)
Variable check_password_hash : string -> string -> bool.

Definition api_login (st : Store) (sess : Session) (data : LoginIn.t)
  : Response * Session :=
  let identifier :=
    PyStr.lower (PyStr.strip (PyStr.or_empty (LoginIn.email data))) in
  let password := PyStr.or_empty (LoginIn.password data) in
  let params :=
    if PyStr.contains "@" identifier then [identifier]
    else [identifier; identifier ++ "@example.com"] in
  match fetchone (select_admins st params) with
  | Some row =>
      if check_password_hash (AdminRow.password_hash row) password then
        (mkResponse 200 (BLoggedIn (AdminRow.email row)),
         mkSession (Some (AdminRow.id row)) (Some (AdminRow.email row)))
      else (mkResponse 401 BInvalidCredentials, sess)
  | None => (mkResponse 401 BInvalidCredentials, sess)
  end.

End Auth.

(* ================================================================== *)
(** ** Public API *)

Definition api_tasks_public (st : Store) : Response :=
  match traverse row_to_task
          (order_by_id_desc
             (filter (fun r => TaskRow.active r =? 1) (tasks st))) with
  | Some out => mkResponse 200 (BTasks out)
  | None => server_error
  end.

(* ================================================================== *)
(** ** Admin task CRUD *)

(** [int(data.get("slotDurationMins") or 60)]: [None] when [int()]
    raises. *)
Definition slot_mins_of (data : TaskIn.t) : option Z :=
  match TaskIn.slotDurationMins data with
  | Some v => if json_truthy v then PyInt.of_json v else Some 60
  | None => Some 60
  end.

(** [data.get("type") if data.get("type") in ("recurring", "event")
     else "recurring"] *)
Definition type_of (data : TaskIn.t) : string :=
  match TaskIn.type data with
  | Some ty =>
      if String.eqb ty "recurring" || String.eqb ty "event" then ty
      else "recurring"
  | None => "recurring"
  end.

(** [1 if data.get("active") else 0] *)
Definition active_of (data : TaskIn.t) : Z :=
  if get_truthy (TaskIn.active data) then 1 else 0.

Definition api_admin_list (st : Store) (sess : Session) : Response :=
  if negb (require_admin sess) then json_error 401 "Unauthorized" else
  match traverse row_to_task (order_by_id_desc (tasks st)) with
  | Some out => mkResponse 200 (BTasks out)
  | None => server_error
  end.

Definition api_admin_create (st : Store) (sess : Session) (data : TaskIn.t)
    (now : string) : Response * Store :=
  if negb (require_admin sess) then (json_error 401 "Unauthorized", st) else
  let title := PyStr.strip (PyStr.or_empty (TaskIn.title data)) in
  if negb (PyStr.truthy title) then (json_error 400 "Title is required", st)
  else
  let description := PyStr.strip (PyStr.or_empty (TaskIn.description data)) in
  let max_vol := TaskIn.maxVolunteers data in
  match slot_mins_of data with
  | None => (server_error, st)
  | Some slot_mins =>
  let type_ := type_of data in
  let days_csv := to_csv (TaskIn.daysOfWeek data) in
  let windows_csv := parse_time_windows (TaskIn.timeWindows data) in
  let dates_csv := to_csv (TaskIn.eventDates data) in
  let active := active_of data in
  (* the INSERT binds [max_vol] and [slot_mins] *)
  if negb (int64_opt max_vol && int64 slot_mins) then (server_error, st) else
  let lastrowid := next_rowid (tasks_seq st) (map TaskRow.id (tasks st)) in
  (* no rowid is left: the INSERT fails *)
  if negb (int64 lastrowid) then (server_error, st) else
  let row :=
    TaskRow.mk lastrowid title (Some description) max_vol (Some slot_mins)
      type_ (Some days_csv) (Some windows_csv) (Some dates_csv) active
      now now in
  let st' :=
    {| admins := admins st; admins_seq := admins_seq st;
       tasks := tasks st ++ [row]; tasks_seq := lastrowid;
       appointments := appointments st;
       appointments_seq := appointments_seq st |} in
  match r <- select_task st' lastrowid ;; row_to_task r with
  | Some task => (mkResponse 201 (BTask task), st')
  | None => (server_error, st')
  end
  end.

(** [UPDATE tasks SET ... WHERE id=?]: [id] and [created_at] are not in the
    SET list. *)
Definition update_row (task_id : Z) (title description : string)
    (max_vol : option Z) (slot_mins : Z) (type_ : string)
    (days_csv windows_csv dates_csv : string) (active : Z) (now : string)
    (r : TaskRow.t) : TaskRow.t :=
  if TaskRow.id r =? task_id then
    TaskRow.mk (TaskRow.id r) title (Some description) max_vol
      (Some slot_mins) type_ (Some days_csv) (Some windows_csv)
      (Some dates_csv) active (TaskRow.created_at r) now
  else r.

Definition api_admin_update (st : Store) (sess : Session) (task_id : Z)
    (data : TaskIn.t) (now : string) : Response * Store :=
  if negb (require_admin sess) then (json_error 401 "Unauthorized", st) else
  let title := PyStr.strip (PyStr.or_empty (TaskIn.title data)) in
  if negb (PyStr.truthy title) then (json_error 400 "Title is required", st)
  else
  let description := PyStr.strip (PyStr.or_empty (TaskIn.description data)) in
  let max_vol := TaskIn.maxVolunteers data in
  match slot_mins_of data with
  | None => (server_error, st)
  | Some slot_mins =>
  let type_ := type_of data in
  let days_csv := to_csv (TaskIn.daysOfWeek data) in
  let windows_csv := parse_time_windows (TaskIn.timeWindows data) in
  let dates_csv := to_csv (TaskIn.eventDates data) in
  let active := active_of data in
  (* the SELECT binds [task_id] *)
  if negb (int64 task_id) then (server_error, st) else
  match select_task st task_id with
  | None => (json_error 404 "Task not found", st)
  | Some _ =>
      (* the UPDATE binds [max_vol] and [slot_mins] *)
      if negb (int64_opt max_vol && int64 slot_mins) then (server_error, st)
      else
      let st' :=
        {| admins := admins st; admins_seq := admins_seq st;
           tasks := map (update_row task_id title description max_vol
                           slot_mins type_ days_csv windows_csv dates_csv
                           active now) (tasks st);
           tasks_seq := tasks_seq st;
           appointments := appointments st;
           appointments_seq := appointments_seq st |} in
      match r <- select_task st' task_id ;; row_to_task r with
      | Some task => (mkResponse 200 (BTask task), st')
      | None => (server_error, st')
      end
  end
  end.

(* ================================================================== *)
(** ** Appointments *)

(** Truth value of [data.get("taskId")] and the value bound to the query. *)
Definition id_truthy (x : option Z) : bool :=
  match x with Some z => negb (z =? 0) | None => false end.
Definition id_value (x : option Z) : Z :=
  match x with Some z => z | None => 0 end.

(** [sum(... for r in existing)] over booleans. *)
Fixpoint py_sum (bs : list bool) : Z :=
  match bs with
  | [] => 0
  | b :: r => (if b then 1 else 0) + py_sum r
  end.

(** [start < r["end_time"] and r["start_time"] < end] *)
Definition overlaps (start end_ : string) (r : ApptRow.t) : bool :=
  PyStr.lt start (ApptRow.end_time r) && PyStr.lt (ApptRow.start_time r) end_.

Definition num_overlap (st : Store) (task_id : Z) (date start end_ : string)
  : Z :=
  py_sum (map (overlaps start end_) (select_appointments st task_id date)).

Definition insert_appointment (st : Store) (task_id : Z)
    (date start end_ phone now : string) : Store :=
  let new_id :=
    next_rowid (appointments_seq st) (map ApptRow.id (appointments st)) in
  {| admins := admins st; admins_seq := admins_seq st;
     tasks := tasks st; tasks_seq := tasks_seq st;
     appointments :=
       appointments st
       ++ [ApptRow.mk new_id task_id date start end_ phone now];
     appointments_seq := new_id |}.

Definition api_appointments_create (st : Store) (data : BookIn.t)
    (now : string) : Response * Store :=
  let task_id := BookIn.taskId data in
  let date := PyStr.strip (PyStr.or_empty (BookIn.date data)) in
  let start := PyStr.strip (PyStr.or_empty (BookIn.startTime data)) in
  let end_ := PyStr.strip (PyStr.or_empty (BookIn.endTime data)) in
  let phone := PyStr.strip (PyStr.or_empty (BookIn.phone data)) in
  if negb (id_truthy task_id && PyStr.truthy date && PyStr.truthy start
           && PyStr.truthy end_ && PyStr.truthy phone)
  then (json_error 400 "Missing fields", st)
  else if PyStr.ge start end_
  then (json_error 400 "End time must be after start time", st)
  else
  match select_active_task st (id_value task_id) with
  | None =>
      (* Binding an id that is no 64-bit integer raises before the SELECT
         runs; no row has such an id, so this is a case in which the
         lookup finds nothing. *)
      if int64 (id_value task_id)
      then (json_error 404 "Task not found or inactive", st)
      else (server_error, st)
  | Some task =>
      let n := num_overlap st (id_value task_id) date start end_ in
      let max_vol := TaskRow.max_volunteers task in
      if match max_vol with Some m => n >=? m | None => false end
      then (json_error 409 "That time slot is full.", st)
      else (mkResponse 200 BOk,
            insert_appointment st (id_value task_id) date start end_ phone
              now)
  end.

(* ================================================================== *)
(** ** Definitions that follow the specification's words *)

(** The text before the first [sep] (all of [s] when there is none). *)
Fixpoint before_first (sep : ascii) (s : string) : string :=
  match s with
  | EmptyString => EmptyString
  | String c r =>
      if Ascii.eqb c sep then EmptyString else String c (before_first sep r)
  end.

(** The text after the first [sep] (empty when there is none). *)
Fixpoint after_first (sep : ascii) (s : string) : string :=
  match s with
  | EmptyString => EmptyString
  | String c r => if Ascii.eqb c sep then r else after_first sep r
  end.

(** A fragment split on its first dash only, as the specification words the
    decoding of a time window. *)
Definition split_on_first_dash (p : string) : Window.t :=
  Window.mk (before_first "-" p) (after_first "-" p).

(** What [row_to_task] makes of a fragment: the first two dash-separated
    pieces. *)
Definition first_two_pieces (p : string) : Window.t :=
  Window.mk (before_first "-" p) (before_first "-" (after_first "-" p)).

(** The request body that carries the fields of a task. *)
Definition window_in (w : Window.t) : WindowIn.t :=
  WindowIn.mk (Some (Window.start w)) (Some (Window.end_ w)).

Definition task_input (t : Task.t) : TaskIn.t :=
  {| TaskIn.title := Some (Task.title t);
     TaskIn.description := Some (Task.description t);
     TaskIn.maxVolunteers := Task.maxVolunteers t;
     TaskIn.slotDurationMins := option_map JNum (Task.slotDurationMins t);
     TaskIn.type := Some (Task.type t);
     TaskIn.daysOfWeek := Some (Task.daysOfWeek t);
     TaskIn.timeWindows := Some (map window_in (Task.timeWindows t));
     TaskIn.eventDates := Some (Task.eventDates t);
     TaskIn.active := Some (JBool (Task.active t)) |}.

(** The record that [api_admin_create] and [api_admin_update] write for a
    request body: the encoding direction of the serializer.  (Where
    [slot_mins_of] is [None] the handlers raise and write nothing.) *)
Definition encode_row (id : Z) (data : TaskIn.t) (created updated : string)
  : TaskRow.t :=
  TaskRow.mk id
    (PyStr.strip (PyStr.or_empty (TaskIn.title data)))
    (Some (PyStr.strip (PyStr.or_empty (TaskIn.description data))))
    (TaskIn.maxVolunteers data)
    (slot_mins_of data)
    (type_of data)
    (Some (to_csv (TaskIn.daysOfWeek data)))
    (Some (parse_time_windows (TaskIn.timeWindows data)))
    (Some (to_csv (TaskIn.eventDates data)))
    (active_of data)
    created updated.

Definition encode (t : Task.t) : TaskRow.t :=
  encode_row (Task.id t) (task_input t) (Task.createdAt t) (Task.updatedAt t).

Definition trimmed (s : string) : Prop := PyStr.strip s = s.

Definition valid_type (ty : string) : Prop := ty = "recurring" \/ ty = "event".

(** The data-model conditions on a task, with the conditions the round-trip
    property names: windows non-empty after trimming, list entries
    non-empty. *)
Record well_formed_as_claimed (t : Task.t) : Prop :=
  { wc_title : Task.title t <> EmptyString /\ trimmed (Task.title t);
    wc_description : trimmed (Task.description t);
    wc_slot : exists z, Task.slotDurationMins t = Some z /\ 0 < z;
    wc_type : valid_type (Task.type t);
    wc_days : Forall (fun d => d <> EmptyString) (Task.daysOfWeek t);
    wc_dates : Forall (fun d => d <> EmptyString) (Task.eventDates t);
    wc_windows :
      Forall (fun w => PyStr.strip (Window.start w) <> EmptyString
                       /\ PyStr.strip (Window.end_ w) <> EmptyString)
             (Task.timeWindows t) }.

(** The separator does not occur in the string. *)
Definition sep_free (sep : ascii) (s : string) : Prop :=
  PyStr.contains sep s = false.

(** A string that survives the delimiter encoding as one window bound. *)
Definition clean_bound (s : string) : Prop :=
  s <> EmptyString /\ trimmed s
  /\ PyStr.contains "-" s = false /\ PyStr.contains "|" s = false.

(** A string that survives the comma encoding as one entry. *)
Definition clean_entry (s : string) : Prop :=
  s <> EmptyString /\ PyStr.contains "," s = false.

Record well_formed (t : Task.t) : Prop :=
  { wf_title : Task.title t <> EmptyString /\ trimmed (Task.title t);
    wf_description : trimmed (Task.description t);
    wf_slot : exists z, Task.slotDurationMins t = Some z /\ 0 < z;
    wf_type : valid_type (Task.type t);
    wf_days : Forall clean_entry (Task.daysOfWeek t);
    wf_dates : Forall clean_entry (Task.eventDates t);
    wf_windows :
      Forall (fun w => clean_bound (Window.start w)
                       /\ clean_bound (Window.end_ w))
             (Task.timeWindows t) }.

(** [row_to_task] without the error monad: the task it returns (see
    [row_to_task_decoded]). *)
Definition decoded (r : TaskRow.t) : Task.t :=
  {| Task.id := TaskRow.id r;
     Task.title := TaskRow.title r;
     Task.description := PyStr.or_empty (TaskRow.description r);
     Task.maxVolunteers := TaskRow.max_volunteers r;
     Task.slotDurationMins := TaskRow.slot_duration_mins r;
     Task.type := TaskRow.type r;
     Task.daysOfWeek := csv_items (TaskRow.days_of_week r);
     Task.timeWindows :=
       map first_two_pieces
         (filter (PyStr.contains "-")
            (PyStr.split "|" (PyStr.or_empty (TaskRow.time_windows r))));
     Task.eventDates := csv_items (TaskRow.event_dates r);
     Task.active := negb (TaskRow.active r =? 0);
     Task.createdAt := TaskRow.created_at r;
     Task.updatedAt := TaskRow.updated_at r |}.

(** The title of a task request as the handlers read it. *)
Definition req_title (data : TaskIn.t) : string :=
  PyStr.strip (PyStr.or_empty (TaskIn.title data)).

(** The row transformer that [api_admin_update] maps over the table: the
    rows with the id are encoded anew, with their id and creation time. *)
Definition row_update (task_id : Z) (data : TaskIn.t) (now : string)
    (r : TaskRow.t) : TaskRow.t :=
  if TaskRow.id r =? task_id
  then encode_row (TaskRow.id r) data (TaskRow.created_at r) now
  else r.

(** The numbers of the request can be written: [int()] succeeds on the
    slot length, and the slot length and the capacity are 64-bit
    integers. *)
Definition storable (data : TaskIn.t) : bool :=
  match slot_mins_of data with
  | Some z => int64_opt (TaskIn.maxVolunteers data) && int64 z
  | None => false
  end.

(** An answer that is a refusal or a failure: its status is one of 400,
    401, 404, 409 and 500 and it carries no task. *)
Definition refusal (r : Response) : Prop :=
  (status r = 400 \/ status r = 401 \/ status r = 404 \/ status r = 409
   \/ status r = 500)
  /\ forall t, body r <> BTask t.

(** The id that the next inserted task receives. *)
Definition next_task_id (st : Store) : Z :=
  next_rowid (tasks_seq st) (map TaskRow.id (tasks st)).

(** The identifier and the password of a login request as the handler
    reads them. *)
Definition login_identifier (data : LoginIn.t) : string :=
  PyStr.lower (PyStr.strip (PyStr.or_empty (LoginIn.email data))).
Definition login_password (data : LoginIn.t) : string :=
  PyStr.or_empty (LoginIn.password data).

(** The emails under which the handler looks the identifier up. *)
Definition candidate (data : LoginIn.t) (email : string) : Prop :=
  email = login_identifier data
  \/ email = login_identifier data ++ "@example.com".

(** Wall-clock times as the clients write them: zero-padded [HH:MM]. *)
Definition digit (n : nat) : ascii := ascii_of_nat (48 + n).
Definition two_digits (n : nat) : string :=
  String (digit (n / 10)) (String (digit (n mod 10)) EmptyString).
Definition hhmm (h m : nat) : string :=
  two_digits h ++ String ":" (two_digits m).
Definition minutes (h m : nat) : nat := 60 * h + m.

(** [two_digits] orders the numbers below 100 as [Nat.compare] does,
    checked number by number. *)
Definition two_digits_ordered : bool :=
  forallb
    (fun a =>
       forallb
         (fun b =>
            match String.compare (two_digits a) (two_digits b),
                  Nat.compare a b with
            | Eq, Eq | Lt, Lt | Gt, Gt => true
            | _, _ => false
            end)
         (seq 0 100))
    (seq 0 100).

(** The fields of a booking request as the handler reads them. *)
Definition req_task (data : BookIn.t) : Z := id_value (BookIn.taskId data).
Definition req_date (data : BookIn.t) : string :=
  PyStr.strip (PyStr.or_empty (BookIn.date data)).
Definition req_start (data : BookIn.t) : string :=
  PyStr.strip (PyStr.or_empty (BookIn.startTime data)).
Definition req_end (data : BookIn.t) : string :=
  PyStr.strip (PyStr.or_empty (BookIn.endTime data)).
Definition req_phone (data : BookIn.t) : string :=
  PyStr.strip (PyStr.or_empty (BookIn.phone data)).

(** All five fields of the request are present and non-blank. *)
Definition fields_present (data : BookIn.t) : bool :=
  id_truthy (BookIn.taskId data) && PyStr.truthy (req_date data)
  && PyStr.truthy (req_start data) && PyStr.truthy (req_end data)
  && PyStr.truthy (req_phone data).

(** A request with every field given. *)
Definition booking (task_id : Z) (date start end_ phone : string) : BookIn.t :=
  BookIn.mk (Some task_id) (Some date) (Some start) (Some end_) (Some phone).

(** The row is an appointment of the task on the date and its window meets
    the requested one under the half-open test. *)
Definition counted (task_id : Z) (date start end_ : string) (a : ApptRow.t)
  : Prop :=
  ApptRow.task_id a = task_id /\ ApptRow.date a = date
  /\ PyStr.lt start (ApptRow.end_time a) = true
  /\ PyStr.lt (ApptRow.start_time a) end_ = true.

Definition countedb (task_id : Z) (date start end_ : string) (a : ApptRow.t)
  : bool :=
  (ApptRow.task_id a =? task_id) && String.eqb (ApptRow.date a) date
  && overlaps start end_ a.

(** The store with another appointments table. *)
Definition with_appointments (st : Store) (l : list ApptRow.t) : Store :=
  {| admins := admins st; admins_seq := admins_seq st;
     tasks := tasks st; tasks_seq := tasks_seq st;
     appointments := l; appointments_seq := appointments_seq st |}.

(** The order of strings, as propositions. *)
Definition str_lt (a b : string) : Prop := PyStr.lt a b = true.
Definition str_le (a b : string) : Prop := PyStr.lt b a = false.

(** Two half-open windows have a point in common. *)
Definition intersects (s1 e1 s2 e2 : string) : Prop :=
  exists x, str_le s1 x /\ str_lt x e1 /\ str_le s2 x /\ str_lt x e2.

(** The task with this id is shown by the public listing. *)
Definition listed (st : Store) (task_id : Z) : Prop :=
  exists l t,
    api_tasks_public st = mkResponse 200 (BTasks l)
    /\ In t l /\ Task.id t = task_id.

(* ================================================================== *)
(** ** The remaining handlers *)

(** [api_logout]: [session.clear()] and [{"ok": True}]. *)
Definition api_logout (sess : Session) : Response * Session :=
  (mkResponse 200 BOk, no_session).

(** The two answers of [api_me], both with status 200:
    [{"ok": True, "email": session.get("admin_email")}] and
    [{"ok": False}]. *)
Inductive MeBody : Type :=
| MeOk (email : option string)
| MeAnonymous.

Definition api_me (sess : Session) : MeBody :=
  if match admin_id sess with Some i => negb (i =? 0) | None => false end
  then MeOk (admin_email sess)
  else MeAnonymous.

(** [api_admin_delete]: [DELETE FROM tasks WHERE id=?].  The appointments
    table declares [ON DELETE CASCADE]; SQLite applies it only on a
    connection with [PRAGMA foreign_keys] on, which [get_db] does not set,
    so the setting of the connection is the parameter [foreign_keys]
    (off by default in SQLite).  The AUTOINCREMENT counters stay. *)
Definition api_admin_delete (foreign_keys : bool) (st : Store)
    (sess : Session) (task_id : Z) : Response * Store :=
  if negb (require_admin sess) then (json_error 401 "Unauthorized", st) else
  (* the DELETE binds [task_id] *)
  if negb (int64 task_id) then (server_error, st) else
  (mkResponse 200 BOk,
   {| admins := admins st; admins_seq := admins_seq st;
      tasks := filter (fun r => negb (TaskRow.id r =? task_id)) (tasks st);
      tasks_seq := tasks_seq st;
      appointments :=
        if foreign_keys
        then filter (fun a => negb (ApptRow.task_id a =? task_id))
               (appointments st)
        else appointments st;
      appointments_seq := appointments_seq st |}).

(* ================================================================== *)
(** ** Invariants and drivers used in the further properties *)

(** The key constraints of the schema: primary keys and the UNIQUE email
    are without duplicates, no rowid exceeds the AUTOINCREMENT counter of
    its table, and admin ids are positive. *)
Record store_ok (st : Store) : Prop :=
  { ok_task_ids : NoDup (map TaskRow.id (tasks st));
    ok_task_seq : Forall (fun r => TaskRow.id r <= tasks_seq st) (tasks st);
    ok_appt_ids : NoDup (map ApptRow.id (appointments st));
    ok_appt_seq :
      Forall (fun a => ApptRow.id a <= appointments_seq st)
        (appointments st);
    ok_admin_ids : NoDup (map AdminRow.id (admins st));
    ok_admin_seq :
      Forall (fun r => 0 < AdminRow.id r <= admins_seq st) (admins st);
    ok_admin_emails : NoDup (map AdminRow.email (admins st)) }.


(** The bounds of a request window as [parse_time_windows] reads them. *)
Definition window_start (w : WindowIn.t) : string :=
  PyStr.strip (PyStr.or_empty (WindowIn.start w)).
Definition window_end (w : WindowIn.t) : string :=
  PyStr.strip (PyStr.or_empty (WindowIn.end_ w)).

(** Both bounds are non-blank: the window is written to the record. *)
Definition window_kept (w : WindowIn.t) : bool :=
  PyStr.truthy (window_start w) && PyStr.truthy (window_end w).

(** Neither a dash nor a bar occurs in the string. *)
Definition delimiter_free (s : string) : Prop :=
  PyStr.contains "-" s = false /\ PyStr.contains "|" s = false.



(** Every character of the string is white space. *)
Fixpoint all_space (s : string) : bool :=
  match s with
  | EmptyString => true
  | String c r => PyStr.isspace c && all_space r
  end.

(** The title of the request is missing or white space only. *)
Definition title_blank (data : TaskIn.t) : Prop :=
  match TaskIn.title data with
  | Some s => all_space s = true
  | None => True
  end.

(** An account with the email is stored. *)
Definition has_account (st : Store) (email : string) : Prop :=
  exists r, In r (admins st) /\ AdminRow.email r = email.

(** A list of rows in descending order of id. *)
Fixpoint rows_descending (l : list TaskRow.t) : Prop :=
  match l with
  | [] => True
  | r :: rest =>
      Forall (fun x => TaskRow.id x <= TaskRow.id r) rest
      /\ rows_descending rest
  end.

(** A booking request with its text fields already stripped. *)
Definition trim_booking (data : BookIn.t) : BookIn.t :=
  BookIn.mk (BookIn.taskId data) (Some (req_date data))
    (Some (req_start data)) (Some (req_end data)) (Some (req_phone data)).

(** The same booking request sent [n] times in a row: the statuses of the
    answers and the store at the end. *)
Fixpoint book_times (n : nat) (st : Store) (data : BookIn.t) (now : string)
  : list Z * Store :=
  match n with
  | O => ([], st)
  | S k =>
      let r := api_appointments_create st data now in
      let rest := book_times k (snd r) data now in
      (status (fst r) :: fst rest, snd rest)
  end.

(** The tasks a response lists ([[]] for an error answer). *)
Definition listing (r : Response) : list Task.t :=
  match body r with BTasks l => l | _ => [] end.

(** A list of tasks in descending order of id. *)
Fixpoint ids_descending (l : list Task.t) : Prop :=
  match l with
  | [] => True
  | t :: rest =>
      Forall (fun u => Task.id u <= Task.id t) rest /\ ids_descending rest
  end.

(* ================================================================== *)
(** ** Concrete rows, tasks and stores used in the examples *)

Module Fixtures.

(** A stored record whose only window fragment has two dashes. *)
Definition row_extra : TaskRow.t :=
  TaskRow.mk 1 "Sorting" None None None "recurring" None
    (Some "09:00-12:00-extra") None 1 "2025-08-01T08:00:00"
    "2025-08-01T08:00:00".

(** A stored record with NULLs and stray delimiters everywhere. *)
Definition row_ragged : TaskRow.t :=
  TaskRow.mk 7 "Ragged" None None None "event" (Some ",Mon,,Tue,")
    (Some "|09:00-12:00||noon|-|14:00-") (Some ",,") 0
    "2025-08-01T08:00:00" "2025-08-02T08:00:00".

(** A task whose window start carries a leading blank. *)
Definition task_padded : Task.t :=
  Task.mk 3 "Food bank" "Sort donations" (Some 2) (Some 60) "recurring"
    ["Mon"; "Wed"] [Window.mk " 09:00" "12:00"] [] true
    "2025-08-01T08:00:00" "2025-08-01T08:00:00".

(** A task that meets every condition of [well_formed]. *)
Definition task_clean : Task.t :=
  Task.mk 3 "Food bank" "Sort donations" (Some 2) (Some 60) "event"
    ["Mon"; "Wed"] [Window.mk "09:00" "12:00"; Window.mk "14:00" "17:00"]
    ["2025-08-20"; "2025-08-21"] true
    "2025-08-01T08:00:00" "2025-08-01T08:00:00".

Definition admin_session : Session := mkSession (Some 1) (Some "admin").

Definition task_row (id : Z) (max_vol : option Z) (active : Z) : TaskRow.t :=
  TaskRow.mk id "Food bank" (Some "") max_vol (Some 60) "recurring"
    (Some "Mon") (Some "09:00-12:00") (Some "") active
    "2025-08-01T08:00:00" "2025-08-01T08:00:00".

Definition appt (id task_id : Z) (date start end_ : string) : ApptRow.t :=
  ApptRow.mk id task_id date start end_ "0911" "2025-08-02T08:00:00".

(** One task of capacity 1 with one appointment on each of two dates. *)
Definition store_two_dates : Store :=
  mkStore [] 0 [task_row 1 (Some 1) 1] 1
    [appt 1 1 "2025-08-20" "09:00" "10:00";
     appt 2 1 "2025-08-21" "09:00" "10:00"] 2.

(** One task of capacity 2, two overlapping appointments on one date. *)
Definition store_full : Store :=
  mkStore [] 0 [task_row 1 (Some 2) 1] 1
    [appt 1 1 "2025-08-20" "09:00" "10:30";
     appt 2 1 "2025-08-21" "09:00" "10:00";
     appt 3 1 "2025-08-20" "10:00" "11:00"] 3.

(** One task of capacity 1, nothing booked. *)
Definition store_one_task : Store :=
  mkStore [] 0 [task_row 1 (Some 1) 1] 1 [] 0.

(** One task without a capacity and one of capacity zero. *)
Definition store_unlimited : Store :=
  mkStore [] 0 [task_row 1 None 1; task_row 2 (Some 0) 1] 2
    [appt 1 1 "2025-08-20" "09:00" "10:00"] 1.

(** A request body without a title and one with every field. *)
Definition input_untitled : TaskIn.t :=
  TaskIn.mk None None None None None None None None None.

Definition input_full (active : option json) : TaskIn.t :=
  TaskIn.mk (Some "  Soup kitchen ") (Some "Serve lunch") (Some 4)
    (Some (JNum 30)) (Some "weekly") (Some ["Sat"; ""; "Sun"])
    (Some [WindowIn.mk (Some "11:00") (Some "14:00");
           WindowIn.mk (Some "  ") (Some "15:00")])
    None active.

(** Two tasks: an active one and an inactive one. *)
Definition store_tasks : Store :=
  mkStore [] 0 [task_row 1 (Some 1) 1; task_row 2 None 0] 2 [] 0.

(** A stand-in for the password primitive: the hash of a password is the
    password behind a fixed prefix. *)
Definition toy_hash (password : string) : string := "pbkdf2:" ++ password.
Definition toy_check (hash password : string) : bool :=
  String.eqb hash (toy_hash password).

(** The admins table after [init_db] and [seed_admin]. *)
Definition store_seeded : Store :=
  seed_admin init_db (toy_hash "admin") (toy_hash "admin")
    "2025-08-01T08:00:00.000150" "2025-08-01T08:00:00.093722".

(** A store with two tasks, appointments for both and the seeded admins. *)
Definition store_busy : Store :=
  mkStore
    [AdminRow.mk 1 "admin@example.com" (toy_hash "admin") "2025-08-01";
     AdminRow.mk 2 "admin" (toy_hash "admin") "2025-08-01"] 2
    [task_row 1 (Some 2) 1; task_row 3 None 0] 4
    [appt 1 1 "2025-08-20" "09:00" "10:00";
     appt 2 3 "2025-08-20" "09:00" "10:00"] 2.

(** Request windows: a padded one, one without an end, a blank one and a
    plain one. *)
Definition windows_in : list WindowIn.t :=
  [WindowIn.mk (Some " 09:00 ") (Some "12:00");
   WindowIn.mk (Some "13:00") None;
   WindowIn.mk (Some "  ") (Some "15:00");
   WindowIn.mk (Some "14:00") (Some "17:00")].

(** A request body whose title is white space only. *)
Definition input_blank_title : TaskIn.t :=
  TaskIn.mk (Some "   ") (Some "x") None None None None None None
    (Some (JBool true)).

(** A titled request body with the given capacity and slot length. *)
Definition input_numbers (max_vol : option Z) (slot : option json)
  : TaskIn.t :=
  TaskIn.mk (Some "Soup kitchen") None max_vol slot None None None None None.

(** The float 0.5. *)
Definition half : spec_float := S754_finite false 1 (-1).

End Fixtures.

(* ================================================================== *)
(** * Properties *)

(** ** Splitting and joining *)

Section SplitJoin.

Variable sep : ascii.

Lemma split_unfold (s : string) :
  PyStr.split sep s
  = before_first sep s
    :: (if PyStr.contains sep s then PyStr.split sep (after_first sep s)
        else []).
Proof.
  induction s as [|c r IH]; simpl; [reflexivity|].
  destruct (Ascii.eqb c sep); simpl; [reflexivity|].
  rewrite IH. reflexivity.
Qed.

Lemma split_not_nil (s : string) : PyStr.split sep s <> [].
Proof. rewrite split_unfold. discriminate. Qed.

Lemma before_first_id (s : string) :
  PyStr.contains sep s = false -> before_first sep s = s.
Proof.
  induction s as [|c r IH]; simpl; [reflexivity|].
  destruct (Ascii.eqb c sep); simpl; [discriminate|].
  intros H. now rewrite IH.
Qed.

Lemma split_no_sep (s : string) :
  PyStr.contains sep s = false -> PyStr.split sep s = [s].
Proof.
  intros H. rewrite split_unfold, H. now rewrite before_first_id.
Qed.

Lemma contains_app (a b : string) :
  PyStr.contains sep (a ++ b)
  = PyStr.contains sep a || PyStr.contains sep b.
Proof.
  induction a as [|c r IH]; simpl; [reflexivity|].
  rewrite IH. now rewrite orb_assoc.
Qed.

Lemma before_first_app (a b : string) :
  PyStr.contains sep a = false ->
  before_first sep (a ++ String sep b) = a.
Proof.
  induction a as [|c r IH]; simpl.
  - now rewrite Ascii.eqb_refl.
  - destruct (Ascii.eqb c sep); simpl; [discriminate|].
    intros H. now rewrite IH.
Qed.

Lemma after_first_app (a b : string) :
  PyStr.contains sep a = false ->
  after_first sep (a ++ String sep b) = b.
Proof.
  induction a as [|c r IH]; simpl.
  - now rewrite Ascii.eqb_refl.
  - destruct (Ascii.eqb c sep); simpl; [discriminate|]. exact IH.
Qed.

Lemma split_app (a b : string) :
  PyStr.contains sep a = false ->
  PyStr.split sep (a ++ String sep b) = a :: PyStr.split sep b.
Proof.
  intros H. rewrite split_unfold, contains_app, H. simpl.
  rewrite Ascii.eqb_refl. simpl.
  now rewrite before_first_app, after_first_app.
Qed.

Local Abbreviation sep_free := (sep_free sep).

Lemma split_join (x : string) (l : list string) :
  Forall sep_free (x :: l) ->
  PyStr.split sep (PyStr.join sep (x :: l)) = x :: l.
Proof.
  revert x. induction l as [|y l IH]; intros x H.
  - simpl. apply split_no_sep. now inversion H.
  - inversion H as [|? ? Hx Hl]; subst.
    change (PyStr.join sep (x :: y :: l))
      with (x ++ String sep (PyStr.join sep (y :: l))).
    rewrite split_app by exact Hx. now rewrite IH.
Qed.

(** Whatever the filter, as long as it rejects the empty fragment, the
    fragments read back from a joined string are the ones joined. *)
Lemma filter_split_join (keep : string -> bool) (l : list string) :
  keep EmptyString = false ->
  Forall sep_free l ->
  filter keep (PyStr.split sep (PyStr.join sep l)) = filter keep l.
Proof.
  intros Hk H. destruct l as [|x l].
  - simpl. now rewrite Hk.
  - now rewrite split_join.
Qed.

End SplitJoin.

Lemma truthy_true_iff (s : string) :
  PyStr.truthy s = true <-> s <> EmptyString.
Proof. destruct s; simpl; split; congruence. Qed.

Lemma filter_all {A : Type} (f : A -> bool) (l : list A) :
  Forall (fun x => f x = true) l -> filter f l = l.
Proof.
  induction 1 as [|x l Hx _ IH]; simpl; [reflexivity|].
  now rewrite Hx, IH.
Qed.

(** ** The error monad *)

Lemma traverse_total {A B : Type} (f : A -> option B) (g : A -> B)
    (l : list A) :
  Forall (fun x => f x = Some (g x)) l -> traverse f l = Some (map g l).
Proof.
  induction 1 as [|x l Hx _ IH]; simpl; [reflexivity|].
  now rewrite Hx, IH.
Qed.

Lemma traverse_length {A B : Type} (f : A -> option B) (l : list A)
    (out : list B) :
  traverse f l = Some out -> length out = length l.
Proof.
  revert out. induction l as [|x l IH]; simpl; intros out H.
  - now inversion H.
  - destruct (f x); simpl in H; [|discriminate].
    destruct (traverse f l); simpl in H; [|discriminate].
    inversion H; subst. simpl. now rewrite (IH l0).
Qed.

(** ** Decoding *)

(** Both indices taken by [row_to_task] exist as soon as the fragment has a
    dash. *)
Lemma window_of_fragment_dash (p : string) :
  PyStr.contains "-" p = true ->
  window_of_fragment p = Some (first_two_pieces p).
Proof.
  intros H. unfold window_of_fragment, first_two_pieces.
  rewrite (split_unfold "-" p), H.
  rewrite (split_unfold "-" (after_first "-" p)). reflexivity.
Qed.

Lemma decode_windows_total (col : option string) :
  decode_windows col
  = Some (map first_two_pieces
            (filter (PyStr.contains "-")
                    (PyStr.split "|" (PyStr.or_empty col)))).
Proof.
  unfold decode_windows. apply traverse_total.
  apply Forall_forall. intros p Hp. apply filter_In in Hp.
  apply window_of_fragment_dash, Hp.
Qed.

Lemma row_to_task_total (r : TaskRow.t) :
  row_to_task r
  = Some {| Task.id := TaskRow.id r;
            Task.title := TaskRow.title r;
            Task.description := PyStr.or_empty (TaskRow.description r);
            Task.maxVolunteers := TaskRow.max_volunteers r;
            Task.slotDurationMins := TaskRow.slot_duration_mins r;
            Task.type := TaskRow.type r;
            Task.daysOfWeek := csv_items (TaskRow.days_of_week r);
            Task.timeWindows :=
              map first_two_pieces
                (filter (PyStr.contains "-")
                   (PyStr.split "|"
                      (PyStr.or_empty (TaskRow.time_windows r))));
            Task.eventDates := csv_items (TaskRow.event_dates r);
            Task.active := negb (TaskRow.active r =? 0);
            Task.createdAt := TaskRow.created_at r;
            Task.updatedAt := TaskRow.updated_at r |}.
Proof.
  unfold row_to_task. rewrite decode_windows_total. reflexivity.
Qed.

(** ** Encoding *)

Lemma csv_roundtrip (l : list string) :
  Forall clean_entry l -> csv_items (Some (to_csv (Some l))) = l.
Proof.
  intros H. unfold csv_items, to_csv. simpl.
  assert (Hall : Forall (fun x => PyStr.truthy x = true) l).
  { eapply Forall_impl; [|exact H]. intros x [Hx _].
    now apply truthy_true_iff. }
  rewrite (filter_all _ _ Hall).
  rewrite filter_split_join; [now apply filter_all|reflexivity|].
  eapply Forall_impl; [|exact H]. intros x [_ Hx]. exact Hx.
Qed.

Lemma window_part_clean (w : Window.t) :
  clean_bound (Window.start w) -> clean_bound (Window.end_ w) ->
  window_part (window_in w)
  = [Window.start w ++ String "-" (Window.end_ w)].
Proof.
  intros (Hs & Ts & _) (He & Te & _). unfold window_part. simpl.
  rewrite Ts, Te.
  apply truthy_true_iff in Hs. apply truthy_true_iff in He.
  now rewrite Hs, He.
Qed.

Lemma parse_time_windows_clean (ws : list Window.t) :
  Forall (fun w => clean_bound (Window.start w)
                   /\ clean_bound (Window.end_ w)) ws ->
  parse_time_windows (Some (map window_in ws))
  = PyStr.join "|"
      (map (fun w => Window.start w ++ String "-" (Window.end_ w)) ws).
Proof.
  intros H. unfold parse_time_windows. f_equal.
  induction H as [|w ws [Hs He] _ IH]; simpl; [reflexivity|].
  rewrite (window_part_clean w Hs He). simpl. now rewrite IH.
Qed.

Lemma first_two_pieces_pair (w : Window.t) :
  clean_bound (Window.start w) -> clean_bound (Window.end_ w) ->
  first_two_pieces (Window.start w ++ String "-" (Window.end_ w)) = w.
Proof.
  intros (_ & _ & Ds & _) (_ & _ & De & _). unfold first_two_pieces.
  rewrite before_first_app, after_first_app by exact Ds.
  rewrite before_first_id by exact De. now destruct w.
Qed.

Lemma windows_roundtrip (ws : list Window.t) :
  Forall (fun w => clean_bound (Window.start w)
                   /\ clean_bound (Window.end_ w)) ws ->
  map first_two_pieces
    (filter (PyStr.contains "-")
       (PyStr.split "|" (parse_time_windows (Some (map window_in ws)))))
  = ws.
Proof.
  intros H. rewrite (parse_time_windows_clean ws H).
  rewrite filter_split_join.
  - rewrite filter_all.
    + rewrite map_map.
      induction H as [|w ws [Hs He] _ IH]; simpl; [reflexivity|].
      now rewrite (first_two_pieces_pair w Hs He), IH.
    + apply Forall_map.
      eapply Forall_impl; [|exact H]. intros w _.
      rewrite contains_app. simpl. apply orb_true_r.
  - reflexivity.
  - apply Forall_map.
    eapply Forall_impl; [|exact H].
    intros w [(_ & _ & _ & Bs) (_ & _ & _ & Be)].
    unfold sep_free. rewrite contains_app. simpl. now rewrite Bs, Be.
Qed.

Lemma type_of_valid (data : TaskIn.t) (ty : string) :
  TaskIn.type data = Some ty -> valid_type ty -> type_of data = ty.
Proof.
  intros E [H|H]; unfold type_of; rewrite E; subst; reflexivity.
Qed.

(** ** The serializer's claims *)

(** C3, as amended.  For every task that is well formed in the sense of
    [well_formed] (title and description without surrounding blanks, a
    positive slot length, a type of the enumeration, list entries that are
    non-empty and hold no comma, window bounds that are non-empty, carry no
    surrounding blanks and hold neither a dash nor a bar), decoding the
    encoded record gives the task back. *)
Theorem decode_encode_roundtrip (t : Task.t) :
  well_formed t -> row_to_task (encode t) = Some t.
Proof.
  intros [[_ Ht] Hd (z & Hz & Hpos) Hty Hdays Hdates Hw].
  rewrite row_to_task_total. destruct t as
    [id title descr maxv slot ty days wins dates act created updated].
  simpl in *. unfold encode, encode_row, task_input.
  cbn [TaskRow.id TaskRow.title TaskRow.description TaskRow.max_volunteers
       TaskRow.slot_duration_mins TaskRow.type TaskRow.days_of_week
       TaskRow.time_windows TaskRow.event_dates TaskRow.active
       TaskRow.created_at TaskRow.updated_at
       TaskIn.title TaskIn.description TaskIn.maxVolunteers
       TaskIn.daysOfWeek TaskIn.timeWindows TaskIn.eventDates
       Task.id Task.title Task.description Task.maxVolunteers
       Task.slotDurationMins Task.type Task.daysOfWeek Task.timeWindows
       Task.eventDates Task.active Task.createdAt Task.updatedAt].
  rewrite (csv_roundtrip days Hdays), (csv_roundtrip dates Hdates).
  rewrite (windows_roundtrip wins Hw).
  unfold trimmed in Ht, Hd. rewrite Ht, Hd.
  erewrite type_of_valid by (try reflexivity; exact Hty).
  subst slot. unfold slot_mins_of, active_of. simpl.
  replace (z =? 0) with false by (symmetry; apply Z.eqb_neq; lia).
  now destruct act.
Qed.

Lemma task_clean_well_formed : well_formed Fixtures.task_clean.
Proof.
  constructor; simpl; unfold trimmed, valid_type, clean_entry, clean_bound;
    repeat first
      [ apply Forall_nil | apply Forall_cons | split | reflexivity
      | discriminate | (right; reflexivity)
      | (exists 60; split; [reflexivity|lia]) ].
Qed.

Lemma decode_encode_roundtrip_witness :
  row_to_task (encode Fixtures.task_clean) = Some Fixtures.task_clean.
Proof.
  apply (decode_encode_roundtrip Fixtures.task_clean).
  exact task_clean_well_formed.
Defined.

(** C3, as stated, fails: a window start with a leading blank is non-empty
    after trimming, yet the encoder stores the trimmed text and the decoder
    returns that. *)
Lemma roundtrip_fails_on_padded_window :
  well_formed_as_claimed Fixtures.task_padded
  /\ option_map Task.timeWindows (row_to_task (encode Fixtures.task_padded))
     = Some [Window.mk "09:00" "12:00"]
  /\ row_to_task (encode Fixtures.task_padded) <> Some Fixtures.task_padded.
Proof.
  split; [|split].
  - constructor; simpl; unfold trimmed, valid_type;
      repeat first
        [ apply Forall_nil | apply Forall_cons | split | reflexivity
        | discriminate | (left; reflexivity)
        | (exists 60; split; [reflexivity|lia]) ].
  - vm_compute. reflexivity.
  - vm_compute. discriminate.
Qed.

(** C5, as amended.  Decoding splits the stored string on the bar, keeps the
    fragments that hold a dash, and cuts each kept fragment at every dash:
    the start is the text before the first dash and the end is the text
    between the first dash and the second one (up to the end of the fragment
    when there is no second dash); what follows a second dash is dropped. *)
Theorem decode_takes_first_two_pieces (r : TaskRow.t) :
  exists t,
    row_to_task r = Some t
    /\ Task.timeWindows t
       = map (fun p =>
                Window.mk (before_first "-" p)
                          (before_first "-" (after_first "-" p)))
           (filter (PyStr.contains "-")
              (PyStr.split "|" (PyStr.or_empty (TaskRow.time_windows r)))).
Proof.
  eexists. split; [apply row_to_task_total|reflexivity].
Qed.

(** C5, as stated, fails: of the fragment 09:00-12:00-extra the decoded end
    is 12:00, not the text after the first dash. *)
Lemma decode_end_is_not_rest_after_first_dash :
  split_on_first_dash "09:00-12:00-extra" = Window.mk "09:00" "12:00-extra"
  /\ option_map Task.timeWindows (row_to_task Fixtures.row_extra)
     = Some [Window.mk "09:00" "12:00"]
  /\ option_map Task.timeWindows (row_to_task Fixtures.row_extra)
     <> Some [split_on_first_dash "09:00-12:00-extra"].
Proof.
  split; [|split]; vm_compute; [reflexivity|reflexivity|discriminate].
Qed.

(** C6.  [row_to_task] returns a task for every stored record: both indices
    it takes exist for every fragment it keeps.  A NULL description decodes
    to the empty string and NULL list columns to empty lists.  Of the
    fragments of a comma-separated column exactly the empty ones are
    dropped, and of the fragments of the window column exactly the ones
    without a dash. *)
Theorem row_to_task_total_and_tolerant (r : TaskRow.t) :
  exists t,
    row_to_task r = Some t
    /\ Task.description t = PyStr.or_empty (TaskRow.description r)
    /\ (TaskRow.description r = None -> Task.description t = EmptyString)
    /\ (TaskRow.days_of_week r = None -> Task.daysOfWeek t = [])
    /\ (TaskRow.time_windows r = None -> Task.timeWindows t = [])
    /\ (TaskRow.event_dates r = None -> Task.eventDates t = [])
    /\ (forall l, Forall (sep_free ",") l ->
                  TaskRow.days_of_week r = Some (PyStr.join "," l) ->
                  Task.daysOfWeek t = filter PyStr.truthy l)
    /\ (forall l, Forall (sep_free ",") l ->
                  TaskRow.event_dates r = Some (PyStr.join "," l) ->
                  Task.eventDates t = filter PyStr.truthy l)
    /\ (forall l, Forall (sep_free "|") l ->
                  TaskRow.time_windows r = Some (PyStr.join "|" l) ->
                  Task.timeWindows t
                  = map first_two_pieces (filter (PyStr.contains "-") l)).
Proof.
  eexists. split; [apply row_to_task_total|]. simpl.
  repeat split.
  - intros H. now rewrite H.
  - intros H. now rewrite H.
  - intros H. now rewrite H.
  - intros H. now rewrite H.
  - intros l Hl H. rewrite H. unfold csv_items. simpl.
    now apply filter_split_join.
  - intros l Hl H. rewrite H. unfold csv_items. simpl.
    now apply filter_split_join.
  - intros l Hl H. rewrite H. simpl. f_equal.
    now apply filter_split_join.
Qed.

Lemma row_to_task_total_and_tolerant_witness :
  exists t,
    row_to_task Fixtures.row_ragged = Some t
    /\ Task.description t = EmptyString
    /\ Task.daysOfWeek t = ["Mon"; "Tue"]
    /\ Task.eventDates t = []
    /\ Task.timeWindows t
       = [Window.mk "09:00" "12:00"; Window.mk "" ""; Window.mk "14:00" ""].
Proof.
  destruct (row_to_task_total_and_tolerant Fixtures.row_ragged)
    as (t & Ht & Hd & _ & _ & _ & _ & Hdays & Hdates & Hwin).
  exists t. split; [exact Ht|]. split; [exact Hd|].
  split; [|split].
  - apply (Hdays [""; "Mon"; ""; "Tue"; ""]); [|reflexivity].
    repeat constructor.
  - apply (Hdates [""; ""; ""]); [|reflexivity]. repeat constructor.
  - apply (Hwin [""; "09:00-12:00"; ""; "noon"; "-"; "14:00-"]);
      [|reflexivity].
    repeat constructor.
Defined.

(* ================================================================== *)
(** ** Queries *)

Lemma find_all_false {A : Type} (f : A -> bool) (l : list A) :
  (forall x, In x l -> f x = false) -> find f l = None.
Proof.
  induction l as [|x l IH]; simpl; intros H; [reflexivity|].
  rewrite (H x (or_introl eq_refl)). apply IH. intros y Hy. apply H. now right.
Qed.

(** No row with the id is active: the lookup of the booking finds nothing. *)
Lemma select_active_task_none (st : Store) (task_id : Z) :
  (forall r, In r (tasks st) -> TaskRow.id r = task_id ->
             TaskRow.active r <> 1) ->
  select_active_task st task_id = None.
Proof.
  intros H. apply find_all_false. intros r Hr.
  destruct (Z.eqb_spec (TaskRow.id r) task_id) as [E|E]; simpl;
    [|reflexivity].
  apply Z.eqb_neq. now apply H.
Qed.

(** Under the primary key, an active row is the one the lookup returns. *)
Lemma select_active_task_some (st : Store) (task : TaskRow.t) :
  NoDup (map TaskRow.id (tasks st)) ->
  In task (tasks st) -> TaskRow.active task = 1 ->
  select_active_task st (TaskRow.id task) = Some task.
Proof.
  unfold select_active_task. intros Hnd Hin Hact.
  induction (tasks st) as [|x l IH]; simpl in *; [contradiction|].
  inversion Hnd as [|? ? Hx Hl]; subst.
  destruct Hin as [->|Hin].
  - now rewrite Z.eqb_refl, Hact.
  - destruct (Z.eqb_spec (TaskRow.id x) (TaskRow.id task)) as [E|E]; simpl.
    + exfalso. apply Hx. rewrite E. now apply in_map.
    + now apply IH.
Qed.

(** ** Counting overlaps *)

Lemma py_sum_nonneg (bs : list bool) : 0 <= py_sum bs.
Proof. induction bs as [|[|] bs IH]; cbn [py_sum]; lia. Qed.

Lemma countedb_spec (task_id : Z) (date start end_ : string) (a : ApptRow.t) :
  countedb task_id date start end_ a = true
  <-> counted task_id date start end_ a.
Proof.
  unfold countedb, counted, overlaps.
  rewrite !andb_true_iff, Z.eqb_eq, String.eqb_eq. tauto.
Qed.

Lemma num_overlap_filter (st : Store) (task_id : Z) (date start end_ : string) :
  num_overlap st task_id date start end_
  = Z.of_nat
      (length (filter (countedb task_id date start end_) (appointments st))).
Proof.
  unfold num_overlap, select_appointments, countedb.
  induction (appointments st) as [|a l IH]; simpl; [reflexivity|].
  destruct ((ApptRow.task_id a =? task_id)
            && String.eqb (ApptRow.date a) date); cbn [andb map py_sum];
    [|exact IH].
  destruct (overlaps start end_ a); cbn [length]; rewrite IH; lia.
Qed.

Lemma filter_perm {A : Type} (f : A -> bool) (l l' : list A) :
  Permutation l l' -> Permutation (filter f l) (filter f l').
Proof.
  induction 1 as [|x l l' _ IH|x y l|l l' l'' _ IH1 _ IH2]; simpl.
  - constructor.
  - destruct (f x); [now constructor|exact IH].
  - destruct (f x), (f y); try reflexivity. constructor.
  - now transitivity (filter f l').
Qed.

Lemma filter_none {A : Type} (f : A -> bool) (l : list A) :
  Forall (fun x => f x = false) l -> filter f l = [].
Proof.
  induction 1 as [|x l Hx _ IH]; simpl; [reflexivity|]. now rewrite Hx.
Qed.

(** The count is the number of rows that are [counted]. *)
Lemma num_overlap_exact (st : Store) (task_id : Z) (date start end_ : string)
    (hits misses : list ApptRow.t) :
  Permutation (appointments st) (hits ++ misses) ->
  Forall (counted task_id date start end_) hits ->
  Forall (fun a => ~ counted task_id date start end_ a) misses ->
  num_overlap st task_id date start end_ = Z.of_nat (length hits).
Proof.
  intros Hp Hh Hm. rewrite num_overlap_filter.
  rewrite (Permutation_length
             (filter_perm (countedb task_id date start end_) _ _ Hp)).
  rewrite filter_app, length_app.
  rewrite filter_all, filter_none; [simpl; f_equal; lia| |].
  - eapply Forall_impl; [|exact Hm]. intros a Ha.
    destruct (countedb task_id date start end_ a) eqn:E; [|reflexivity].
    exfalso. now apply Ha, countedb_spec.
  - eapply Forall_impl; [|exact Hh]. intros a Ha. now apply countedb_spec.
Qed.

(** Rows that are [counted] bound the count from below. *)
Lemma num_overlap_at_least (st : Store) (task_id : Z)
    (date start end_ : string) (hits rest : list ApptRow.t) :
  Permutation (appointments st) (hits ++ rest) ->
  Forall (counted task_id date start end_) hits ->
  Z.of_nat (length hits) <= num_overlap st task_id date start end_.
Proof.
  intros Hp Hh. rewrite num_overlap_filter.
  rewrite (Permutation_length
             (filter_perm (countedb task_id date start end_) _ _ Hp)).
  rewrite filter_app, length_app, filter_all; [lia|].
  eapply Forall_impl; [|exact Hh]. intros a Ha. now apply countedb_spec.
Qed.

(** Appointments of other dates are not seen by the count. *)
Lemma num_overlap_other_dates (st : Store) (task_id : Z)
    (date start end_ : string) (extra : list ApptRow.t) :
  Forall (fun a => ApptRow.date a <> date) extra ->
  num_overlap (with_appointments st (appointments st ++ extra))
    task_id date start end_
  = num_overlap st task_id date start end_.
Proof.
  intros H. rewrite !num_overlap_filter. simpl.
  rewrite filter_app, length_app, (filter_none _ extra); [simpl; lia|].
  eapply Forall_impl; [|exact H]. intros a Ha. unfold countedb.
  destruct (String.eqb_spec (ApptRow.date a) date) as [E|E];
    [contradiction|].
  now rewrite andb_false_r.
Qed.

(** ** The booking handler, case by case *)

Lemma api_appointments_create_cases (st : Store) (data : BookIn.t)
    (now : string) :
  api_appointments_create st data now
  = if negb (fields_present data)
    then (json_error 400 "Missing fields", st)
    else if PyStr.ge (req_start data) (req_end data)
    then (json_error 400 "End time must be after start time", st)
    else
      match select_active_task st (req_task data) with
      | None =>
          if int64 (req_task data)
          then (json_error 404 "Task not found or inactive", st)
          else (server_error, st)
      | Some task =>
          if match TaskRow.max_volunteers task with
             | Some m =>
                 num_overlap st (req_task data) (req_date data)
                   (req_start data) (req_end data) >=? m
             | None => false
             end
          then (json_error 409 "That time slot is full.", st)
          else (mkResponse 200 BOk,
                insert_appointment st (req_task data) (req_date data)
                  (req_start data) (req_end data) (req_phone data) now)
      end.
Proof. reflexivity. Qed.

Lemma ge_of_lt (a b : string) : PyStr.lt a b = true -> PyStr.ge a b = false.
Proof. unfold PyStr.ge, PyStr.lt. now intros ->. Qed.

(** On a store whose task ids are 64-bit integers, as the rowids of SQLite
    are, the handler is the one that binds the id, failing if it cannot,
    and only then looks the task up. *)
Lemma booking_binds_before_lookup (st : Store) (data : BookIn.t)
    (now : string) :
  Forall (fun r => int64 (TaskRow.id r) = true) (tasks st) ->
  api_appointments_create st data now
  = if negb (fields_present data)
    then (json_error 400 "Missing fields", st)
    else if PyStr.ge (req_start data) (req_end data)
    then (json_error 400 "End time must be after start time", st)
    else if negb (int64 (req_task data)) then (server_error, st)
    else
      match select_active_task st (req_task data) with
      | None => (json_error 404 "Task not found or inactive", st)
      | Some task =>
          if match TaskRow.max_volunteers task with
             | Some m =>
                 num_overlap st (req_task data) (req_date data)
                   (req_start data) (req_end data) >=? m
             | None => false
             end
          then (json_error 409 "That time slot is full.", st)
          else (mkResponse 200 BOk,
                insert_appointment st (req_task data) (req_date data)
                  (req_start data) (req_end data) (req_phone data) now)
      end.
Proof.
  intros Hrows. rewrite api_appointments_create_cases.
  destruct (negb (fields_present data)); [reflexivity|].
  destruct (PyStr.ge _ _); [reflexivity|].
  destruct (int64 (req_task data)) eqn:Hi; cbn [negb].
  - now destruct (select_active_task st (req_task data)).
  - rewrite select_active_task_none; [reflexivity|].
    intros r Hr Hid. rewrite Forall_forall in Hrows.
    specialize (Hrows r Hr). congruence.
Qed.

(** ** The booking claims *)

(** C4, as amended.  The booking handler first rejects a request with a
    missing field (400), then a request whose start time is not before its
    end time in the order of strings (400), both without looking at the
    tasks; only a request that passes both checks is answered 404 when no
    active task has the id, provided the id is a 64-bit integer: an id
    that is none cannot be bound and the handler fails (500).  So a booking
    with start >= end against a task that does not exist is a validation
    error, not NotFound. *)
Theorem booking_validates_before_lookup (st : Store) (data : BookIn.t)
    (now : string) :
  (fields_present data = false ->
   api_appointments_create st data now
   = (json_error 400 "Missing fields", st))
  /\ (fields_present data = true ->
      PyStr.ge (req_start data) (req_end data) = true ->
      api_appointments_create st data now
      = (json_error 400 "End time must be after start time", st))
  /\ (fields_present data = true ->
      PyStr.lt (req_start data) (req_end data) = true ->
      int64 (req_task data) = true ->
      (forall r, In r (tasks st) -> TaskRow.id r = req_task data ->
                 TaskRow.active r <> 1) ->
      api_appointments_create st data now
      = (json_error 404 "Task not found or inactive", st))
  /\ (fields_present data = true ->
      PyStr.lt (req_start data) (req_end data) = true ->
      int64 (req_task data) = false ->
      Forall (fun r => int64 (TaskRow.id r) = true) (tasks st) ->
      api_appointments_create st data now = (server_error, st)).
Proof.
  rewrite api_appointments_create_cases. repeat split.
  - now intros ->.
  - now intros -> ->.
  - intros -> Hlt Hint Hnone. rewrite (ge_of_lt _ _ Hlt).
    now rewrite (select_active_task_none st _ Hnone), Hint.
  - intros -> Hlt Hint Hrows. rewrite (ge_of_lt _ _ Hlt).
    rewrite select_active_task_none; [now rewrite Hint|].
    intros r Hr Hid. rewrite Forall_forall in Hrows.
    specialize (Hrows r Hr). congruence.
Qed.

Lemma booking_validates_before_lookup_witness :
  api_appointments_create Fixtures.store_one_task
    (booking 1 "2025-08-20" "" "10:00" "0911") "2025-08-03T10:00:00"
  = (json_error 400 "Missing fields", Fixtures.store_one_task)
  /\ api_appointments_create Fixtures.store_one_task
       (booking 1 "2025-08-20" "10:00" "10:00" "0911") "2025-08-03T10:00:00"
     = (json_error 400 "End time must be after start time",
        Fixtures.store_one_task)
  /\ api_appointments_create Fixtures.store_one_task
       (booking 5 "2025-08-20" "09:00" "10:00" "0911") "2025-08-03T10:00:00"
     = (json_error 404 "Task not found or inactive", Fixtures.store_one_task)
  /\ api_appointments_create Fixtures.store_one_task
       (booking 9223372036854775808 "2025-08-20" "09:00" "10:00" "0911")
       "2025-08-03T10:00:00"
     = (server_error, Fixtures.store_one_task).
Proof.
  split; [|split; [|split]].
  - apply (proj1 (booking_validates_before_lookup Fixtures.store_one_task
                    (booking 1 "2025-08-20" "" "10:00" "0911")
                    "2025-08-03T10:00:00")).
    reflexivity.
  - apply (proj1 (proj2 (booking_validates_before_lookup
                           Fixtures.store_one_task
                           (booking 1 "2025-08-20" "10:00" "10:00" "0911")
                           "2025-08-03T10:00:00")));
      reflexivity.
  - apply (proj1 (proj2 (proj2 (booking_validates_before_lookup
                           Fixtures.store_one_task
                           (booking 5 "2025-08-20" "09:00" "10:00" "0911")
                           "2025-08-03T10:00:00"))));
      try reflexivity.
    intros r [<-|[]] H. simpl in H. discriminate.
  - apply (proj2 (proj2 (proj2 (booking_validates_before_lookup
                           Fixtures.store_one_task
                           (booking 9223372036854775808 "2025-08-20" "09:00"
                              "10:00" "0911")
                           "2025-08-03T10:00:00"))));
      try reflexivity.
    repeat constructor.
Defined.

(** C4, as stated, fails: on a database without tasks a booking whose start
    is after its end is answered 400, not 404. *)
Lemma bad_times_on_missing_task_is_400 :
  select_task init_db 99 = None
  /\ api_appointments_create init_db
       (booking 99 "2025-08-20" "10:00" "09:00" "0911") "2025-08-03T10:00:00"
     = (json_error 400 "End time must be after start time", init_db)
  /\ status (fst (api_appointments_create init_db
                    (booking 99 "2025-08-20" "10:00" "09:00" "0911")
                    "2025-08-03T10:00:00")) <> 404.
Proof.
  split; [|split]; vm_compute; [reflexivity|reflexivity|discriminate].
Qed.

(** C10.  Against an active task whose capacity is zero, every booking with
    all fields present and start before end is answered 409 and the store
    is left as it was, whether or not any appointment overlaps: the count,
    never negative, is compared with [>=]. *)
Theorem zero_capacity_rejects_every_booking (st : Store) (task : TaskRow.t)
    (data : BookIn.t) (now : string) :
  NoDup (map TaskRow.id (tasks st)) ->
  In task (tasks st) ->
  TaskRow.active task = 1 ->
  TaskRow.max_volunteers task = Some 0 ->
  req_task data = TaskRow.id task ->
  fields_present data = true ->
  PyStr.lt (req_start data) (req_end data) = true ->
  api_appointments_create st data now
  = (json_error 409 "That time slot is full.", st).
Proof.
  intros Hnd Hin Hact Hmax Hid Hf Hlt.
  rewrite api_appointments_create_cases, Hf, (ge_of_lt _ _ Hlt), Hid.
  rewrite (select_active_task_some st task Hnd Hin Hact), Hmax. simpl.
  unfold num_overlap.
  pose proof (py_sum_nonneg
    (map (overlaps (req_start data) (req_end data))
       (select_appointments st (TaskRow.id task) (req_date data)))) as Hn.
  destruct (Z.geb_spec
    (py_sum (map (overlaps (req_start data) (req_end data))
       (select_appointments st (TaskRow.id task) (req_date data)))) 0);
    [reflexivity|lia].
Qed.

Lemma zero_capacity_rejects_every_booking_witness :
  api_appointments_create Fixtures.store_unlimited
    (booking 2 "2025-08-20" "13:00" "14:00" "0911") "2025-08-03T10:00:00"
  = (json_error 409 "That time slot is full.", Fixtures.store_unlimited).
Proof.
  apply (zero_capacity_rejects_every_booking Fixtures.store_unlimited
           (Fixtures.task_row 2 (Some 0) 1)); try reflexivity.
  - repeat constructor; simpl; intuition discriminate.
  - simpl. right. left. reflexivity.
Defined.

(** C1, as amended.  Take an active task of capacity [N] and a booking with
    all fields present and start before end.  If at least [N] appointments
    of the task on the requested date overlap the requested window, the
    booking is answered 409 and nothing is inserted.  Appointments on other
    dates never change the answer: the booking is admitted exactly when
    fewer than [N] appointments of the task on its own date overlap it, in
    particular when none does and [N >= 1].  A task without a capacity
    admits the booking. *)
Theorem capacity_is_counted_per_date (st : Store) (task : TaskRow.t)
    (data : BookIn.t) (now : string) :
  NoDup (map TaskRow.id (tasks st)) ->
  In task (tasks st) ->
  TaskRow.active task = 1 ->
  req_task data = TaskRow.id task ->
  fields_present data = true ->
  PyStr.lt (req_start data) (req_end data) = true ->
  let admitted :=
    (mkResponse 200 BOk,
     insert_appointment st (req_task data) (req_date data) (req_start data)
       (req_end data) (req_phone data) now) in
  let full := (json_error 409 "That time slot is full.", st) in
  (forall N hits rest,
      TaskRow.max_volunteers task = Some N ->
      Permutation (appointments st) (hits ++ rest) ->
      Forall (counted (req_task data) (req_date data) (req_start data)
                (req_end data)) hits ->
      N <= Z.of_nat (length hits) ->
      api_appointments_create st data now = full)
  /\ (forall N hits misses,
      TaskRow.max_volunteers task = Some N ->
      Permutation (appointments st) (hits ++ misses) ->
      Forall (counted (req_task data) (req_date data) (req_start data)
                (req_end data)) hits ->
      Forall (fun a => ~ counted (req_task data) (req_date data)
                         (req_start data) (req_end data) a) misses ->
      Z.of_nat (length hits) < N ->
      api_appointments_create st data now = admitted)
  /\ (forall extra,
      Forall (fun a => ApptRow.date a <> req_date data) extra ->
      fst (api_appointments_create
             (with_appointments st (appointments st ++ extra)) data now)
      = fst (api_appointments_create st data now))
  /\ (TaskRow.max_volunteers task = None ->
      api_appointments_create st data now = admitted).
Proof.
  intros Hnd Hin Hact Hid Hf Hlt admitted full. subst admitted full.
  pose proof (select_active_task_some st task Hnd Hin Hact) as Hsel.
  rewrite <- Hid in Hsel.
  repeat split.
  - intros N hits rest Hmax Hp Hh Hlen.
    rewrite api_appointments_create_cases, Hf, (ge_of_lt _ _ Hlt), Hsel, Hmax.
    simpl.
    pose proof (num_overlap_at_least st _ _ _ _ hits rest Hp Hh) as Hge.
    destruct (Z.geb_spec
      (num_overlap st (req_task data) (req_date data) (req_start data)
         (req_end data)) N); [reflexivity|lia].
  - intros N hits misses Hmax Hp Hh Hm Hlen.
    rewrite api_appointments_create_cases, Hf, (ge_of_lt _ _ Hlt), Hsel, Hmax.
    simpl.
    rewrite (num_overlap_exact st _ _ _ _ hits misses Hp Hh Hm).
    destruct (Z.geb_spec (Z.of_nat (length hits)) N); [lia|reflexivity].
  - intros extra Hextra.
    rewrite !api_appointments_create_cases, Hf, (ge_of_lt _ _ Hlt).
    change (select_active_task
              (with_appointments st (appointments st ++ extra))
              (req_task data))
      with (select_active_task st (req_task data)).
    rewrite Hsel, (num_overlap_other_dates st _ _ _ _ extra Hextra). simpl.
    now destruct (match TaskRow.max_volunteers task with
                  | Some m => _ | None => false end).
  - intros Hmax.
    now rewrite api_appointments_create_cases, Hf, (ge_of_lt _ _ Hlt), Hsel,
      Hmax.
Qed.

Lemma capacity_is_counted_per_date_witness :
  api_appointments_create Fixtures.store_full
    (booking 1 "2025-08-20" "10:00" "10:30" "0911") "2025-08-03T10:00:00"
  = (json_error 409 "That time slot is full.", Fixtures.store_full).
Proof.
  pose proof (capacity_is_counted_per_date Fixtures.store_full
                (Fixtures.task_row 1 (Some 2) 1)
                (booking 1 "2025-08-20" "10:00" "10:30" "0911")
                "2025-08-03T10:00:00") as H.
  simpl in H.
  refine (proj1 (H _ _ eq_refl eq_refl eq_refl eq_refl) 2
            [Fixtures.appt 1 1 "2025-08-20" "09:00" "10:30";
             Fixtures.appt 3 1 "2025-08-20" "10:00" "11:00"]
            [Fixtures.appt 2 1 "2025-08-21" "09:00" "10:00"]
            eq_refl _ _ _).
  - repeat constructor. simpl. intuition.
  - left. reflexivity.
  - apply perm_skip. apply perm_swap.
  - repeat constructor.
  - simpl. lia.
Defined.

(** C1, as stated, fails on the clause about other dates.  A task of
    capacity 1 has one appointment on 2025-08-20; a booking of the same
    window on the different date 2025-08-21 is refused, because that date
    holds an appointment too.  And a task of capacity 0, for which the
    required number of appointments (none) exists on every date, refuses a
    booking on 2025-08-21 although nothing at all is booked for it. *)
Lemma other_date_booking_can_be_refused :
  (TaskRow.max_volunteers (Fixtures.task_row 1 (Some 1) 1) = Some 1
   /\ num_overlap Fixtures.store_two_dates 1 "2025-08-20" "09:00" "10:00" = 1
   /\ "2025-08-21" <> "2025-08-20"
   /\ api_appointments_create Fixtures.store_two_dates
        (booking 1 "2025-08-21" "09:00" "10:00" "0911") "2025-08-03T10:00:00"
      = (json_error 409 "That time slot is full.", Fixtures.store_two_dates))
  /\ (select_active_task Fixtures.store_unlimited 2
      = Some (Fixtures.task_row 2 (Some 0) 1)
      /\ select_appointments Fixtures.store_unlimited 2 "2025-08-21" = []
      /\ api_appointments_create Fixtures.store_unlimited
           (booking 2 "2025-08-21" "09:00" "10:00" "0911")
           "2025-08-03T10:00:00"
         = (json_error 409 "That time slot is full.",
            Fixtures.store_unlimited)).
Proof.
  repeat split; try (vm_compute; reflexivity). discriminate.
Qed.

(** ** The order of strings *)

Lemma str_lt_iff (a b : string) : str_lt a b <-> String_as_OT.lt a b.
Proof.
  unfold str_lt, PyStr.lt, String.ltb.
  rewrite <- String_as_OT.cmp_lt. unfold String_as_OT.cmp.
  destruct (String.compare a b); split; congruence.
Qed.

Lemma str_lt_trans (a b c : string) : str_lt a b -> str_lt b c -> str_lt a c.
Proof. rewrite !str_lt_iff. apply String_as_OT.lt_trans. Qed.

Lemma str_lt_irrefl (a : string) : ~ str_lt a a.
Proof.
  rewrite str_lt_iff. intros H. now apply (String_as_OT.lt_not_eq a a H).
Qed.

Lemma str_le_refl (a : string) : str_le a a.
Proof.
  unfold str_le. destruct (PyStr.lt a a) eqn:E; [|reflexivity].
  now apply str_lt_irrefl in E.
Qed.

Lemma str_lt_le (a b : string) : str_lt a b -> str_le a b.
Proof.
  intros H. unfold str_le. destruct (PyStr.lt b a) eqn:E; [|reflexivity].
  exfalso. apply (str_lt_irrefl a). now apply (str_lt_trans a b a).
Qed.

Lemma str_total (a b : string) : str_lt a b \/ a = b \/ str_lt b a.
Proof.
  destruct (String.compare a b) eqn:E.
  - right. left. now apply String_as_OT.cmp_eq.
  - left. apply str_lt_iff. now apply String_as_OT.cmp_lt.
  - right. right. apply str_lt_iff. apply String_as_OT.cmp_lt.
    unfold String_as_OT.cmp. rewrite String.compare_antisym, E. reflexivity.
Qed.

Lemma str_le_lt_trans (a b c : string) :
  str_le a b -> str_lt b c -> str_lt a c.
Proof.
  intros Hab Hbc. destruct (str_total a b) as [H|[->|H]].
  - now apply (str_lt_trans a b c).
  - exact Hbc.
  - unfold str_le in Hab. unfold str_lt in H. congruence.
Qed.

(** For non-empty windows the test of the handler says that the two
    half-open windows have a point in common. *)
Lemma overlaps_iff_intersects (start end_ : string) (a : ApptRow.t) :
  str_lt start end_ ->
  str_lt (ApptRow.start_time a) (ApptRow.end_time a) ->
  overlaps start end_ a = true
  <-> intersects (ApptRow.start_time a) (ApptRow.end_time a) start end_.
Proof.
  intros Hw Ha. unfold overlaps. rewrite andb_true_iff. split.
  - intros [H1 H2].
    destruct (PyStr.lt (ApptRow.start_time a) start) eqn:E.
    + exists start. repeat split.
      * now apply str_lt_le.
      * exact H1.
      * apply str_le_refl.
      * exact Hw.
    + exists (ApptRow.start_time a). repeat split.
      * apply str_le_refl.
      * exact Ha.
      * exact E.
      * exact H2.
  - intros (x & H1 & H2 & H3 & H4). split.
    + now apply (str_le_lt_trans start x).
    + now apply (str_le_lt_trans (ApptRow.start_time a) x).
Qed.

(** ** The count after an insertion *)

Lemma py_sum_app (l1 l2 : list bool) :
  py_sum (l1 ++ l2) = py_sum l1 + py_sum l2.
Proof.
  induction l1 as [|b l1 IH]; cbn [app py_sum]; [lia|]. rewrite IH. lia.
Qed.

Lemma select_appointments_insert (st : Store) (task_id : Z)
    (date start end_ phone now : string) :
  select_appointments
    (insert_appointment st task_id date start end_ phone now) task_id date
  = (select_appointments st task_id date
     ++ [ApptRow.mk
           (next_rowid (appointments_seq st)
              (map ApptRow.id (appointments st)))
           task_id date start end_ phone now])%list.
Proof.
  unfold select_appointments, insert_appointment. simpl.
  rewrite filter_app. simpl. now rewrite Z.eqb_refl, String.eqb_refl.
Qed.

Lemma num_overlap_insert (st : Store) (task_id : Z)
    (date start end_ phone now start' end' : string) :
  num_overlap (insert_appointment st task_id date start end_ phone now)
    task_id date start' end'
  = num_overlap st task_id date start' end'
    + (if PyStr.lt start' end_ && PyStr.lt start end' then 1 else 0).
Proof.
  unfold num_overlap. rewrite select_appointments_insert, map_app, py_sum_app.
  cbn [map py_sum]. unfold overlaps at 2. simpl.
  destruct (PyStr.lt start' end_ && PyStr.lt start end'); lia.
Qed.

(** C2.  The count of the booking check is the number of appointments of
    the same task and the same date that meet the requested window under
    the test [newStart < existingEnd and existingStart < newEnd]; for
    non-empty windows that test says that the half-open windows have a
    point in common.  Whatever the task and the date, an appointment over
    09:00-10:00 does not count against a request for 10:00-11:00 and one
    over 09:00-10:30 does: with room for one volunteer and nothing booked on
    the date, the first pair can both be booked and of the second pair the
    later booking is answered 409. *)
Theorem overlap_count_is_half_open :
  (forall st task_id date start end_ hits misses,
      Permutation (appointments st) (hits ++ misses) ->
      Forall (counted task_id date start end_) hits ->
      Forall (fun a => ~ counted task_id date start end_ a) misses ->
      num_overlap st task_id date start end_ = Z.of_nat (length hits))
  /\ (forall start end_ a,
      str_lt start end_ ->
      str_lt (ApptRow.start_time a) (ApptRow.end_time a) ->
      overlaps start end_ a = true
      <-> intersects (ApptRow.start_time a) (ApptRow.end_time a) start end_)
  /\ (forall st task_id date phone now,
      num_overlap
        (insert_appointment st task_id date "09:00" "10:00" phone now)
        task_id date "10:00" "11:00"
      = num_overlap st task_id date "10:00" "11:00"
      /\ num_overlap
           (insert_appointment st task_id date "09:00" "10:30" phone now)
           task_id date "10:00" "11:00"
         = num_overlap st task_id date "10:00" "11:00" + 1)
  /\ (forall st task date phone1 phone2 now1 now2,
      NoDup (map TaskRow.id (tasks st)) ->
      In task (tasks st) ->
      TaskRow.active task = 1 ->
      TaskRow.max_volunteers task = Some 1 ->
      TaskRow.id task <> 0 ->
      PyStr.strip date <> EmptyString ->
      PyStr.strip phone1 <> EmptyString ->
      PyStr.strip phone2 <> EmptyString ->
      select_appointments st (TaskRow.id task) (PyStr.strip date) = [] ->
      (exists st1 st2,
          api_appointments_create st
            (booking (TaskRow.id task) date "09:00" "10:00" phone1) now1
          = (mkResponse 200 BOk, st1)
          /\ api_appointments_create st1
               (booking (TaskRow.id task) date "10:00" "11:00" phone2) now2
             = (mkResponse 200 BOk, st2))
      /\ (exists st1,
          api_appointments_create st
            (booking (TaskRow.id task) date "09:00" "10:30" phone1) now1
          = (mkResponse 200 BOk, st1)
          /\ api_appointments_create st1
               (booking (TaskRow.id task) date "10:00" "11:00" phone2) now2
             = (json_error 409 "That time slot is full.", st1))).
Proof.
  split; [exact num_overlap_exact|].
  split; [exact overlaps_iff_intersects|].
  split.
  { intros st task_id date phone now. rewrite !num_overlap_insert.
    change (PyStr.lt "10:00" "10:00" && PyStr.lt "09:00" "11:00") with false.
    change (PyStr.lt "10:00" "10:30" && PyStr.lt "09:00" "11:00") with true.
    split; lia. }
  intros st task date phone1 phone2 now1 now2 Hnd Hin Hact Hmax Hid Hd Hp1
    Hp2 Hnone.
  pose proof (select_active_task_some st task Hnd Hin Hact) as Hsel.
  apply truthy_true_iff in Hd, Hp1, Hp2.
  assert (Hidt : id_truthy (Some (TaskRow.id task)) = true).
  { simpl. now apply negb_true_iff, Z.eqb_neq. }
  assert (Hfirst : forall e,
    PyStr.lt "09:00" e = true -> PyStr.strip e = e ->
    PyStr.truthy e = true ->
    api_appointments_create st
      (booking (TaskRow.id task) date "09:00" e phone1) now1
    = (mkResponse 200 BOk,
       insert_appointment st (TaskRow.id task) (PyStr.strip date) "09:00" e
         (PyStr.strip phone1) now1)).
  { intros e He Hse Hte. rewrite api_appointments_create_cases.
    unfold fields_present, req_task, req_date, req_start, req_end, req_phone,
      booking. cbn [BookIn.taskId BookIn.date BookIn.startTime BookIn.endTime
                    BookIn.phone PyStr.or_empty id_value].
    rewrite Hidt, Hd, Hp1, Hse, Hte.
    change (PyStr.strip "09:00") with "09:00".
    cbn [PyStr.truthy andb negb]. rewrite (ge_of_lt _ _ He), Hsel, Hmax.
    unfold num_overlap. rewrite Hnone. reflexivity. }
  assert (Hsecond : forall e st1,
    st1 = insert_appointment st (TaskRow.id task) (PyStr.strip date) "09:00"
            e (PyStr.strip phone1) now1 ->
    api_appointments_create st1
      (booking (TaskRow.id task) date "10:00" "11:00" phone2) now2
    = if PyStr.lt "10:00" e
      then (json_error 409 "That time slot is full.", st1)
      else (mkResponse 200 BOk,
            insert_appointment st1 (TaskRow.id task) (PyStr.strip date)
              "10:00" "11:00" (PyStr.strip phone2) now2)).
  { intros e st1 ->. rewrite api_appointments_create_cases.
    unfold fields_present, req_task, req_date, req_start, req_end, req_phone,
      booking. cbn [BookIn.taskId BookIn.date BookIn.startTime BookIn.endTime
                    BookIn.phone PyStr.or_empty id_value].
    rewrite Hidt, Hd, Hp2.
    change (PyStr.strip "10:00") with "10:00".
    change (PyStr.strip "11:00") with "11:00".
    change (PyStr.ge "10:00" "11:00") with false.
    cbn [PyStr.truthy andb negb].
    change (select_active_task
              (insert_appointment st (TaskRow.id task) (PyStr.strip date)
                 "09:00" e (PyStr.strip phone1) now1) (TaskRow.id task))
      with (select_active_task st (TaskRow.id task)).
    rewrite Hsel, Hmax, num_overlap_insert.
    unfold num_overlap at 1. rewrite Hnone. cbn [map py_sum].
    change (PyStr.lt "09:00" "11:00") with true. rewrite andb_true_r.
    now destruct (PyStr.lt "10:00" e). }
  split.
  - eexists. eexists. split.
    + apply (Hfirst "10:00"); reflexivity.
    + now rewrite (Hsecond "10:00" _ eq_refl).
  - eexists. split.
    + apply (Hfirst "10:30"); reflexivity.
    + now rewrite (Hsecond "10:30" _ eq_refl).
Qed.

Lemma overlap_count_is_half_open_witness :
  num_overlap Fixtures.store_full 1 "2025-08-20" "10:00" "10:30" = 2
  /\ (exists st1 st2,
         api_appointments_create Fixtures.store_one_task
           (booking 1 "2025-08-20" "09:00" "10:00" "0911") "t1"
         = (mkResponse 200 BOk, st1)
         /\ api_appointments_create st1
              (booking 1 "2025-08-20" "10:00" "11:00" "0922") "t2"
            = (mkResponse 200 BOk, st2)).
Proof.
  split.
  - apply (proj1 overlap_count_is_half_open Fixtures.store_full 1
             "2025-08-20" "10:00" "10:30"
             [Fixtures.appt 1 1 "2025-08-20" "09:00" "10:30";
              Fixtures.appt 3 1 "2025-08-20" "10:00" "11:00"]
             [Fixtures.appt 2 1 "2025-08-21" "09:00" "10:00"]).
    + apply perm_skip. apply perm_swap.
    + repeat constructor.
    + repeat constructor. intros (_ & H & _). discriminate.
  - apply (proj1 (proj2 (proj2 (proj2 overlap_count_is_half_open))
                    Fixtures.store_one_task (Fixtures.task_row 1 (Some 1) 1)
                    "2025-08-20" "0911" "0922" "t1" "t2"
                    ltac:(repeat constructor; simpl; intuition)
                    ltac:(left; reflexivity) eq_refl eq_refl
                    ltac:(discriminate) ltac:(discriminate)
                    ltac:(discriminate) ltac:(discriminate) eq_refl)).
Defined.

(* ================================================================== *)
(** ** The task store *)

Lemma row_to_task_decoded (r : TaskRow.t) : row_to_task r = Some (decoded r).
Proof. apply row_to_task_total. Qed.

Lemma traverse_row_to_task (l : list TaskRow.t) :
  traverse row_to_task l = Some (map decoded l).
Proof.
  apply traverse_total, Forall_forall. intros r _. apply row_to_task_decoded.
Qed.

Lemma max_rowid_ge (ids : list Z) (i : Z) : In i ids -> i <= max_rowid ids.
Proof.
  unfold max_rowid.
  induction ids as [|x ids IH]; cbn [fold_right In]; [contradiction|].
  intros [->|H]; [lia|]. specialize (IH H). lia.
Qed.

(** The id given to a new task belongs to no stored task. *)
Lemma next_task_id_fresh (st : Store) (r : TaskRow.t) :
  In r (tasks st) -> TaskRow.id r <> next_task_id st.
Proof.
  intros H. unfold next_task_id, next_rowid.
  pose proof (max_rowid_ge (map TaskRow.id (tasks st)) (TaskRow.id r)
                (in_map _ _ _ H)).
  lia.
Qed.

Lemma find_app_fresh (l : list TaskRow.t) (row : TaskRow.t) (i : Z) :
  TaskRow.id row = i ->
  (forall r, In r l -> TaskRow.id r <> i) ->
  find (fun r => TaskRow.id r =? i) (l ++ [row]) = Some row.
Proof.
  intros <-. induction l as [|x l IH]; simpl; intros H.
  - now rewrite Z.eqb_refl.
  - destruct (Z.eqb_spec (TaskRow.id x) (TaskRow.id row)) as [E|E].
    + exfalso. now apply (H x (or_introl eq_refl)).
    + apply IH. intros r Hr. apply H. now right.
Qed.

Lemma int64_bounds (z : Z) :
  int64 z = true <-> -9223372036854775808 <= z <= 9223372036854775807.
Proof. unfold int64. rewrite andb_true_iff, !Z.leb_le. tauto. Qed.

Lemma storable_slot (data : TaskIn.t) :
  storable data = true ->
  exists z, slot_mins_of data = Some z /\ int64 z = true
            /\ int64_opt (TaskIn.maxVolunteers data) = true.
Proof.
  unfold storable. destruct (slot_mins_of data) as [z|]; [|discriminate].
  intros H. apply andb_true_iff in H. exists z. tauto.
Qed.

Lemma server_error_refusal : refusal server_error.
Proof. split; [simpl; tauto|discriminate]. Qed.

Lemma json_error_refusal (code : Z) (msg : string) :
  code = 400 \/ code = 401 \/ code = 404 \/ code = 409 ->
  refusal (json_error code msg).
Proof. intros H. split; [simpl; tauto|discriminate]. Qed.

Lemma api_admin_create_cases (st : Store) (sess : Session) (data : TaskIn.t)
    (now : string) :
  api_admin_create st sess data now
  = if negb (require_admin sess) then (json_error 401 "Unauthorized", st)
    else if negb (PyStr.truthy (req_title data))
    then (json_error 400 "Title is required", st)
    else if negb (storable data) then (server_error, st)
    else if negb (int64 (next_task_id st)) then (server_error, st)
    else
      let row := encode_row (next_task_id st) data now now in
      let st' :=
        {| admins := admins st; admins_seq := admins_seq st;
           tasks := tasks st ++ [row]; tasks_seq := next_task_id st;
           appointments := appointments st;
           appointments_seq := appointments_seq st |} in
      match r <- find (fun r => TaskRow.id r =? next_task_id st)
                   (tasks st ++ [row]) ;; row_to_task r with
      | Some task => (mkResponse 201 (BTask task), st')
      | None => (server_error, st')
      end.
Proof.
  unfold api_admin_create, storable, encode_row, req_title, next_task_id,
    select_task.
  destruct (require_admin sess); cbn [negb]; [|reflexivity].
  destruct (PyStr.truthy _); cbn [negb]; [|reflexivity].
  destruct (slot_mins_of data) as [z|]; [|reflexivity].
  destruct (int64_opt (TaskIn.maxVolunteers data) && int64 z); cbn [negb];
    reflexivity.
Qed.

(** What a successful create does: it appends the encoded record under a
    fresh id and answers with its decoding. *)
Lemma api_admin_create_ok (st : Store) (sess : Session) (data : TaskIn.t)
    (now : string) :
  require_admin sess = true ->
  req_title data <> EmptyString ->
  storable data = true ->
  int64 (next_task_id st) = true ->
  api_admin_create st sess data now
  = (mkResponse 201
       (BTask (decoded (encode_row (next_task_id st) data now now))),
     {| admins := admins st; admins_seq := admins_seq st;
        tasks := tasks st ++ [encode_row (next_task_id st) data now now];
        tasks_seq := next_task_id st;
        appointments := appointments st;
        appointments_seq := appointments_seq st |}).
Proof.
  intros Ha Ht Hs Hn. apply truthy_true_iff in Ht.
  rewrite api_admin_create_cases, Ha, Ht, Hs, Hn. cbn [negb]. cbv zeta.
  rewrite (find_app_fresh (tasks st)
             (encode_row (next_task_id st) data now now) (next_task_id st)).
  - cbn [bind]. now rewrite row_to_task_decoded.
  - reflexivity.
  - intros r Hr. now apply next_task_id_fresh.
Qed.

(** A create that is refused leaves the store as it was. *)
Lemma api_admin_create_refused (st : Store) (sess : Session)
    (data : TaskIn.t) (now : string) :
  require_admin sess = false \/ req_title data = EmptyString ->
  snd (api_admin_create st sess data now) = st
  /\ (status (fst (api_admin_create st sess data now)) = 401
      \/ status (fst (api_admin_create st sess data now)) = 400).
Proof.
  rewrite api_admin_create_cases.
  destruct (require_admin sess); cbn [negb]; [|now auto].
  intros [H|H]; [discriminate|]. rewrite H. simpl. auto.
Qed.

Section UpdateRows.

Variables (task_id : Z) (data : TaskIn.t) (now : string).

Local Abbreviation upd := (row_update task_id data now).

Lemma upd_hit (r : TaskRow.t) :
  TaskRow.id r = task_id ->
  upd r = encode_row task_id data (TaskRow.created_at r) now.
Proof.
  intros H. unfold row_update. now rewrite H, Z.eqb_refl.
Qed.

Lemma upd_miss (r : TaskRow.t) : TaskRow.id r <> task_id -> upd r = r.
Proof.
  intros H. unfold row_update.
  now destruct (Z.eqb_spec (TaskRow.id r) task_id).
Qed.

Lemma upd_id (r : TaskRow.t) : TaskRow.id (upd r) = TaskRow.id r.
Proof.
  unfold row_update.
  now destruct (Z.eqb_spec (TaskRow.id r) task_id).
Qed.

(** With the slot length converted, the row written by the UPDATE is the
    row encoded anew. *)
Lemma update_row_encode (z : Z) (r : TaskRow.t) :
  slot_mins_of data = Some z ->
  update_row task_id (req_title data)
    (PyStr.strip (PyStr.or_empty (TaskIn.description data)))
    (TaskIn.maxVolunteers data) z (type_of data)
    (to_csv (TaskIn.daysOfWeek data))
    (parse_time_windows (TaskIn.timeWindows data))
    (to_csv (TaskIn.eventDates data)) (active_of data) now r
  = upd r.
Proof.
  intros Hz. unfold update_row, row_update, encode_row, req_title.
  now rewrite Hz.
Qed.

Lemma find_upd_hit (l : list TaskRow.t) (old : TaskRow.t) :
  find (fun r => TaskRow.id r =? task_id) l = Some old ->
  find (fun r => TaskRow.id r =? task_id) (map upd l)
  = Some (encode_row task_id data (TaskRow.created_at old) now).
Proof.
  induction l as [|x l IH]; simpl; [discriminate|].
  rewrite upd_id.
  destruct (Z.eqb_spec (TaskRow.id x) task_id) as [E|E].
  - intros [= <-]. now rewrite upd_hit.
  - exact IH.
Qed.

Lemma find_upd_other (l : list TaskRow.t) (other : Z) :
  other <> task_id ->
  find (fun r => TaskRow.id r =? other) (map upd l)
  = find (fun r => TaskRow.id r =? other) l.
Proof.
  intros H. induction l as [|x l IH]; simpl; [reflexivity|].
  rewrite upd_id.
  destruct (Z.eqb_spec (TaskRow.id x) other) as [E|E]; [|exact IH].
  rewrite upd_miss; [reflexivity|congruence].
Qed.

Lemma map_upd_ids (l : list TaskRow.t) :
  map TaskRow.id (map upd l) = map TaskRow.id l.
Proof.
  rewrite map_map. apply map_ext. exact upd_id.
Qed.

Lemma upd_active (r : TaskRow.t) :
  TaskRow.id r = task_id -> TaskRow.active (upd r) = active_of data.
Proof. intros H. now rewrite upd_hit. Qed.

Lemma api_admin_update_cases (st : Store) (sess : Session) :
  api_admin_update st sess task_id data now
  = if negb (require_admin sess) then (json_error 401 "Unauthorized", st)
    else if negb (PyStr.truthy (req_title data))
    then (json_error 400 "Title is required", st)
    else
      match slot_mins_of data with
      | None => (server_error, st)
      | Some _ =>
          if negb (int64 task_id) then (server_error, st)
          else
            match select_task st task_id with
            | None => (json_error 404 "Task not found", st)
            | Some _ =>
                if negb (storable data) then (server_error, st)
                else
                  let st' :=
                    {| admins := admins st; admins_seq := admins_seq st;
                       tasks := map upd (tasks st);
                       tasks_seq := tasks_seq st;
                       appointments := appointments st;
                       appointments_seq := appointments_seq st |} in
                  match r <- find (fun r => TaskRow.id r =? task_id)
                               (map upd (tasks st)) ;; row_to_task r with
                  | Some task => (mkResponse 200 (BTask task), st')
                  | None => (server_error, st')
                  end
            end
      end.
Proof.
  unfold api_admin_update, storable, select_task. fold (req_title data).
  destruct (require_admin sess); cbn [negb]; [|reflexivity].
  destruct (PyStr.truthy _); cbn [negb]; [|reflexivity].
  destruct (slot_mins_of data) as [z|] eqn:Hz; [|reflexivity].
  destruct (int64 task_id); cbn [negb]; [|reflexivity].
  destruct (find _ (tasks st)); [|reflexivity].
  destruct (int64_opt (TaskIn.maxVolunteers data) && int64 z); cbn [negb];
    [|reflexivity].
  cbv zeta. cbn [tasks].
  now rewrite (map_ext _ _ (fun r => update_row_encode z r Hz)).
Qed.

(** What a successful update does. *)
Lemma api_admin_update_ok (st : Store) (sess : Session) (old : TaskRow.t) :
  require_admin sess = true ->
  req_title data <> EmptyString ->
  storable data = true ->
  int64 task_id = true ->
  select_task st task_id = Some old ->
  api_admin_update st sess task_id data now
  = (mkResponse 200
       (BTask (decoded
                 (encode_row task_id data (TaskRow.created_at old) now))),
     {| admins := admins st; admins_seq := admins_seq st;
        tasks := map upd (tasks st);
        tasks_seq := tasks_seq st;
        appointments := appointments st;
        appointments_seq := appointments_seq st |}).
Proof.
  intros Ha Ht Hs Hi Hold. apply truthy_true_iff in Ht.
  destruct (storable_slot data Hs) as (z & Hz & _).
  rewrite api_admin_update_cases, Ha, Ht, Hz, Hi, Hold, Hs. cbn [negb].
  cbv zeta. unfold select_task in Hold.
  rewrite (find_upd_hit _ old Hold). cbn [bind].
  now rewrite row_to_task_decoded.
Qed.

End UpdateRows.

Lemma select_task_none (st : Store) (task_id : Z) :
  ~ In task_id (map TaskRow.id (tasks st)) -> select_task st task_id = None.
Proof.
  intros H. apply find_all_false. intros r Hr. apply Z.eqb_neq.
  intros E. apply H. rewrite <- E. now apply in_map.
Qed.

(** Every way an update can end. *)
Lemma api_admin_update_result (st : Store) (sess : Session) (task_id : Z)
    (data : TaskIn.t) (now : string) :
  (exists old,
      require_admin sess = true /\ req_title data <> EmptyString
      /\ storable data = true /\ int64 task_id = true
      /\ select_task st task_id = Some old
      /\ api_admin_update st sess task_id data now
         = (mkResponse 200
              (BTask (decoded (encode_row task_id data
                                 (TaskRow.created_at old) now))),
            {| admins := admins st; admins_seq := admins_seq st;
               tasks := map (row_update task_id data now) (tasks st);
               tasks_seq := tasks_seq st;
               appointments := appointments st;
               appointments_seq := appointments_seq st |}))
  \/ (exists resp,
         refusal resp
         /\ (require_admin sess = true -> status resp <> 401)
         /\ api_admin_update st sess task_id data now = (resp, st)).
Proof.
  destruct (require_admin sess) eqn:Ha;
    [|right; exists (json_error 401 "Unauthorized");
      split; [apply json_error_refusal; tauto|];
      split; [discriminate|];
      now rewrite api_admin_update_cases, Ha].
  destruct (PyStr.truthy (req_title data)) eqn:Ht;
    [|right; exists (json_error 400 "Title is required");
      split; [apply json_error_refusal; tauto|];
      split; [discriminate|];
      now rewrite api_admin_update_cases, Ha, Ht].
  destruct (slot_mins_of data) as [z|] eqn:Hz;
    [|right; exists server_error; split; [apply server_error_refusal|];
      split; [discriminate|];
      now rewrite api_admin_update_cases, Ha, Ht, Hz].
  destruct (int64 task_id) eqn:Hi;
    [|right; exists server_error; split; [apply server_error_refusal|];
      split; [discriminate|];
      now rewrite api_admin_update_cases, Ha, Ht, Hz, Hi].
  destruct (select_task st task_id) as [old|] eqn:Hs;
    [|right; exists (json_error 404 "Task not found");
      split; [apply json_error_refusal; tauto|];
      split; [discriminate|];
      now rewrite api_admin_update_cases, Ha, Ht, Hz, Hi, Hs].
  destruct (storable data) eqn:Hst;
    [|right; exists server_error; split; [apply server_error_refusal|];
      split; [discriminate|];
      now rewrite api_admin_update_cases, Ha, Ht, Hz, Hi, Hs, Hst].
  left. exists old. apply truthy_true_iff in Ht.
  repeat split; try assumption.
  now apply api_admin_update_ok.
Qed.

(** Every way a create can end. *)
Lemma api_admin_create_result (st : Store) (sess : Session)
    (data : TaskIn.t) (now : string) :
  (require_admin sess = true /\ req_title data <> EmptyString
   /\ storable data = true /\ int64 (next_task_id st) = true
   /\ api_admin_create st sess data now
      = (mkResponse 201
           (BTask (decoded (encode_row (next_task_id st) data now now))),
         {| admins := admins st; admins_seq := admins_seq st;
            tasks := tasks st ++ [encode_row (next_task_id st) data now now];
            tasks_seq := next_task_id st;
            appointments := appointments st;
            appointments_seq := appointments_seq st |}))
  \/ (exists resp,
         refusal resp
         /\ (require_admin sess = true -> status resp <> 401)
         /\ api_admin_create st sess data now = (resp, st)).
Proof.
  destruct (require_admin sess) eqn:Ha;
    [|right; exists (json_error 401 "Unauthorized");
      split; [apply json_error_refusal; tauto|];
      split; [discriminate|];
      now rewrite api_admin_create_cases, Ha].
  destruct (PyStr.truthy (req_title data)) eqn:Ht;
    [|right; exists (json_error 400 "Title is required");
      split; [apply json_error_refusal; tauto|];
      split; [discriminate|];
      now rewrite api_admin_create_cases, Ha, Ht].
  destruct (storable data) eqn:Hst;
    [|right; exists server_error; split; [apply server_error_refusal|];
      split; [discriminate|];
      now rewrite api_admin_create_cases, Ha, Ht, Hst].
  destruct (int64 (next_task_id st)) eqn:Hn;
    [|right; exists server_error; split; [apply server_error_refusal|];
      split; [discriminate|];
      now rewrite api_admin_create_cases, Ha, Ht, Hst, Hn].
  left. apply truthy_true_iff in Ht. repeat split; try assumption.
  now apply api_admin_create_ok.
Qed.

(** The slot length as the handlers read it: a missing or falsy value is
    60, a float is truncated, a string is parsed, and what [int()] refuses
    is a failure. *)
Lemma slot_mins_of_examples :
  slot_mins_of (Fixtures.input_numbers None None) = Some 60
  /\ slot_mins_of (Fixtures.input_numbers None (Some (JNum 0))) = Some 60
  /\ slot_mins_of (Fixtures.input_numbers None (Some (JStr ""))) = Some 60
  /\ slot_mins_of (Fixtures.input_numbers None (Some (JBool true))) = Some 1
  /\ slot_mins_of (Fixtures.input_numbers None
                     (Some (JFloat Fixtures.half))) = Some 0
  /\ slot_mins_of (Fixtures.input_numbers None (Some (JStr "0"))) = Some 0
  /\ slot_mins_of (Fixtures.input_numbers None (Some (JStr " -1_5 ")))
     = Some (-15)
  /\ slot_mins_of (Fixtures.input_numbers None (Some (JStr "abc"))) = None
  /\ slot_mins_of (Fixtures.input_numbers None (Some (JStr "1.5"))) = None
  /\ slot_mins_of (Fixtures.input_numbers None (Some (JArr [JNum 1]))) = None.
Proof. repeat split. Qed.

(** A create with the slot length 0.5 stores 0; one whose slot length is
    not a number, or whose capacity or slot length is not a 64-bit integer,
    fails and writes nothing. *)
Lemma api_admin_create_number_examples :
  option_map TaskRow.slot_duration_mins
    (select_task
       (snd (api_admin_create init_db Fixtures.admin_session
               (Fixtures.input_numbers None (Some (JFloat Fixtures.half)))
               "2025-09-01"))
       1)
  = Some (Some 0)
  /\ api_admin_create init_db Fixtures.admin_session
       (Fixtures.input_numbers None (Some (JStr "abc"))) "2025-09-01"
     = (server_error, init_db)
  /\ api_admin_create init_db Fixtures.admin_session
       (Fixtures.input_numbers (Some 9223372036854775808) None) "2025-09-01"
     = (server_error, init_db)
  /\ api_admin_create init_db Fixtures.admin_session
       (Fixtures.input_numbers None (Some (JNum 9223372036854775808)))
       "2025-09-01"
     = (server_error, init_db).
Proof. repeat split. Qed.

(** C7, as amended.  For a signed-in admin and an input whose title is
    non-empty after trimming, whose slot length [int()] converts and whose
    integers (the id, the slot length, the capacity) are 64-bit integers:
    if the task exists, update stores the record encoded from the input
    under the same id, with the updated-at time set to now and the
    created-at time kept, touches no other task, admin or appointment, and
    answers with the decoding of the stored record; if no task has the id,
    update answers NotFound (for that the capacity need not fit).  When the
    task exists and a number cannot be written, update fails (500) and
    writes nothing.  Whatever the input, an update of an id that is not in
    the store changes no stored record and does not succeed. *)
Theorem update_replaces_fields_keeps_identity (st : Store) (sess : Session)
    (task_id : Z) (data : TaskIn.t) (now : string) :
  require_admin sess = true ->
  (forall old,
      req_title data <> EmptyString ->
      storable data = true ->
      int64 task_id = true ->
      select_task st task_id = Some old ->
      exists t st',
        api_admin_update st sess task_id data now
        = (mkResponse 200 (BTask t), st')
        /\ select_task st' task_id
           = Some (encode_row task_id data (TaskRow.created_at old) now)
        /\ row_to_task (encode_row task_id data (TaskRow.created_at old) now)
           = Some t
        /\ Task.id t = task_id
        /\ Task.createdAt t = TaskRow.created_at old
        /\ Task.updatedAt t = now
        /\ (forall other, other <> task_id ->
                          select_task st' other = select_task st other)
        /\ map TaskRow.id (tasks st') = map TaskRow.id (tasks st)
        /\ admins st' = admins st
        /\ appointments st' = appointments st)
  /\ (req_title data <> EmptyString ->
      slot_mins_of data <> None ->
      int64 task_id = true ->
      ~ In task_id (map TaskRow.id (tasks st)) ->
      api_admin_update st sess task_id data now
      = (json_error 404 "Task not found", st))
  /\ (forall old,
      req_title data <> EmptyString ->
      select_task st task_id = Some old ->
      storable data = false \/ int64 task_id = false ->
      api_admin_update st sess task_id data now = (server_error, st))
  /\ (~ In task_id (map TaskRow.id (tasks st)) ->
      snd (api_admin_update st sess task_id data now) = st
      /\ status (fst (api_admin_update st sess task_id data now)) <> 200).
Proof.
  intros Ha. split; [|split; [|split]].
  - intros old Ht Hs Hi Hold. eexists. eexists.
    split;
      [now apply (api_admin_update_ok task_id data now st sess old)|].
    split; [apply find_upd_hit; exact Hold|].
    split; [apply row_to_task_decoded|].
    repeat split.
    + intros other Ho. now apply find_upd_other.
    + apply map_upd_ids.
  - intros Ht Hz Hi Hno. apply truthy_true_iff in Ht.
    rewrite api_admin_update_cases, Ha, Ht, Hi,
      (select_task_none st task_id Hno).
    now destruct (slot_mins_of data).
  - intros old Ht Hold Hbad. apply truthy_true_iff in Ht.
    rewrite api_admin_update_cases, Ha, Ht, Hold. cbn [negb].
    unfold storable in *.
    destruct (slot_mins_of data) as [z|]; [|reflexivity].
    destruct (int64 task_id); cbn [negb]; [|reflexivity].
    destruct Hbad as [Hbad|Hbad]; [now rewrite Hbad|discriminate].
  - intros Hno.
    destruct (api_admin_update_result st sess task_id data now)
      as [(old & _ & _ & _ & _ & Hs & _)|(resp & [Hr _] & _ & ->)].
    + rewrite (select_task_none st task_id Hno) in Hs. discriminate.
    + simpl. split; [reflexivity|]. lia.
Qed.

Lemma update_replaces_fields_keeps_identity_witness :
  exists t st',
    api_admin_update Fixtures.store_tasks Fixtures.admin_session 2
      (Fixtures.input_full None) "2025-09-01T00:00:00"
    = (mkResponse 200 (BTask t), st')
    /\ Task.title t = "Soup kitchen"
    /\ Task.type t = "recurring"
    /\ Task.createdAt t = "2025-08-01T08:00:00"
    /\ Task.updatedAt t = "2025-09-01T00:00:00"
    /\ select_task st' 1 = select_task Fixtures.store_tasks 1.
Proof.
  destruct (proj1 (update_replaces_fields_keeps_identity
                     Fixtures.store_tasks Fixtures.admin_session 2
                     (Fixtures.input_full None) "2025-09-01T00:00:00"
                     eq_refl)
              (Fixtures.task_row 2 None 0) ltac:(discriminate) eq_refl
              eq_refl eq_refl)
    as (t & st' & Hr & _ & Hdec & _ & Hc & Hu & Hother & _).
  exists t, st'. split; [exact Hr|].
  assert (Ht : Some t
               = Some (decoded (encode_row 2 (Fixtures.input_full None)
                                  "2025-08-01T08:00:00"
                                  "2025-09-01T00:00:00"))).
  { rewrite <- Hdec. apply row_to_task_decoded. }
  injection Ht as ->.
  repeat split. apply Hother. discriminate.
Defined.

(** C7, as stated, fails: an update of an id that is not in the store with
    an input that has no title is answered 400, not NotFound. *)
Lemma update_of_missing_task_without_title_is_400 :
  ~ In 5 (map TaskRow.id (tasks init_db))
  /\ api_admin_update init_db Fixtures.admin_session 5
       Fixtures.input_untitled "2025-09-01T00:00:00"
     = (json_error 400 "Title is required", init_db)
  /\ status (fst (api_admin_update init_db Fixtures.admin_session 5
                    Fixtures.input_untitled "2025-09-01T00:00:00")) <> 404.
Proof.
  split; [|split].
  - simpl. tauto.
  - vm_compute. reflexivity.
  - vm_compute. discriminate.
Qed.

(** ** The public listing *)

Lemma insert_desc_perm (r : TaskRow.t) (l : list TaskRow.t) :
  Permutation (insert_desc r l) (r :: l).
Proof.
  induction l as [|x l IH]; simpl; [reflexivity|].
  destruct (TaskRow.id x <=? TaskRow.id r); [reflexivity|].
  rewrite IH. apply perm_swap.
Qed.

Lemma order_by_id_desc_perm (l : list TaskRow.t) :
  Permutation (order_by_id_desc l) l.
Proof.
  induction l as [|x l IH]; simpl; [reflexivity|].
  rewrite insert_desc_perm. now constructor.
Qed.

Lemma api_tasks_public_eq (st : Store) :
  api_tasks_public st
  = mkResponse 200
      (BTasks (map decoded
                 (order_by_id_desc
                    (filter (fun r => TaskRow.active r =? 1) (tasks st))))).
Proof. unfold api_tasks_public. now rewrite traverse_row_to_task. Qed.

(** The listing shows an id exactly when a stored row has it with
    [active = 1]. *)
Lemma listed_iff (st : Store) (task_id : Z) :
  listed st task_id
  <-> exists r, In r (tasks st) /\ TaskRow.active r = 1
                /\ TaskRow.id r = task_id.
Proof.
  unfold listed. rewrite api_tasks_public_eq. split.
  - intros (l & t & Hl & Ht & Hid). injection Hl as <-.
    apply in_map_iff in Ht. destruct Ht as (r & <- & Hr).
    apply (Permutation_in _ (order_by_id_desc_perm _)) in Hr.
    apply filter_In in Hr. destruct Hr as [Hr Ha].
    exists r. repeat split; [exact Hr|now apply Z.eqb_eq|exact Hid].
  - intros (r & Hr & Ha & Hid).
    eexists. exists (decoded r). split; [reflexivity|]. split; [|exact Hid].
    apply in_map.
    apply (Permutation_in _ (Permutation_sym (order_by_id_desc_perm _))).
    apply filter_In. split; [exact Hr|now apply Z.eqb_eq].
Qed.

Lemma active_of_falsy (data : TaskIn.t) :
  get_truthy (TaskIn.active data) = false -> active_of data = 0.
Proof. unfold active_of. now intros ->. Qed.

Lemma active_of_truthy (data : TaskIn.t) :
  get_truthy (TaskIn.active data) = true -> active_of data = 1.
Proof. unfold active_of. now intros ->. Qed.

Lemma decoded_encode_row_active (id : Z) (data : TaskIn.t) (c u : string) :
  Task.active (decoded (encode_row id data c u))
  = get_truthy (TaskIn.active data).
Proof.
  unfold decoded, encode_row, active_of. simpl.
  now destruct (get_truthy (TaskIn.active data)).
Qed.

(** C9.  A create or update that is accepted (signed-in admin, non-blank
    title, numbers that can be written, for create a free rowid, for update
    an existing task) stores the row with [active = 0] when the [active]
    field of the input is missing or falsy and with [active = 1] when it is
    truthy; the task it answers with is active, and its id is in the public
    listing, exactly when the field is truthy.  Whatever the outcome, with a
    missing or falsy field a create leaves the public listing as it was,
    with the new id not in it, and after an update answered 200 the id is
    not in the public listing. *)
Theorem falsy_active_is_never_listed (st : Store) (sess : Session)
    (data : TaskIn.t) (now : string) :
  (require_admin sess = true ->
   req_title data <> EmptyString ->
   storable data = true ->
   int64 (next_task_id st) = true ->
   exists t st' row,
     api_admin_create st sess data now = (mkResponse 201 (BTask t), st')
     /\ tasks st' = (tasks st ++ [row])%list
     /\ TaskRow.id row = next_task_id st
     /\ select_task st' (next_task_id st) = Some row
     /\ row_to_task row = Some t
     /\ TaskRow.active row
        = (if get_truthy (TaskIn.active data) then 1 else 0)
     /\ Task.active t = get_truthy (TaskIn.active data)
     /\ (listed st' (next_task_id st)
         <-> get_truthy (TaskIn.active data) = true))
  /\ (forall task_id old,
      require_admin sess = true ->
      req_title data <> EmptyString ->
      storable data = true ->
      int64 task_id = true ->
      select_task st task_id = Some old ->
      exists t st' row,
        api_admin_update st sess task_id data now
        = (mkResponse 200 (BTask t), st')
        /\ select_task st' task_id = Some row
        /\ row_to_task row = Some t
        /\ TaskRow.active row
           = (if get_truthy (TaskIn.active data) then 1 else 0)
        /\ Task.active t = get_truthy (TaskIn.active data)
        /\ (listed st' task_id
            <-> get_truthy (TaskIn.active data) = true))
  /\ (get_truthy (TaskIn.active data) = false ->
      api_tasks_public (snd (api_admin_create st sess data now))
      = api_tasks_public st
      /\ ~ listed (snd (api_admin_create st sess data now))
             (next_task_id st)
      /\ forall task_id,
           status (fst (api_admin_update st sess task_id data now)) = 200 ->
           ~ listed (snd (api_admin_update st sess task_id data now))
               task_id)
  /\ (forall t,
      body (fst (api_admin_create st sess data now)) = BTask t ->
      Task.active t = get_truthy (TaskIn.active data))
  /\ (forall task_id t,
      body (fst (api_admin_update st sess task_id data now)) = BTask t ->
      Task.active t = get_truthy (TaskIn.active data)
      /\ Task.id t = task_id).
Proof.
  assert (Hact : active_of data
                 = if get_truthy (TaskIn.active data) then 1 else 0)
    by reflexivity.
  assert (Hcreated : forall st' : Store,
    tasks st'
    = (tasks st ++ [encode_row (next_task_id st) data now now])%list ->
    (listed st' (next_task_id st)
     <-> get_truthy (TaskIn.active data) = true)).
  { intros st' Ht. rewrite listed_iff, Ht. split.
    - intros (r & Hr & Ha & Hid). apply in_app_or in Hr.
      destruct Hr as [Hr|[<-|[]]].
      + now destruct (next_task_id_fresh st r Hr).
      + cbn in Ha. rewrite Hact in Ha.
        destruct (get_truthy (TaskIn.active data)); [reflexivity|lia].
    - intros Htr. exists (encode_row (next_task_id st) data now now).
      split; [apply in_or_app; right; now left|].
      split; [cbn; now rewrite Hact, Htr|reflexivity]. }
  assert (Hupdated : forall task_id (st' : Store) old,
    select_task st task_id = Some old ->
    tasks st' = map (row_update task_id data now) (tasks st) ->
    (listed st' task_id <-> get_truthy (TaskIn.active data) = true)).
  { intros task_id st' old Hold Ht. rewrite listed_iff, Ht. split.
    - intros (r & Hr & Ha & Hid). apply in_map_iff in Hr.
      destruct Hr as (r0 & <- & Hr0). rewrite upd_id in Hid.
      rewrite (upd_active _ _ _ _ Hid), Hact in Ha.
      destruct (get_truthy (TaskIn.active data)); [reflexivity|lia].
    - intros Htr. apply find_some in Hold. destruct Hold as [Hin Hid].
      apply Z.eqb_eq in Hid.
      exists (row_update task_id data now old). split; [now apply in_map|].
      split; [now rewrite (upd_active _ _ _ _ Hid), Hact, Htr|].
      now rewrite upd_id. }
  split; [|split; [|split; [|split]]].
  - intros Ha Ht Hs Hn.
    exists (decoded (encode_row (next_task_id st) data now now)).
    eexists. exists (encode_row (next_task_id st) data now now).
    split; [now apply api_admin_create_ok|].
    split; [reflexivity|]. split; [reflexivity|].
    split.
    { unfold select_task. cbn [tasks].
      apply find_app_fresh; [reflexivity|].
      intros r Hr. now apply next_task_id_fresh. }
    split; [apply row_to_task_decoded|].
    split; [exact Hact|].
    split; [apply decoded_encode_row_active|].
    now apply Hcreated.
  - intros task_id old Ha Ht Hs Hi Hold.
    exists (decoded (encode_row task_id data (TaskRow.created_at old) now)).
    eexists.
    exists (encode_row task_id data (TaskRow.created_at old) now).
    split; [now apply (api_admin_update_ok task_id data now st sess old)|].
    split; [unfold select_task in *; cbn [tasks]; now apply find_upd_hit|].
    split; [apply row_to_task_decoded|].
    split; [exact Hact|].
    split; [apply decoded_encode_row_active|].
    now apply (Hupdated task_id _ old).
  - intros Hf. split; [|split].
    + destruct (api_admin_create_result st sess data now)
        as [(_ & _ & _ & _ & ->)|(resp & _ & _ & ->)]; [|reflexivity].
      cbn [snd]. rewrite !api_tasks_public_eq. cbn [tasks].
      rewrite filter_app. cbn [filter encode_row TaskRow.active].
      rewrite (active_of_falsy data Hf). cbn. now rewrite app_nil_r.
    + destruct (api_admin_create_result st sess data now)
        as [(_ & _ & _ & _ & ->)|(resp & _ & _ & ->)]; cbn [snd].
      * intros H. apply Hcreated in H; [congruence|reflexivity].
      * rewrite listed_iff. intros (r & Hr & _ & Hid).
        now apply (next_task_id_fresh st r).
    + intros task_id.
      destruct (api_admin_update_result st sess task_id data now)
        as [(old & _ & _ & _ & _ & Hold & ->)|(resp & [Hr _] & _ & ->)];
        cbn [fst snd]; [|intros H; lia].
      intros _ H. apply (Hupdated task_id _ old Hold) in H;
        [congruence|reflexivity].
  - intros t.
    destruct (api_admin_create_result st sess data now)
      as [(_ & _ & _ & _ & ->)|(resp & [_ Hr] & _ & ->)]; cbn [fst body].
    + intros [= <-]. apply decoded_encode_row_active.
    + intros H. now destruct (Hr t).
  - intros task_id t.
    destruct (api_admin_update_result st sess task_id data now)
      as [(old & _ & _ & _ & _ & _ & ->)|(resp & [_ Hr] & _ & ->)];
      cbn [fst body].
    + intros [= <-]. split; [apply decoded_encode_row_active|reflexivity].
    + intros H. now destruct (Hr t).
Qed.

Lemma falsy_active_is_never_listed_witness :
  (exists t st' row,
      api_admin_create Fixtures.store_tasks Fixtures.admin_session
        (Fixtures.input_full (Some (JStr ""))) "2025-09-01T00:00:00"
      = (mkResponse 201 (BTask t), st')
      /\ tasks st' = (tasks Fixtures.store_tasks ++ [row])%list
      /\ TaskRow.active row = 0
      /\ Task.active t = false
      /\ ~ listed st' 3)
  /\ ~ listed
         (snd (api_admin_update Fixtures.store_tasks Fixtures.admin_session 1
                 (Fixtures.input_full None) "2025-09-01T00:00:00")) 1
  /\ (exists t st' row,
         api_admin_update Fixtures.store_tasks Fixtures.admin_session 2
           (Fixtures.input_full (Some (JNum 7))) "2025-09-01T00:00:00"
         = (mkResponse 200 (BTask t), st')
         /\ select_task st' 2 = Some row
         /\ TaskRow.active row = 1
         /\ listed st' 2).
Proof.
  split; [|split].
  - destruct (proj1 (falsy_active_is_never_listed Fixtures.store_tasks
                       Fixtures.admin_session
                       (Fixtures.input_full (Some (JStr "")))
                       "2025-09-01T00:00:00")
                eq_refl ltac:(discriminate) eq_refl eq_refl)
      as (t & st' & row & E & Ht & _ & _ & _ & Hrow & Hact & Hl).
    exists t, st', row. split; [exact E|]. split; [exact Ht|].
    split; [exact Hrow|]. split; [exact Hact|].
    intros H. apply Hl in H. discriminate H.
  - apply (proj2 (proj2 (proj1 (proj2 (proj2
             (falsy_active_is_never_listed Fixtures.store_tasks
                Fixtures.admin_session (Fixtures.input_full None)
                "2025-09-01T00:00:00"))) eq_refl)) 1 eq_refl).
  - destruct (proj1 (proj2 (falsy_active_is_never_listed
                              Fixtures.store_tasks Fixtures.admin_session
                              (Fixtures.input_full (Some (JNum 7)))
                              "2025-09-01T00:00:00"))
                2 (Fixtures.task_row 2 None 0) eq_refl ltac:(discriminate)
                eq_refl eq_refl eq_refl)
      as (t & st' & row & E & Hs & _ & Hrow & _ & Hl).
    exists t, st', row. split; [exact E|]. split; [exact Hs|].
    split; [exact Hrow|]. apply Hl. reflexivity.
Defined.

(* ================================================================== *)
(** ** Login *)

Lemma insert_value_In (v x : string) (l : list string) :
  In v (insert_value x l) -> v = x \/ In v l.
Proof.
  induction l as [|y l IH]; simpl.
  - intros [<-|[]]. now left.
  - destruct (String.compare x y); simpl.
    + intros H. now right.
    + intros [<-|H]; [now left|now right].
    + intros [<-|H]; [right; now left|].
      destruct (IH H) as [->|H']; [now left|right; now right].
Qed.

Lemma in_values_In (v : string) (params : list string) :
  In v (in_values params) -> In v params.
Proof.
  induction params as [|x l IH]; simpl; [tauto|].
  intros H. apply insert_value_In in H. destruct H as [->|H]; auto.
Qed.

(** A fetched row is a stored account whose email is one of the bound
    values. *)
Lemma fetchone_select_admins (st : Store) (params : list string)
    (row : AdminRow.t) :
  fetchone (select_admins st params) = Some row ->
  In row (admins st) /\ In (AdminRow.email row) params.
Proof.
  intros H.
  assert (Hin : In row (select_admins st params)).
  { unfold fetchone in H. destruct (select_admins st params); simpl in H;
      [discriminate|]. injection H as ->. now left. }
  apply in_flat_map in Hin. destruct Hin as (v & Hv & Hr).
  apply filter_In in Hr. destruct Hr as [Hr He].
  apply String.eqb_eq in He. split; [exact Hr|].
  rewrite He. now apply in_values_In.
Qed.

Lemma login_params_candidate (data : LoginIn.t) (email : string) :
  In email
     (if PyStr.contains "@" (login_identifier data)
      then [login_identifier data]
      else [login_identifier data;
            login_identifier data ++ "@example.com"]) ->
  candidate data email.
Proof.
  unfold candidate.
  destruct (PyStr.contains "@" (login_identifier data)); simpl; intuition.
Qed.

Lemma compare_prefix (s t : string) (c : ascii) :
  String.compare s (s ++ String c t) = Lt.
Proof.
  induction s as [|d s IH]; simpl; [reflexivity|].
  assert (E : Ascii.compare d d = Eq).
  { unfold Ascii.compare. apply N.compare_refl. }
  now rewrite E.
Qed.

(** An identifier without an at-sign is looked up bare first and with the
    suffix second. *)
Lemma select_admins_alias (st : Store) (ident : string) :
  select_admins st [ident; ident ++ "@example.com"]
  = (filter (fun r => String.eqb (AdminRow.email r) ident) (admins st)
     ++ filter (fun r => String.eqb (AdminRow.email r)
                           (ident ++ "@example.com")) (admins st))%list.
Proof.
  unfold select_admins, in_values. cbn [fold_right insert_value].
  change (ident ++ "@example.com")
    with (ident ++ String "@" "example.com").
  rewrite compare_prefix. cbn [flat_map]. now rewrite app_nil_r.
Qed.

(** C8, as amended.  With the two accounts that [seed_admin] writes into a
    fresh database, each with its own hash and its own clock reading, both
    hashes verifying the password admin, a login as admin and a login as
    admin@example.com with that password both answer 200 and establish an
    admin session; each reports, and keeps in the session, the account that
    the lookup returns first: the account admin (id 2) for the identifier
    admin, the account admin@example.com (id 1) for the other.  An
    identifier without an
    at-sign that is no account's email is looked up with the suffix
    appended.  For every identifier, a password that verifies against none
    of the accounts the identifier stands for is answered 401 and the
    session stays as it was. *)
Theorem seeded_logins_succeed_wrong_password_fails
    (check_password_hash : string -> string -> bool) :
  (forall st sess hash1 hash2 now1 now2,
      admins st = admins (seed_admin init_db hash1 hash2 now1 now2) ->
      check_password_hash hash1 "admin" = true ->
      check_password_hash hash2 "admin" = true ->
      api_login check_password_hash st sess
        (LoginIn.mk (Some "admin") (Some "admin"))
      = (mkResponse 200 (BLoggedIn "admin"),
         mkSession (Some 2) (Some "admin"))
      /\ api_login check_password_hash st sess
           (LoginIn.mk (Some "admin@example.com") (Some "admin"))
         = (mkResponse 200 (BLoggedIn "admin@example.com"),
            mkSession (Some 1) (Some "admin@example.com"))
      /\ require_admin (mkSession (Some 2) (Some "admin")) = true
      /\ require_admin (mkSession (Some 1) (Some "admin@example.com")) = true)
  /\ (forall st sess data,
      PyStr.contains "@" (login_identifier data) = false ->
      (forall r, In r (admins st) ->
                 AdminRow.email r <> login_identifier data) ->
      (exists r, In r (admins st)
                 /\ AdminRow.email r
                    = login_identifier data ++ "@example.com") ->
      (forall r, In r (admins st) ->
                 AdminRow.email r = login_identifier data ++ "@example.com" ->
                 check_password_hash (AdminRow.password_hash r)
                   (login_password data) = true) ->
      exists r,
        In r (admins st)
        /\ AdminRow.email r = login_identifier data ++ "@example.com"
        /\ api_login check_password_hash st sess data
           = (mkResponse 200 (BLoggedIn (AdminRow.email r)),
              mkSession (Some (AdminRow.id r)) (Some (AdminRow.email r))))
  /\ (forall st sess data,
      (forall r, In r (admins st) -> candidate data (AdminRow.email r) ->
                 check_password_hash (AdminRow.password_hash r)
                   (login_password data) = false) ->
      api_login check_password_hash st sess data
      = (mkResponse 401 BInvalidCredentials, sess)).
Proof.
  split; [|split].
  - intros st sess hash1 hash2 now1 now2 Hadm H1 H2.
    unfold api_login, select_admins. rewrite Hadm.
    repeat split; cbn; [now rewrite H2|now rewrite H1].
  - intros st sess data Hat Hbare (r & Hr & He) Hok. unfold api_login.
    fold (login_identifier data). fold (login_password data).
    rewrite Hat, select_admins_alias.
    rewrite (filter_none _ (admins st)).
    + cbn [app].
      destruct (filter _ (admins st)) as [|r0 l] eqn:Hf.
      * exfalso.
        assert (Hin : In r (filter
                  (fun r => String.eqb (AdminRow.email r)
                              (login_identifier data ++ "@example.com"))
                  (admins st))).
        { apply filter_In. split; [exact Hr|now apply String.eqb_eq]. }
        now rewrite Hf in Hin.
      * assert (Hin : In r0 (filter
                  (fun r => String.eqb (AdminRow.email r)
                              (login_identifier data ++ "@example.com"))
                  (admins st))) by (rewrite Hf; now left).
        apply filter_In in Hin. destruct Hin as [Hin0 He0].
        apply String.eqb_eq in He0.
        exists r0. split; [exact Hin0|]. split; [exact He0|].
        cbn [fetchone hd_error]. now rewrite (Hok r0 Hin0 He0).
    + apply Forall_forall. intros r' Hr'. apply String.eqb_neq.
      now apply Hbare.
  - intros st sess data Hwrong. unfold api_login.
    fold (login_identifier data). fold (login_password data).
    destruct (fetchone _) as [row|] eqn:Hrow; [|reflexivity].
    apply fetchone_select_admins in Hrow. destruct Hrow as [Hin Hem].
    apply login_params_candidate in Hem.
    now rewrite (Hwrong row Hin Hem).
Qed.

Lemma seeded_logins_succeed_wrong_password_fails_witness :
  api_login Fixtures.toy_check Fixtures.store_seeded no_session
    (LoginIn.mk (Some " Admin ") (Some "secret"))
  = (mkResponse 401 BInvalidCredentials, no_session)
  /\ fst (api_login Fixtures.toy_check Fixtures.store_seeded no_session
            (LoginIn.mk (Some "admin") (Some "admin")))
     = mkResponse 200 (BLoggedIn "admin").
Proof.
  split.
  - apply (proj2 (proj2 (seeded_logins_succeed_wrong_password_fails
                           Fixtures.toy_check))).
    intros r [<-|[<-|[]]] _; reflexivity.
  - rewrite (proj1 (proj1 (seeded_logins_succeed_wrong_password_fails
                             Fixtures.toy_check)
                      Fixtures.store_seeded no_session
                      (Fixtures.toy_hash "admin") (Fixtures.toy_hash "admin")
                      "2025-08-01T08:00:00.000150"
                      "2025-08-01T08:00:00.093722" eq_refl eq_refl eq_refl)).
    reflexivity.
Defined.

(** C8, as stated, fails: both logins succeed, but not with the same
    outcome.  The login as admin reports the account admin and the login as
    admin@example.com the account admin@example.com, and the sessions hold
    different admin ids. *)
Lemma seeded_logins_differ :
  api_login Fixtures.toy_check Fixtures.store_seeded no_session
    (LoginIn.mk (Some "admin") (Some "admin"))
  = (mkResponse 200 (BLoggedIn "admin"), mkSession (Some 2) (Some "admin"))
  /\ api_login Fixtures.toy_check Fixtures.store_seeded no_session
       (LoginIn.mk (Some "admin@example.com") (Some "admin"))
     = (mkResponse 200 (BLoggedIn "admin@example.com"),
        mkSession (Some 1) (Some "admin@example.com"))
  /\ api_login Fixtures.toy_check Fixtures.store_seeded no_session
       (LoginIn.mk (Some "admin") (Some "admin"))
     <> api_login Fixtures.toy_check Fixtures.store_seeded no_session
          (LoginIn.mk (Some "admin@example.com") (Some "admin")).
Proof.
  split; [|split]; vm_compute; [reflexivity|reflexivity|discriminate].
Qed.


(* ================================================================== *)
(** ** Clock times *)

Lemma compare_app (a1 a2 b1 b2 : string) :
  String.length a1 = String.length a2 ->
  String.compare (a1 ++ b1) (a2 ++ b2)
  = match String.compare a1 a2 with
    | Eq => String.compare b1 b2
    | c => c
    end.
Proof.
  revert a2. induction a1 as [|c a1 IH]; intros [|d a2]; simpl;
    try discriminate; [reflexivity|].
  intros [= H]. destruct (Ascii.compare c d); auto.
Qed.

Lemma two_digits_compare (a b : nat) :
  (a < 100)%nat -> (b < 100)%nat ->
  String.compare (two_digits a) (two_digits b) = Nat.compare a b.
Proof.
  intros Ha Hb.
  assert (H : two_digits_ordered = true) by (vm_compute; reflexivity).
  unfold two_digits_ordered in H.
  rewrite forallb_forall in H.
  specialize (H a ltac:(apply in_seq; lia)).
  rewrite forallb_forall in H.
  specialize (H b ltac:(apply in_seq; lia)).
  destruct (String.compare (two_digits a) (two_digits b)),
    (Nat.compare a b); congruence.
Qed.

(** On zero-padded clock times the order of strings is the order of the
    minutes since midnight. *)
Lemma hhmm_lt (h1 m1 h2 m2 : nat) :
  (h1 < 24)%nat -> (m1 < 60)%nat -> (h2 < 24)%nat -> (m2 < 60)%nat ->
  PyStr.lt (hhmm h1 m1) (hhmm h2 m2)
  = (minutes h1 m1 <? minutes h2 m2)%nat.
Proof.
  intros Hh1 Hm1 Hh2 Hm2. unfold PyStr.lt, String.ltb, hhmm, minutes.
  rewrite compare_app by reflexivity.
  rewrite two_digits_compare by lia.
  change (String.compare (String ":" (two_digits m1))
            (String ":" (two_digits m2)))
    with (String.compare (two_digits m1) (two_digits m2)).
  rewrite two_digits_compare by lia.
  destruct (Nat.compare_spec h1 h2) as [E|E|E];
    [destruct (Nat.compare_spec m1 m2) as [F|F|F]| |];
    symmetry; first [apply Nat.ltb_lt; lia | apply Nat.ltb_ge; lia].
Qed.

(** So on clock times the test of the booking check compares minutes. *)
Lemma overlaps_clock_times (h1 m1 h2 m2 : nat) (a : ApptRow.t)
    (ah1 am1 ah2 am2 : nat) :
  (h1 < 24)%nat -> (m1 < 60)%nat -> (h2 < 24)%nat -> (m2 < 60)%nat ->
  (ah1 < 24)%nat -> (am1 < 60)%nat -> (ah2 < 24)%nat -> (am2 < 60)%nat ->
  ApptRow.start_time a = hhmm ah1 am1 ->
  ApptRow.end_time a = hhmm ah2 am2 ->
  overlaps (hhmm h1 m1) (hhmm h2 m2) a
  = ((minutes h1 m1 <? minutes ah2 am2)%nat
     && (minutes ah1 am1 <? minutes h2 m2)%nat).
Proof.
  intros. unfold overlaps.
  repeat match goal with H : _ = hhmm _ _ |- _ => rewrite H end.
  now rewrite !hhmm_lt.
Qed.

(* ================================================================== *)
(** * Further properties *)

(** ** Stripping *)

Lemma lstrip_head (s : string) :
  PyStr.lstrip s = EmptyString
  \/ exists c r, PyStr.lstrip s = String c r /\ PyStr.isspace c = false.
Proof.
  induction s as [|c r IH]; simpl; [now left|].
  destruct (PyStr.isspace c) eqn:E; [exact IH|].
  right. now exists c, r.
Qed.

Lemma rstrip_idem (s : string) : PyStr.rstrip (PyStr.rstrip s) = PyStr.rstrip s.
Proof.
  induction s as [|c r IH]; simpl; [reflexivity|].
  destruct (PyStr.rstrip r) as [|d r'] eqn:E.
  - destruct (PyStr.isspace c) eqn:F; simpl; [reflexivity|]. now rewrite F.
  - simpl in *. now rewrite IH.
Qed.

Lemma lstrip_rstrip_head (c : ascii) (r : string) :
  PyStr.isspace c = false ->
  PyStr.lstrip (PyStr.rstrip (String c r)) = PyStr.rstrip (String c r).
Proof.
  intros H. simpl. destruct (PyStr.rstrip r); rewrite ?H; simpl;
    now rewrite H.
Qed.

(** What [strip] returns has nothing left to strip. *)
Lemma strip_idem (s : string) : PyStr.strip (PyStr.strip s) = PyStr.strip s.
Proof.
  unfold PyStr.strip.
  destruct (lstrip_head s) as [E|(c & r & E & H)]; rewrite E.
  - reflexivity.
  - rewrite (lstrip_rstrip_head c r H). apply rstrip_idem.
Qed.

(** ** More on splitting *)

Lemma before_first_sep_free (sep : ascii) (s : string) :
  sep_free sep (before_first sep s).
Proof.
  unfold sep_free. induction s as [|c r IH]; simpl; [reflexivity|].
  destruct (Ascii.eqb c sep) eqn:E; simpl; [reflexivity|]. now rewrite E.
Qed.

Lemma split_pieces_sep_free (sep : ascii) (s : string) :
  Forall (sep_free sep) (PyStr.split sep s).
Proof.
  induction s as [|c r IH]; simpl.
  - now repeat constructor.
  - destruct (Ascii.eqb c sep) eqn:E.
    + constructor; [reflexivity|exact IH].
    + destruct (PyStr.split sep r) as [|p ps].
      * constructor; [|constructor]. unfold sep_free. simpl. now rewrite E.
      * inversion IH; subst. constructor; [|assumption].
        unfold sep_free in *. simpl. now rewrite E.
Qed.

(** Joining the pieces of a split gives the string back. *)
Lemma join_split (sep : ascii) (s : string) :
  PyStr.join sep (PyStr.split sep s) = s.
Proof.
  induction s as [|c r IH]; simpl; [reflexivity|].
  destruct (PyStr.split sep r) as [|p ps] eqn:F;
    [now apply split_not_nil in F|].
  destruct (Ascii.eqb_spec c sep) as [->|E].
  - change (PyStr.join sep (EmptyString :: p :: ps))
      with (String sep (PyStr.join sep (p :: ps))).
    now rewrite IH.
  - destruct ps as [|q qs].
    + simpl in *. now rewrite IH.
    + change (PyStr.join sep (String c p :: q :: qs))
        with (String c (p ++ String sep (PyStr.join sep (q :: qs)))).
      change (PyStr.join sep (p :: q :: qs))
        with (p ++ String sep (PyStr.join sep (q :: qs))) in IH.
      now rewrite IH.
Qed.

Lemma contains_before_first (c sep : ascii) (s : string) :
  PyStr.contains c s = false -> PyStr.contains c (before_first sep s) = false.
Proof.
  induction s as [|d r IH]; simpl; [reflexivity|].
  intros H. apply orb_false_iff in H. destruct H as [H1 H2].
  destruct (Ascii.eqb d sep); simpl; [reflexivity|].
  now rewrite H1, IH.
Qed.

Lemma contains_after_first (c sep : ascii) (s : string) :
  PyStr.contains c s = false -> PyStr.contains c (after_first sep s) = false.
Proof.
  induction s as [|d r IH]; simpl; [reflexivity|].
  intros H. apply orb_false_iff in H. destruct H as [H1 H2].
  destruct (Ascii.eqb d sep); auto.
Qed.

(** ** What the serializer guarantees of its output *)

Lemma csv_items_clean (col : option string) :
  Forall clean_entry (csv_items col).
Proof.
  unfold csv_items. apply Forall_forall. intros x Hx.
  apply filter_In in Hx. destruct Hx as [Hin Ht]. split.
  - now apply truthy_true_iff.
  - pose proof (split_pieces_sep_free "," (PyStr.or_empty col)) as H.
    rewrite Forall_forall in H. exact (H x Hin).
Qed.

Lemma first_two_pieces_delimiter_free (p : string) :
  PyStr.contains "|" p = false ->
  delimiter_free (Window.start (first_two_pieces p))
  /\ delimiter_free (Window.end_ (first_two_pieces p)).
Proof.
  intros H. unfold first_two_pieces, delimiter_free. simpl. repeat split.
  - apply before_first_sep_free.
  - now apply contains_before_first.
  - apply before_first_sep_free.
  - now apply contains_before_first, contains_after_first.
Qed.

(** X1.  Whatever the stored record holds, the task that [row_to_task]
    returns has only non-empty, comma-free entries in [daysOfWeek] and
    [eventDates], and no window bound of it holds a dash or a bar. *)
Theorem decoded_task_holds_no_delimiter (r : TaskRow.t) :
  exists t,
    row_to_task r = Some t
    /\ Forall clean_entry (Task.daysOfWeek t)
    /\ Forall clean_entry (Task.eventDates t)
    /\ Forall (fun w => delimiter_free (Window.start w)
                        /\ delimiter_free (Window.end_ w))
         (Task.timeWindows t).
Proof.
  exists (decoded r). split; [apply row_to_task_decoded|].
  split; [apply csv_items_clean|]. split; [apply csv_items_clean|].
  unfold decoded. cbn [Task.timeWindows]. apply Forall_map.
  apply Forall_forall. intros p Hp. apply filter_In in Hp.
  destruct Hp as [Hin _]. apply first_two_pieces_delimiter_free.
  pose proof (split_pieces_sep_free "|"
                (PyStr.or_empty (TaskRow.time_windows r))) as H.
  rewrite Forall_forall in H. exact (H p Hin).
Qed.

(** X2.  Re-encoding a decoded list column and decoding it again gives the
    same list: [to_csv] after the decoder is stable.  And for any list
    whose entries hold no comma, decoding its encoding gives the list
    without its empty entries. *)
Theorem csv_reencoding_is_stable :
  (forall col, csv_items (Some (to_csv (Some (csv_items col))))
               = csv_items col)
  /\ (forall l, Forall (sep_free ",") l ->
                csv_items (Some (to_csv (Some l))) = filter PyStr.truthy l)
  /\ csv_items (Some (to_csv None)) = [].
Proof.
  split; [|split].
  - intros col. apply csv_roundtrip, csv_items_clean.
  - intros l Hl. unfold csv_items, to_csv. simpl.
    rewrite filter_split_join.
    + clear Hl. induction l as [|x l IH]; simpl; [reflexivity|].
      destruct (PyStr.truthy x) eqn:E; simpl; [|exact IH].
      now rewrite E, IH.
    + reflexivity.
    + clear -Hl. induction Hl as [|x l Hx _ IH]; simpl; [constructor|].
      destruct (PyStr.truthy x); [now constructor|exact IH].
  - reflexivity.
Qed.

Lemma csv_reencoding_is_stable_witness :
  csv_items (Some (to_csv (Some ["Mon"; ""; "Wed"]))) = ["Mon"; "Wed"].
Proof.
  apply (proj1 (proj2 csv_reencoding_is_stable) ["Mon"; ""; "Wed"]).
  repeat constructor.
Defined.

Lemma window_parts (ws : list WindowIn.t) :
  flat_map window_part ws
  = map (fun w => window_start w ++ String "-" (window_end w))
      (filter window_kept ws).
Proof.
  induction ws as [|w ws IH]; simpl; [reflexivity|].
  unfold window_part at 1, window_kept at 1.
  fold (window_start w). fold (window_end w).
  destruct (PyStr.truthy (window_start w) && PyStr.truthy (window_end w));
    simpl; now rewrite IH.
Qed.

(** X3.  When the bounds of the request windows, once stripped, hold
    neither a dash nor a bar, the stored string decodes to the windows that
    were sent with both bounds non-blank, each with its bounds stripped and
    in the order sent; a window with a missing or blank bound is left out
    whole. *)
Theorem stored_windows_are_the_complete_ones (ws : list WindowIn.t) :
  Forall (fun w => delimiter_free (window_start w)
                   /\ delimiter_free (window_end w)) ws ->
  decode_windows (Some (parse_time_windows (Some ws)))
  = Some (map (fun w => Window.mk (window_start w) (window_end w))
            (filter window_kept ws)).
Proof.
  intros H. rewrite decode_windows_total. f_equal.
  unfold parse_time_windows. cbn [PyStr.or_empty]. rewrite window_parts.
  assert (Hk : Forall (fun w => delimiter_free (window_start w)
                                /\ delimiter_free (window_end w))
                 (filter window_kept ws)).
  { apply Forall_forall. intros w Hw. apply filter_In in Hw.
    rewrite Forall_forall in H. now apply H. }
  clear H. revert Hk. generalize (filter window_kept ws). intros l Hk.
  rewrite filter_split_join.
  - rewrite filter_all.
    + rewrite map_map.
      induction Hk as [|w l [[Ds _] [De _]] _ IH]; simpl; [reflexivity|].
      rewrite IH. f_equal. unfold first_two_pieces.
      rewrite before_first_app, after_first_app by exact Ds.
      now rewrite before_first_id by exact De.
    + apply Forall_map. apply Forall_forall. intros w _.
      rewrite contains_app. simpl. apply orb_true_r.
  - reflexivity.
  - apply Forall_map. eapply Forall_impl; [|exact Hk].
    intros w [[_ Bs] [_ Be]]. unfold sep_free.
    rewrite contains_app. simpl. now rewrite Bs, Be.
Qed.

Lemma stored_windows_are_the_complete_ones_witness :
  decode_windows (Some (parse_time_windows (Some Fixtures.windows_in)))
  = Some [Window.mk "09:00" "12:00"; Window.mk "14:00" "17:00"].
Proof.
  apply (stored_windows_are_the_complete_ones Fixtures.windows_in).
  repeat constructor.
Defined.

(** ** Keys *)

Lemma NoDup_snoc {A : Type} (l : list A) (x : A) :
  NoDup l -> ~ In x l -> NoDup (l ++ [x]).
Proof.
  induction 1 as [|y l Hy Hl IH]; simpl; intros Hx.
  - constructor; [tauto|constructor].
  - constructor.
    + intros H. apply in_app_or in H. destruct H as [H|[H|[]]]; [tauto|].
      apply Hx. now left.
    + apply IH. tauto.
Qed.

(** Deleting rows keeps a key column without duplicates. *)
Lemma filtered_keys_unique {Row : Type} (key : Row -> Z)
    (keep : Row -> bool) (rows : list Row)
    (Hkeys : NoDup (map key rows)) :
  NoDup (map key (filter keep rows)).
Proof.
  induction rows as [|x rows IH]; simpl; [constructor|].
  simpl in Hkeys. apply NoDup_cons_iff in Hkeys. destruct Hkeys as [Hx Hrest].
  destruct (keep x); simpl; [|now apply IH].
  apply NoDup_cons; [|now apply IH].
  intros Hin. apply Hx. apply in_map_iff in Hin.
  destruct Hin as (y & Hy & Hin). apply filter_In in Hin.
  rewrite <- Hy. apply in_map. tauto.
Qed.

Lemma max_rowid_nonneg (ids : list Z) : 0 <= max_rowid ids.
Proof.
  unfold max_rowid. induction ids as [|x ids IH]; cbn [fold_right]; lia.
Qed.

Lemma next_rowid_above (seq : Z) (ids : list Z) :
  seq < next_rowid seq ids /\ 0 < next_rowid seq ids
  /\ forall i, In i ids -> i < next_rowid seq ids.
Proof.
  unfold next_rowid. pose proof (max_rowid_nonneg ids).
  repeat split; try lia.
  intros i Hi. pose proof (max_rowid_ge ids i Hi). lia.
Qed.

(** Under the counter invariant the next rowid is the counter plus one. *)
Lemma next_rowid_seq (seq : Z) (ids : list Z) :
  0 <= seq -> Forall (fun i => i <= seq) ids -> next_rowid seq ids = seq + 1.
Proof.
  intros H0 H. unfold next_rowid.
  assert (max_rowid ids <= seq); [|lia].
  unfold max_rowid. induction H as [|x l Hx _ IH]; cbn [fold_right]; lia.
Qed.

Lemma fresh_not_in (seq : Z) (ids : list Z) : ~ In (next_rowid seq ids) ids.
Proof.
  intros H. apply (proj2 (proj2 (next_rowid_above seq ids))) in H. lia.
Qed.

Lemma filter_nil_none {A : Type} (f : A -> bool) (l : list A) :
  filter f l = [] -> forall x, In x l -> f x = false.
Proof.
  intros H x Hx. destruct (f x) eqn:E; [|reflexivity].
  assert (Hin : In x (filter f l)) by (apply filter_In; auto).
  now rewrite H in Hin.
Qed.

(** [WHERE email=?] with one bound value. *)
Lemma select_admins_one (st : Store) (email : string) :
  select_admins st [email]
  = filter (fun r => String.eqb (AdminRow.email r) email) (admins st).
Proof. unfold select_admins. simpl. apply app_nil_r. Qed.

Lemma ensure_cases (st : Store) (email hash now : string) :
  (ensure st email hash now = st
   /\ exists r, In r (admins st) /\ AdminRow.email r = email)
  \/ (ensure st email hash now
      = {| admins :=
             admins st
             ++ [AdminRow.mk
                   (next_rowid (admins_seq st) (map AdminRow.id (admins st)))
                   email hash now];
           admins_seq :=
             next_rowid (admins_seq st) (map AdminRow.id (admins st));
           tasks := tasks st; tasks_seq := tasks_seq st;
           appointments := appointments st;
           appointments_seq := appointments_seq st |}
      /\ forall r, In r (admins st) -> AdminRow.email r <> email).
Proof.
  unfold ensure. rewrite select_admins_one.
  destruct (filter _ (admins st)) as [|r l] eqn:E; cbn [fetchone hd_error].
  - right. split; [reflexivity|]. intros r Hr.
    apply String.eqb_neq. exact (filter_nil_none _ _ E r Hr).
  - left. split; [reflexivity|]. exists r.
    assert (Hin : In r (filter
              (fun r => String.eqb (AdminRow.email r) email) (admins st)))
      by (rewrite E; now left).
    apply filter_In in Hin. destruct Hin as [Hin He].
    split; [exact Hin|now apply String.eqb_eq].
Qed.

Lemma ensure_ok (st : Store) (email hash now : string) :
  store_ok st -> store_ok (ensure st email hash now).
Proof.
  intros [T1 T2 A1 A2 D1 D2 D3].
  destruct (ensure_cases st email hash now) as [[-> _]|[-> Hfresh]];
    [now constructor|].
  pose proof (next_rowid_above (admins_seq st)
                (map AdminRow.id (admins st))) as (Hs & Hp & Hids).
  constructor; cbn [admins admins_seq tasks tasks_seq appointments
                    appointments_seq]; try assumption.
  - rewrite map_app. apply NoDup_snoc; [exact D1|]. apply fresh_not_in.
  - apply Forall_app. split.
    + eapply Forall_impl; [|exact D2]. intros r Hr. simpl in Hr. lia.
    + repeat constructor; simpl; lia.
  - rewrite map_app. apply NoDup_snoc; [exact D3|]. simpl.
    intros H. apply in_map_iff in H. destruct H as (r & He & Hr).
    now apply (Hfresh r Hr).
Qed.

Lemma booking_result (st : Store) (data : BookIn.t) (now : string) :
  (exists resp,
      status resp <> 200
      /\ api_appointments_create st data now = (resp, st))
  \/ (api_appointments_create st data now
      = (mkResponse 200 BOk,
         insert_appointment st (req_task data) (req_date data)
           (req_start data) (req_end data) (req_phone data) now)
      /\ fields_present data = true
      /\ PyStr.lt (req_start data) (req_end data) = true
      /\ exists task,
           select_active_task st (req_task data) = Some task
           /\ forall m, TaskRow.max_volunteers task = Some m ->
                        num_overlap st (req_task data) (req_date data)
                          (req_start data) (req_end data) < m).
Proof.
  rewrite api_appointments_create_cases.
  destruct (fields_present data); cbn [negb];
    [|left; eexists; split; [|reflexivity]; simpl; lia].
  destruct (PyStr.ge (req_start data) (req_end data)) eqn:Hge;
    [left; eexists; split; [|reflexivity]; simpl; lia|].
  assert (Hlt : PyStr.lt (req_start data) (req_end data) = true)
    by (now apply negb_false_iff in Hge).
  destruct (select_active_task st (req_task data)) as [task|] eqn:Hs.
  2:{ left. destruct (int64 (req_task data));
        eexists; (split; [|reflexivity]); simpl; lia. }
  destruct (TaskRow.max_volunteers task) as [m|] eqn:Hm.
  - destruct (Z.geb_spec
               (num_overlap st (req_task data) (req_date data)
                  (req_start data) (req_end data)) m).
    + left. eexists. split; [|reflexivity]. simpl. lia.
    + right. split; [reflexivity|]. split; [reflexivity|].
      split; [exact Hlt|]. exists task. split; [reflexivity|].
      intros m' Hm'. rewrite Hm in Hm'. injection Hm' as Hm'. lia.
  - right. split; [reflexivity|]. split; [reflexivity|].
    split; [exact Hlt|]. exists task. split; [reflexivity|].
    intros m' Hm'. rewrite Hm in Hm'. discriminate.
Qed.

Lemma insert_appointment_ok (st : Store) (task_id : Z)
    (date start end_ phone now : string) :
  store_ok st ->
  store_ok (insert_appointment st task_id date start end_ phone now).
Proof.
  intros [T1 T2 A1 A2 D1 D2 D3].
  pose proof (next_rowid_above (appointments_seq st)
                (map ApptRow.id (appointments st))) as (Hs & Hp & Hids).
  constructor; cbn [insert_appointment admins admins_seq tasks tasks_seq
                    appointments appointments_seq]; try assumption.
  - rewrite map_app. apply NoDup_snoc; [exact A1|]. apply fresh_not_in.
  - apply Forall_app. split.
    + eapply Forall_impl; [|exact A2]. intros r Hr. simpl in Hr. lia.
    + repeat constructor; simpl; lia.
Qed.

(** X4.  The key constraints of the schema hold after [init_db] and are
    kept by seeding (whatever the two hashes and the two clock readings)
    and by every handler that writes: primary keys and the admin emails
    stay without duplicates, no rowid exceeds the counter of its table and
    admin ids stay positive, whatever the request and whether it is
    accepted, refused or fails. *)
Theorem handlers_keep_the_keys :
  store_ok init_db
  /\ forall st,
       store_ok st ->
       (forall hash1 hash2 now1 now2,
           store_ok (seed_admin st hash1 hash2 now1 now2))
       /\ (forall sess data now,
              store_ok (snd (api_admin_create st sess data now)))
       /\ (forall sess task_id data now,
              store_ok (snd (api_admin_update st sess task_id data now)))
       /\ (forall foreign_keys sess task_id,
              store_ok (snd (api_admin_delete foreign_keys st sess task_id)))
       /\ (forall data now,
              store_ok (snd (api_appointments_create st data now))).
Proof.
  split; [constructor; simpl; constructor|].
  intros st Hok. split; [|split; [|split; [|split]]].
  - intros hash1 hash2 now1 now2. unfold seed_admin.
    now apply ensure_ok, ensure_ok.
  - intros sess data now.
    destruct (api_admin_create_result st sess data now)
      as [(_ & _ & _ & _ & ->)|(resp & _ & _ & ->)]; [|exact Hok].
    destruct Hok as [T1 T2 A1 A2 D1 D2 D3].
    pose proof (next_rowid_above (tasks_seq st)
                  (map TaskRow.id (tasks st))) as (Hs & Hp & Hids).
    constructor; cbn [snd admins admins_seq tasks tasks_seq appointments
                      appointments_seq]; try assumption.
    + rewrite map_app. apply NoDup_snoc; [exact T1|]. apply fresh_not_in.
    + apply Forall_app. split.
      * eapply Forall_impl; [|exact T2]. intros r Hr. simpl in Hr.
        unfold next_task_id. lia.
      * repeat constructor. simpl. lia.
  - intros sess task_id data now.
    destruct (api_admin_update_result st sess task_id data now)
      as [(old & _ & _ & _ & _ & _ & ->)|(resp & _ & _ & ->)]; [|exact Hok].
    destruct Hok as [T1 T2 A1 A2 D1 D2 D3].
    constructor; cbn [snd admins admins_seq tasks tasks_seq appointments
                      appointments_seq]; try assumption.
    + now rewrite map_upd_ids.
    + apply Forall_map. eapply Forall_impl; [|exact T2].
      intros r Hr. simpl. now rewrite upd_id.
  - intros foreign_keys sess task_id. unfold api_admin_delete.
    destruct (require_admin sess); cbn [negb snd]; [|exact Hok].
    destruct (int64 task_id); cbn [negb snd]; [|exact Hok].
    destruct Hok as [T1 T2 A1 A2 D1 D2 D3].
    constructor; cbn [admins admins_seq tasks tasks_seq appointments
                      appointments_seq]; try assumption.
    + now apply filtered_keys_unique.
    + apply Forall_forall. intros r Hr. apply filter_In in Hr.
      rewrite Forall_forall in T2. now apply T2.
    + destruct foreign_keys; [now apply filtered_keys_unique|exact A1].
    + destruct foreign_keys; [|exact A2].
      apply Forall_forall. intros r Hr. apply filter_In in Hr.
      rewrite Forall_forall in A2. now apply A2.
  - intros data now.
    destruct (booking_result st data now)
      as [(resp & _ & ->)|(-> & _)]; [exact Hok|].
    now apply insert_appointment_ok.
Qed.

Lemma handlers_keep_the_keys_witness :
  store_ok
    (seed_admin init_db "h1" "h2" "2025-08-01T08:00:00.000150"
       "2025-08-01T08:00:00.093722")
  /\ store_ok
       (snd (api_appointments_create init_db
               (booking 1 "2025-08-20" "09:00" "10:00" "0911") "t")).
Proof.
  split.
  - apply (proj1 (proj2 handlers_keep_the_keys init_db
                    (proj1 handlers_keep_the_keys))).
  - apply (proj2 (proj2 (proj2 (proj2
             (proj2 handlers_keep_the_keys init_db
                (proj1 handlers_keep_the_keys)))))).
Defined.

(** ** Seeding *)

Lemma ensure_has_account (st : Store) (email hash now : string) :
  has_account (ensure st email hash now) email.
Proof.
  destruct (ensure_cases st email hash now) as [[-> H]|[-> _]];
    [exact H|].
  eexists. split; [apply in_or_app; right; now left|reflexivity].
Qed.

Lemma ensure_extends (st : Store) (email hash now : string) :
  exists extra,
    admins (ensure st email hash now) = (admins st ++ extra)%list
    /\ (length extra <= 1)%nat
    /\ tasks (ensure st email hash now) = tasks st
    /\ appointments (ensure st email hash now) = appointments st.
Proof.
  destruct (ensure_cases st email hash now) as [[-> _]|[-> _]].
  - exists []. rewrite app_nil_r. simpl. repeat split. lia.
  - eexists. split; [reflexivity|]. simpl. repeat split. lia.
Qed.

Lemma ensure_noop (st : Store) (email hash now : string) :
  has_account st email -> ensure st email hash now = st.
Proof.
  intros (r & Hr & He).
  destruct (ensure_cases st email hash now) as [[H _]|[_ H]]; [exact H|].
  now destruct (H r Hr).
Qed.

Lemma ensure_keeps_account (st : Store) (email hash now other : string) :
  has_account st other -> has_account (ensure st email hash now) other.
Proof.
  intros (r & Hr & He).
  destruct (ensure_extends st email hash now) as (extra & E & _).
  exists r. rewrite E. split; [apply in_or_app; now left|exact He].
Qed.

(** X5.  [seed_admin], whatever the two hashes and the two clock readings
    of its inserts, leaves both default accounts in the table, only ever
    appends (at most two rows: the stored accounts, with their password
    hashes and creation times, stay as they are, and so do tasks and
    appointments), and seeding a seeded store again, with whatever hashes
    and clock readings, changes nothing. *)
Theorem seeding_is_idempotent (st : Store) (hash1 hash2 now1 now2 : string) :
  has_account (seed_admin st hash1 hash2 now1 now2) "admin@example.com"
  /\ has_account (seed_admin st hash1 hash2 now1 now2) "admin"
  /\ (exists extra,
         admins (seed_admin st hash1 hash2 now1 now2)
         = (admins st ++ extra)%list
         /\ (length extra <= 2)%nat)
  /\ tasks (seed_admin st hash1 hash2 now1 now2) = tasks st
  /\ appointments (seed_admin st hash1 hash2 now1 now2) = appointments st
  /\ forall hash1' hash2' now1' now2',
       seed_admin (seed_admin st hash1 hash2 now1 now2) hash1' hash2' now1'
         now2'
       = seed_admin st hash1 hash2 now1 now2.
Proof.
  assert (H1 : has_account (seed_admin st hash1 hash2 now1 now2)
                 "admin@example.com").
  { unfold seed_admin. apply ensure_keeps_account, ensure_has_account. }
  assert (H2 : has_account (seed_admin st hash1 hash2 now1 now2) "admin").
  { unfold seed_admin. apply ensure_has_account. }
  split; [exact H1|]. split; [exact H2|].
  unfold seed_admin in *.
  destruct (ensure_extends st "admin@example.com" hash1 now1)
    as (e1 & E1 & L1 & T1 & A1).
  destruct (ensure_extends (ensure st "admin@example.com" hash1 now1)
              "admin" hash2 now2) as (e2 & E2 & L2 & T2 & A2).
  split; [|split; [|split]].
  - exists (e1 ++ e2)%list. rewrite E2, E1, <- app_assoc.
    split; [reflexivity|]. rewrite length_app. lia.
  - now rewrite T2, T1.
  - now rewrite A2, A1.
  - intros hash1' hash2' now1' now2'.
    rewrite (ensure_noop _ "admin@example.com" hash1' now1' H1).
    now rewrite (ensure_noop _ "admin" hash2' now2' H2).
Qed.

(** ** Sessions *)

Lemma api_me_anonymous (sess : Session) :
  api_me sess = MeAnonymous <-> require_admin sess = false.
Proof.
  unfold api_me, require_admin.
  destruct (match admin_id sess with
            | Some i => negb (i =? 0) | None => false end);
    split; congruence.
Qed.

Lemma api_admin_list_status (st : Store) (sess : Session) :
  api_admin_list st sess
  = if require_admin sess
    then mkResponse 200 (BTasks (map decoded (order_by_id_desc (tasks st))))
    else json_error 401 "Unauthorized".
Proof.
  unfold api_admin_list. destruct (require_admin sess); cbn [negb];
    [|reflexivity].
  now rewrite traverse_row_to_task.
Qed.

(** X6.  The admin handlers answer 401 exactly when [api_me] reports no
    admin, and then they leave the store as it was; after [api_logout],
    whatever the session was, [api_me] reports no admin, and logging out
    again gives the same answer and session. *)
Theorem gate_follows_the_session (st : Store) (sess : Session)
    (task_id : Z) (data : TaskIn.t) (now : string) (foreign_keys : bool) :
  (status (api_admin_list st sess) = 401 <-> api_me sess = MeAnonymous)
  /\ (status (fst (api_admin_create st sess data now)) = 401
      <-> api_me sess = MeAnonymous)
  /\ (status (fst (api_admin_update st sess task_id data now)) = 401
      <-> api_me sess = MeAnonymous)
  /\ (status (fst (api_admin_delete foreign_keys st sess task_id)) = 401
      <-> api_me sess = MeAnonymous)
  /\ (api_me sess = MeAnonymous ->
      snd (api_admin_create st sess data now) = st
      /\ snd (api_admin_update st sess task_id data now) = st
      /\ snd (api_admin_delete foreign_keys st sess task_id) = st)
  /\ api_me (snd (api_logout sess)) = MeAnonymous
  /\ api_logout (snd (api_logout sess)) = api_logout sess.
Proof.
  rewrite api_me_anonymous.
  split; [|split; [|split; [|split; [|split; [|split]]]]];
    try reflexivity.
  - rewrite api_admin_list_status.
    destruct (require_admin sess); simpl; split; congruence.
  - rewrite api_admin_create_cases.
    destruct (require_admin sess); cbn [negb];
      [|simpl; split; reflexivity].
    split; [|discriminate].
    destruct (negb (PyStr.truthy _)); [simpl; discriminate|].
    destruct (negb (storable data)); [simpl; discriminate|].
    destruct (negb (int64 _)); [simpl; discriminate|].
    cbv zeta. destruct (bind _ _); simpl; discriminate.
  - rewrite api_admin_update_cases.
    destruct (require_admin sess); cbn [negb];
      [|simpl; split; reflexivity].
    split; [|discriminate].
    destruct (negb (PyStr.truthy _)); [simpl; discriminate|].
    destruct (slot_mins_of data); [|simpl; discriminate].
    destruct (negb (int64 task_id)); [simpl; discriminate|].
    destruct (select_task st task_id); [|simpl; discriminate].
    destruct (negb (storable data)); [simpl; discriminate|].
    cbv zeta. destruct (bind _ _); simpl; discriminate.
  - unfold api_admin_delete.
    destruct (require_admin sess); cbn [negb];
      [|simpl; split; reflexivity].
    split; [|discriminate].
    destruct (negb (int64 task_id)); simpl; discriminate.
  - intros H. rewrite api_admin_create_cases, api_admin_update_cases.
    unfold api_admin_delete. now rewrite H.
Qed.

Lemma gate_follows_the_session_witness :
  snd (api_admin_create Fixtures.store_tasks no_session
         (Fixtures.input_full None) "2025-09-01")
  = Fixtures.store_tasks.
Proof.
  apply (proj1 (proj1 (proj2 (proj2 (proj2 (proj2
           (gate_follows_the_session Fixtures.store_tasks no_session 1
              (Fixtures.input_full None) "2025-09-01" false)))))
           eq_refl)).
Defined.

(** X7.  [api_login] answers 200 or 401 and nothing else.  It answers 200
    only for a stored account whose email is the identifier (lower-cased
    and stripped) or, when the identifier has no at-sign, the identifier
    with the suffix appended, and whose hash verifies the password; the
    answer and the new session then name that account, and with positive
    admin ids [api_me] reports its email.  With 401 the session is the one
    before. *)
Theorem login_is_sound (check_password_hash : string -> string -> bool)
    (st : Store) (sess : Session) (data : LoginIn.t) :
  (status (fst (api_login check_password_hash st sess data)) = 200
   /\ exists row,
        In row (admins st)
        /\ candidate data (AdminRow.email row)
        /\ (PyStr.contains "@" (login_identifier data) = true ->
            AdminRow.email row = login_identifier data)
        /\ check_password_hash (AdminRow.password_hash row)
             (login_password data) = true
        /\ api_login check_password_hash st sess data
           = (mkResponse 200 (BLoggedIn (AdminRow.email row)),
              mkSession (Some (AdminRow.id row))
                (Some (AdminRow.email row)))
        /\ (0 < AdminRow.id row ->
            api_me (snd (api_login check_password_hash st sess data))
            = MeOk (Some (AdminRow.email row))))
  \/ api_login check_password_hash st sess data
     = (mkResponse 401 BInvalidCredentials, sess).
Proof.
  unfold api_login.
  fold (login_identifier data). fold (login_password data).
  destruct (fetchone _) as [row|] eqn:Hrow; [|now right].
  destruct (check_password_hash _ _) eqn:Hc; [|now right].
  left. split; [reflexivity|]. exists row.
  apply fetchone_select_admins in Hrow. destruct Hrow as [Hin Hem].
  split; [exact Hin|].
  split; [now apply login_params_candidate|].
  split.
  { intros Hat. rewrite Hat in Hem. destruct Hem as [<-|[]]. reflexivity. }
  split; [exact Hc|]. split; [reflexivity|].
  intros Hpos. unfold api_me. simpl.
  replace (AdminRow.id row =? 0) with false; [reflexivity|].
  symmetry. apply Z.eqb_neq. lia.
Qed.

Lemma login_is_sound_witness :
  api_me
    (snd (api_login Fixtures.toy_check Fixtures.store_seeded no_session
            (LoginIn.mk (Some " Admin@Example.COM ") (Some "admin"))))
  = MeOk (Some "admin@example.com").
Proof.
  destruct (login_is_sound Fixtures.toy_check Fixtures.store_seeded
              no_session
              (LoginIn.mk (Some " Admin@Example.COM ") (Some "admin")))
    as [(_ & row & Hin & _ & Hat & _ & _ & Hme)|E].
  - specialize (Hat eq_refl).
    destruct Hin as [<-|[<-|[]]].
    + apply Hme. reflexivity.
    + discriminate Hat.
  - vm_compute in E. discriminate E.
Defined.

(** ** Creating tasks *)

Lemma lstrip_all_space (s : string) :
  all_space s = true -> PyStr.lstrip s = EmptyString.
Proof.
  induction s as [|c r IH]; simpl; [reflexivity|].
  intros H. apply andb_true_iff in H. destruct H as [Hc Hr].
  rewrite Hc. now apply IH.
Qed.

Lemma title_blank_req_title (data : TaskIn.t) :
  title_blank data -> req_title data = EmptyString.
Proof.
  unfold title_blank, req_title, PyStr.strip.
  destruct (TaskIn.title data) as [s|]; simpl; [|reflexivity].
  intros H. now rewrite (lstrip_all_space s H).
Qed.

(** X8.  For a signed-in admin, a create or an update whose title is
    missing or consists of white space only is answered 400 and writes
    nothing; the update is answered so whether or not the id exists. *)
Theorem blank_title_is_refused (st : Store) (sess : Session) (task_id : Z)
    (data : TaskIn.t) (now : string) :
  require_admin sess = true ->
  title_blank data ->
  api_admin_create st sess data now
  = (json_error 400 "Title is required", st)
  /\ api_admin_update st sess task_id data now
     = (json_error 400 "Title is required", st).
Proof.
  intros Ha Hb. apply title_blank_req_title in Hb.
  rewrite api_admin_create_cases. unfold api_admin_update.
  fold (req_title data). now rewrite Ha, Hb.
Qed.

Lemma blank_title_is_refused_witness :
  api_admin_create Fixtures.store_tasks Fixtures.admin_session
    Fixtures.input_blank_title "2025-09-01"
  = (json_error 400 "Title is required", Fixtures.store_tasks)
  /\ api_admin_update Fixtures.store_tasks Fixtures.admin_session 1
       Fixtures.input_blank_title "2025-09-01"
     = (json_error 400 "Title is required", Fixtures.store_tasks).
Proof.
  apply (blank_title_is_refused Fixtures.store_tasks Fixtures.admin_session
           1 Fixtures.input_blank_title "2025-09-01"); reflexivity.
Defined.

Lemma order_by_id_desc_snoc (l : list TaskRow.t) (row : TaskRow.t) :
  Forall (fun r => TaskRow.id r < TaskRow.id row) l ->
  order_by_id_desc (l ++ [row]) = row :: order_by_id_desc l.
Proof.
  unfold order_by_id_desc. rewrite fold_right_app. cbn [fold_right insert_desc].
  induction 1 as [|x l Hx _ IH]; cbn [fold_right]; [reflexivity|].
  rewrite IH. cbn [insert_desc].
  destruct (Z.leb_spec (TaskRow.id row) (TaskRow.id x)); [lia|reflexivity].
Qed.

Lemma find_snoc_other (l : list TaskRow.t) (row : TaskRow.t) (other : Z) :
  other <> TaskRow.id row ->
  find (fun r => TaskRow.id r =? other) (l ++ [row])
  = find (fun r => TaskRow.id r =? other) l.
Proof.
  intros H. induction l as [|x l IH]; simpl.
  - destruct (Z.eqb_spec (TaskRow.id row) other); [congruence|reflexivity].
  - destruct (TaskRow.id x =? other); [reflexivity|exact IH].
Qed.

(** X9.  For a signed-in admin, a title that is not blank, a slot length
    that [int()] converts, a slot length and a capacity that are 64-bit
    integers and a table whose next id is one too, create answers 201 with
    a task whose id is larger than every id in the table, whose title is
    the stripped title and whose two time stamps are the clock reading; the
    record can be looked up under that id, the other tasks, the admins and
    the appointments are as before, and the admin listing afterwards is the
    new task followed by the listing before. *)
Theorem create_puts_the_task_first (st : Store) (sess : Session)
    (data : TaskIn.t) (now : string) :
  require_admin sess = true ->
  req_title data <> EmptyString ->
  storable data = true ->
  int64 (next_task_id st) = true ->
  exists t st',
    api_admin_create st sess data now = (mkResponse 201 (BTask t), st')
    /\ Task.id t = next_task_id st
    /\ (forall r, In r (tasks st) -> TaskRow.id r < Task.id t)
    /\ Task.title t = req_title data
    /\ Task.createdAt t = now /\ Task.updatedAt t = now
    /\ option_map decoded (select_task st' (Task.id t)) = Some t
    /\ (forall other, other <> Task.id t ->
                      select_task st' other = select_task st other)
    /\ admins st' = admins st /\ appointments st' = appointments st
    /\ listing (api_admin_list st' sess)
       = t :: listing (api_admin_list st sess).
Proof.
  intros Ha Ht Hs Hn. eexists. eexists.
  split; [now apply api_admin_create_ok|].
  assert (Hlt : forall r, In r (tasks st) ->
                          TaskRow.id r < next_task_id st).
  { intros r Hr. unfold next_task_id.
    apply (proj2 (proj2 (next_rowid_above _ _))). now apply in_map. }
  split; [reflexivity|]. split; [exact Hlt|].
  split; [reflexivity|]. split; [reflexivity|]. split; [reflexivity|].
  split.
  { unfold select_task. cbn [tasks decoded Task.id encode_row TaskRow.id].
    rewrite (find_app_fresh (tasks st) _ (next_task_id st));
      [reflexivity|reflexivity|].
    intros r Hr. specialize (Hlt r Hr). lia. }
  split.
  { intros other Ho. unfold select_task. cbn [tasks].
    now apply find_snoc_other. }
  split; [reflexivity|]. split; [reflexivity|].
  rewrite !api_admin_list_status, Ha. unfold listing. cbn [body tasks].
  rewrite order_by_id_desc_snoc; [reflexivity|].
  apply Forall_forall. exact Hlt.
Qed.

Lemma create_puts_the_task_first_witness :
  exists t st',
    api_admin_create Fixtures.store_tasks Fixtures.admin_session
      (Fixtures.input_full None) "2025-09-01"
    = (mkResponse 201 (BTask t), st')
    /\ Task.id t = 3
    /\ listing (api_admin_list st' Fixtures.admin_session)
       = t :: listing (api_admin_list Fixtures.store_tasks
                         Fixtures.admin_session).
Proof.
  destruct (create_puts_the_task_first Fixtures.store_tasks
              Fixtures.admin_session (Fixtures.input_full None)
              "2025-09-01" eq_refl ltac:(discriminate) eq_refl eq_refl)
    as (t & st' & E & Hid & _ & _ & _ & _ & _ & _ & _ & _ & Hl).
  exists t, st'. split; [exact E|]. split; [exact Hid|exact Hl].
Defined.

(** ** Listings *)

Lemma insert_desc_head (r : TaskRow.t) (l : list TaskRow.t) :
  Forall (fun x => TaskRow.id x <= TaskRow.id r) l -> insert_desc r l = r :: l.
Proof.
  destruct 1 as [|x l Hx _]; simpl; [reflexivity|].
  destruct (Z.leb_spec (TaskRow.id x) (TaskRow.id r)); [reflexivity|lia].
Qed.

Lemma insert_desc_sorted (r : TaskRow.t) (l : list TaskRow.t) :
  rows_descending l -> rows_descending (insert_desc r l).
Proof.
  induction l as [|x l IH]; simpl; [now repeat constructor|].
  intros [Hx Hl].
  destruct (Z.leb_spec (TaskRow.id x) (TaskRow.id r)); simpl.
  - repeat split; try assumption. constructor; [assumption|].
    eapply Forall_impl; [|exact Hx]. intros y Hy. simpl in Hy. lia.
  - split; [|now apply IH].
    apply Forall_forall. intros y Hy.
    apply (Permutation_in _ (insert_desc_perm r l)) in Hy.
    destruct Hy as [<-|Hy]; [lia|].
    rewrite Forall_forall in Hx. now apply Hx.
Qed.

Lemma order_by_id_desc_sorted (l : list TaskRow.t) :
  rows_descending (order_by_id_desc l).
Proof.
  induction l as [|x l IH]; simpl; [exact I|]. now apply insert_desc_sorted.
Qed.

Lemma filter_insert_desc (f : TaskRow.t -> bool) (r : TaskRow.t)
    (l : list TaskRow.t) :
  rows_descending l ->
  filter f (insert_desc r l)
  = if f r then insert_desc r (filter f l) else filter f l.
Proof.
  induction l as [|x l IH]; intros Hs.
  - simpl. now destruct (f r).
  - destruct Hs as [Hx Hl]. cbn [insert_desc].
    destruct (Z.leb_spec (TaskRow.id x) (TaskRow.id r)) as [Hle|Hgt].
    + cbn [filter]. destruct (f r); [|reflexivity].
      symmetry. apply insert_desc_head.
      apply Forall_forall. intros y Hy.
      assert (Hin : In y (x :: l)).
      { destruct (f x); [|now right; apply filter_In in Hy].
        destruct Hy as [<-|Hy]; [now left|].
        right. now apply filter_In in Hy. }
      destruct Hin as [<-|Hin]; [exact Hle|].
      rewrite Forall_forall in Hx. specialize (Hx y Hin). simpl in Hx. lia.
    + cbn [filter]. rewrite (IH Hl).
      destruct (f x), (f r); try reflexivity.
      cbn [insert_desc].
      destruct (Z.leb_spec (TaskRow.id x) (TaskRow.id r)); [lia|reflexivity].
Qed.

(** Filtering before or after [ORDER BY id DESC] is the same. *)
Lemma order_by_id_desc_filter (f : TaskRow.t -> bool) (l : list TaskRow.t) :
  order_by_id_desc (filter f l) = filter f (order_by_id_desc l).
Proof.
  induction l as [|x l IH]; simpl; [reflexivity|].
  rewrite filter_insert_desc by apply order_by_id_desc_sorted.
  destruct (f x); simpl; now rewrite IH.
Qed.

Lemma decoded_descending (l : list TaskRow.t) :
  rows_descending l -> ids_descending (map decoded l).
Proof.
  induction l as [|x l IH]; simpl; [tauto|].
  intros [Hx Hl]. split; [|now apply IH].
  apply Forall_map. exact Hx.
Qed.

(** X10.  For a signed-in admin the admin listing holds every stored task
    exactly once, decoded, in descending order of id; the public listing
    is in descending order of id too, and each of its tasks is the decoding
    of a stored row with [active = 1] and is in the admin listing. *)
Theorem listings_are_sorted_and_complete (st : Store) (sess : Session) :
  require_admin sess = true ->
  ids_descending (listing (api_admin_list st sess))
  /\ Permutation (map Some (listing (api_admin_list st sess)))
       (map row_to_task (tasks st))
  /\ ids_descending (listing (api_tasks_public st))
  /\ forall t,
       In t (listing (api_tasks_public st)) ->
       In t (listing (api_admin_list st sess))
       /\ exists r, In r (tasks st) /\ TaskRow.active r = 1
                    /\ row_to_task r = Some t.
Proof.
  intros Ha. rewrite api_admin_list_status, Ha, api_tasks_public_eq.
  unfold listing. cbn [body].
  split; [apply decoded_descending, order_by_id_desc_sorted|].
  split.
  { rewrite map_map.
    rewrite (map_ext row_to_task (fun r => Some (decoded r)))
      by apply row_to_task_decoded.
    apply Permutation_map, order_by_id_desc_perm. }
  split; [apply decoded_descending, order_by_id_desc_sorted|].
  intros t Ht. apply in_map_iff in Ht. destruct Ht as (r & <- & Hr).
  apply (Permutation_in _ (order_by_id_desc_perm _)) in Hr.
  apply filter_In in Hr. destruct Hr as [Hr Hact]. split.
  - apply in_map.
    now apply (Permutation_in _ (Permutation_sym (order_by_id_desc_perm _))).
  - exists r. split; [exact Hr|]. split; [now apply Z.eqb_eq|].
    apply row_to_task_decoded.
Qed.

Lemma listings_are_sorted_and_complete_witness :
  ids_descending
    (listing (api_admin_list Fixtures.store_tasks Fixtures.admin_session))
  /\ length
       (listing (api_admin_list Fixtures.store_tasks Fixtures.admin_session))
     = 2%nat.
Proof.
  split.
  - apply (proj1 (listings_are_sorted_and_complete Fixtures.store_tasks
                    Fixtures.admin_session eq_refl)).
  - reflexivity.
Defined.

Lemma map_decoded_filter_active (l : list TaskRow.t) :
  Forall (fun r => TaskRow.active r = 0 \/ TaskRow.active r = 1) l ->
  map decoded (filter (fun r => TaskRow.active r =? 1) l)
  = filter Task.active (map decoded l).
Proof.
  induction 1 as [|x l Hx _ IH]; simpl; [reflexivity|].
  destruct Hx as [E|E]; rewrite E; simpl; now rewrite IH.
Qed.

(** X11.  When every stored task has its flag at 0 or 1, as the write path
    leaves it, the public listing is the admin listing restricted to the
    tasks that decode as active, in the same order. *)
Theorem public_listing_is_the_active_part (st : Store) (sess : Session) :
  require_admin sess = true ->
  Forall (fun r => TaskRow.active r = 0 \/ TaskRow.active r = 1) (tasks st) ->
  listing (api_tasks_public st)
  = filter Task.active (listing (api_admin_list st sess)).
Proof.
  intros Ha H. rewrite api_admin_list_status, Ha, api_tasks_public_eq.
  unfold listing. cbn [body].
  rewrite order_by_id_desc_filter. apply map_decoded_filter_active.
  apply Forall_forall. intros r Hr.
  apply (Permutation_in _ (order_by_id_desc_perm _)) in Hr.
  rewrite Forall_forall in H. now apply H.
Qed.

Lemma public_listing_is_the_active_part_witness :
  listing (api_tasks_public Fixtures.store_tasks)
  = filter Task.active
      (listing (api_admin_list Fixtures.store_tasks Fixtures.admin_session)).
Proof.
  apply (public_listing_is_the_active_part Fixtures.store_tasks
           Fixtures.admin_session eq_refl).
  apply Forall_cons; [right; reflexivity|].
  apply Forall_cons; [left; reflexivity|constructor].
Defined.

(** ** What the handlers write *)





Lemma seeding_rows (st : Store) (hash1 hash2 now1 now2 : string) :
  tasks (seed_admin st hash1 hash2 now1 now2) = tasks st
  /\ appointments (seed_admin st hash1 hash2 now1 now2) = appointments st.
Proof.
  unfold seed_admin.
  destruct (ensure_extends st "admin@example.com" hash1 now1)
    as (_ & _ & _ & T1 & A1).
  destruct (ensure_extends (ensure st "admin@example.com" hash1 now1)
              "admin" hash2 now2) as (_ & _ & _ & T2 & A2).
  split; congruence.
Qed.



(** Every task id in the store is a 64-bit integer, from [init_db] on: a
    create that would take a larger rowid fails, and no other handler
    writes an id. *)
Lemma task_ids_stay_bindable :
  Forall (fun r => int64 (TaskRow.id r) = true) (tasks init_db)
  /\ forall st,
       Forall (fun r => int64 (TaskRow.id r) = true) (tasks st) ->
       (forall hash1 hash2 now1 now2,
           Forall (fun r => int64 (TaskRow.id r) = true)
             (tasks (seed_admin st hash1 hash2 now1 now2)))
       /\ (forall sess data now,
              Forall (fun r => int64 (TaskRow.id r) = true)
                (tasks (snd (api_admin_create st sess data now))))
       /\ (forall sess task_id data now,
              Forall (fun r => int64 (TaskRow.id r) = true)
                (tasks (snd (api_admin_update st sess task_id data now))))
       /\ (forall foreign_keys sess task_id,
              Forall (fun r => int64 (TaskRow.id r) = true)
                (tasks (snd (api_admin_delete foreign_keys st sess task_id))))
       /\ (forall data now,
              Forall (fun r => int64 (TaskRow.id r) = true)
                (tasks (snd (api_appointments_create st data now)))).
Proof.
  split; [constructor|].
  intros st HT. split; [|split; [|split; [|split]]].
  - intros hash1 hash2 now1 now2.
    now rewrite (proj1 (seeding_rows st hash1 hash2 now1 now2)).
  - intros sess data now.
    destruct (api_admin_create_result st sess data now)
      as [(_ & _ & _ & Hn & ->)|(resp & _ & _ & ->)]; [|exact HT].
    cbn [snd tasks]. apply Forall_app. split; [exact HT|].
    constructor; [exact Hn|constructor].
  - intros sess task_id data now.
    destruct (api_admin_update_result st sess task_id data now)
      as [(old & _ & _ & _ & _ & _ & ->)|(resp & _ & _ & ->)]; [|exact HT].
    cbn [snd tasks]. apply Forall_map. eapply Forall_impl; [|exact HT].
    intros r Hr. simpl. now rewrite upd_id.
  - intros foreign_keys sess task_id. unfold api_admin_delete.
    destruct (require_admin sess); cbn [negb snd]; [|exact HT].
    destruct (int64 task_id); cbn [negb snd tasks]; [|exact HT].
    apply Forall_forall. intros r Hr. apply filter_In in Hr.
    rewrite Forall_forall in HT. now apply HT.
  - intros data now.
    destruct (booking_result st data now)
      as [(resp & _ & ->)|(-> & _)]; exact HT.
Qed.

(** ** Deleting tasks *)

Lemma filter_idem {A : Type} (f : A -> bool) (l : list A) :
  filter f (filter f l) = filter f l.
Proof.
  induction l as [|x l IH]; simpl; [reflexivity|].
  destruct (f x) eqn:E; simpl; [now rewrite E, IH|exact IH].
Qed.

Lemma find_deleted (l : list TaskRow.t) (task_id other : Z) :
  find (fun r => TaskRow.id r =? other)
       (filter (fun r => negb (TaskRow.id r =? task_id)) l)
  = if other =? task_id then None
    else find (fun r => TaskRow.id r =? other) l.
Proof.
  induction l as [|x l IH]; simpl; [now destruct (other =? task_id)|].
  destruct (Z.eqb_spec (TaskRow.id x) task_id) as [E|E]; simpl.
  - rewrite IH. destruct (Z.eqb_spec other task_id) as [F|F]; [reflexivity|].
    destruct (Z.eqb_spec (TaskRow.id x) other); [congruence|reflexivity].
  - destruct (Z.eqb_spec (TaskRow.id x) other) as [F|F]; [|exact IH].
    destruct (Z.eqb_spec other task_id); [congruence|reflexivity].
Qed.

(** X13.  For a signed-in admin and an id that is a 64-bit integer,
    delete answers 200 whether or not the id exists.  Afterwards no task
    has the id, it is not in the public listing, every other task and every
    admin is as before, a well-formed booking for the id is answered 404,
    and deleting again gives the same answer and store; without foreign-key
    enforcement the appointments stay as they are, with it exactly the
    appointments of the id go.  An id that is no 64-bit integer cannot be
    bound: the delete fails (500) and writes nothing, and so does a
    well-formed booking for that id. *)
Theorem delete_is_final_and_idempotent (foreign_keys : bool) (st : Store)
    (sess : Session) (task_id : Z) :
  require_admin sess = true ->
  let r := api_admin_delete foreign_keys st sess task_id in
  (int64 task_id = true ->
   fst r = mkResponse 200 BOk
   /\ select_task (snd r) task_id = None
   /\ ~ listed (snd r) task_id
   /\ (forall other, other <> task_id ->
                     select_task (snd r) other = select_task st other)
   /\ admins (snd r) = admins st
   /\ api_admin_delete foreign_keys (snd r) sess task_id = r
   /\ (forall data now,
          req_task data = task_id ->
          fields_present data = true ->
          PyStr.lt (req_start data) (req_end data) = true ->
          api_appointments_create (snd r) data now
          = (json_error 404 "Task not found or inactive", snd r))
   /\ appointments (snd r)
      = if foreign_keys
        then filter (fun a => negb (ApptRow.task_id a =? task_id))
               (appointments st)
        else appointments st)
  /\ (int64 task_id = false ->
      r = (server_error, st)
      /\ forall data now,
           req_task data = task_id ->
           fields_present data = true ->
           PyStr.lt (req_start data) (req_end data) = true ->
           Forall (fun x => int64 (TaskRow.id x) = true) (tasks st) ->
           api_appointments_create st data now = (server_error, st)).
Proof.
  intros Ha r. subst r. unfold api_admin_delete. rewrite Ha. cbn [negb].
  split; intros Hi; rewrite Hi; cbn [negb fst snd].
  - assert (Hgone : forall x,
      In x (filter (fun r => negb (TaskRow.id r =? task_id)) (tasks st)) ->
      TaskRow.id x <> task_id).
    { intros x Hx. apply filter_In in Hx. destruct Hx as [_ Hx].
      apply negb_true_iff in Hx. now apply Z.eqb_neq. }
    split; [reflexivity|]. split.
    { unfold select_task. cbn [tasks]. rewrite find_deleted.
      now rewrite Z.eqb_refl. }
    split.
    { rewrite listed_iff. cbn [tasks]. intros (x & Hx & _ & Hid).
      now apply (Hgone x Hx). }
    split.
    { intros other Ho. unfold select_task. cbn [tasks]. rewrite find_deleted.
      now destruct (Z.eqb_spec other task_id). }
    split; [reflexivity|]. split.
    { cbn [tasks appointments admins admins_seq tasks_seq appointments_seq].
      rewrite filter_idem. destruct foreign_keys; [|reflexivity].
      now rewrite filter_idem. }
    split; [|reflexivity].
    intros data now Hid Hf Hlt.
    rewrite api_appointments_create_cases, Hf, (ge_of_lt _ _ Hlt).
    cbn [negb]. rewrite select_active_task_none; [now rewrite Hid, Hi|].
    cbn [tasks]. intros x Hx Hx'. exfalso. apply (Hgone x Hx). congruence.
  - split; [reflexivity|].
    intros data now Hid Hf Hlt Hrows.
    rewrite api_appointments_create_cases, Hf, (ge_of_lt _ _ Hlt).
    cbn [negb]. rewrite select_active_task_none; [now rewrite Hid, Hi|].
    intros x Hx Hx'. rewrite Forall_forall in Hrows.
    specialize (Hrows x Hx). congruence.
Qed.

Lemma delete_is_final_and_idempotent_witness :
  (select_task
     (snd (api_admin_delete false Fixtures.store_busy Fixtures.admin_session
             1))
     1 = None
   /\ appointments
        (snd (api_admin_delete false Fixtures.store_busy
                Fixtures.admin_session 1))
      = appointments Fixtures.store_busy)
  /\ api_admin_delete false Fixtures.store_busy Fixtures.admin_session
       9223372036854775808
     = (server_error, Fixtures.store_busy).
Proof.
  split.
  - pose proof (proj1 (delete_is_final_and_idempotent false
                         Fixtures.store_busy Fixtures.admin_session 1
                         eq_refl) eq_refl) as H.
    destruct H as (_ & H1 & _ & _ & _ & _ & _ & H2).
    split; [exact H1|exact H2].
  - apply (proj1 (proj2 (delete_is_final_and_idempotent false
                           Fixtures.store_busy Fixtures.admin_session
                           9223372036854775808 eq_refl) eq_refl)).
Defined.

(** Under the counter invariant, the id that a create takes after a delete
    (accepted or not) is above every id of the table before the delete, and
    it is a 64-bit integer as long as the counter has not reached the
    largest one. *)
Lemma next_task_id_after_delete (foreign_keys : bool) (st : Store)
    (sess : Session) (task_id : Z) :
  store_ok st ->
  (tasks_seq st < 9223372036854775807 ->
   int64 (next_task_id
            (snd (api_admin_delete foreign_keys st sess task_id))) = true)
  /\ forall r,
       In r (tasks st) ->
       TaskRow.id r
       < next_task_id (snd (api_admin_delete foreign_keys st sess task_id)).
Proof.
  intros Hok. pose proof (ok_task_seq st Hok) as Hs.
  assert (Hmax : forall l,
    Forall (fun r => TaskRow.id r <= tasks_seq st) l ->
    max_rowid (map TaskRow.id l) <= Z.max (tasks_seq st) 0).
  { unfold max_rowid. induction 1 as [|x l Hx _ IH]; cbn [map fold_right];
      lia. }
  assert (Hsub : Forall (fun r => TaskRow.id r <= tasks_seq st)
                   (tasks (snd (api_admin_delete foreign_keys st sess
                                  task_id)))
                 /\ tasks_seq (snd (api_admin_delete foreign_keys st sess
                                      task_id)) = tasks_seq st).
  { unfold api_admin_delete.
    destruct (require_admin sess); cbn [negb snd]; [|now split].
    destruct (int64 task_id); cbn [negb snd tasks tasks_seq]; [|now split].
    split; [|reflexivity]. apply Forall_forall. intros r Hr.
    apply filter_In in Hr. rewrite Forall_forall in Hs. now apply Hs. }
  destruct Hsub as [Hsub Hseq]. specialize (Hmax _ Hsub).
  pose proof (max_rowid_nonneg
                (map TaskRow.id
                   (tasks (snd (api_admin_delete foreign_keys st sess
                                  task_id))))) as H0.
  unfold next_task_id, next_rowid. rewrite Hseq. split.
  - intros Hroom. apply int64_bounds. lia.
  - intros r Hr. rewrite Forall_forall in Hs. specialize (Hs r Hr).
    simpl in Hs. lia.
Qed.

(** X14.  With the key constraints in force, a counter that has not
    reached the largest 64-bit integer and an input that can be stored (a
    non-blank title, a slot length that [int()] converts, a slot length and
    a capacity that are 64-bit integers), a create that follows a delete,
    whether the delete was accepted or failed, is answered 201 with an id
    larger than every id the table held before the delete, so never the id
    of the deleted task; an appointment that referred to a task of the
    table before is therefore never an appointment of the new task. *)
Theorem deleted_ids_are_not_reused (foreign_keys : bool) (st : Store)
    (sess : Session) (task_id : Z) (data : TaskIn.t) (now : string) :
  store_ok st ->
  tasks_seq st < 9223372036854775807 ->
  require_admin sess = true ->
  req_title data <> EmptyString ->
  storable data = true ->
  exists t st',
    api_admin_create
      (snd (api_admin_delete foreign_keys st sess task_id)) sess data now
    = (mkResponse 201 (BTask t), st')
    /\ (forall r, In r (tasks st) -> TaskRow.id r < Task.id t)
    /\ (In task_id (map TaskRow.id (tasks st)) -> Task.id t <> task_id)
    /\ (forall a, In a (appointments st') ->
                  In (ApptRow.task_id a) (map TaskRow.id (tasks st)) ->
                  ApptRow.task_id a <> Task.id t).
Proof.
  intros Hok Hroom Ha Ht Hs.
  destruct (next_task_id_after_delete foreign_keys st sess task_id Hok)
    as [Hn Hlt].
  eexists. eexists.
  split; [apply api_admin_create_ok; auto|].
  cbn [decoded Task.id encode_row TaskRow.id].
  split; [exact Hlt|]. split.
  - intros Hin. apply in_map_iff in Hin. destruct Hin as (r & <- & Hr).
    specialize (Hlt r Hr). lia.
  - intros a _ Hin. apply in_map_iff in Hin.
    destruct Hin as (r & <- & Hr). specialize (Hlt r Hr). lia.
Qed.

Lemma store_busy_ok : store_ok Fixtures.store_busy.
Proof.
  constructor; simpl;
    repeat first [ apply NoDup_cons | apply NoDup_nil | apply Forall_cons
                 | apply Forall_nil ];
    simpl; try lia; intuition discriminate.
Qed.

Lemma deleted_ids_are_not_reused_witness :
  exists t st',
    api_admin_create
      (snd (api_admin_delete false Fixtures.store_busy
              Fixtures.admin_session 3))
      Fixtures.admin_session (Fixtures.input_full None) "2025-09-01"
    = (mkResponse 201 (BTask t), st')
    /\ Task.id t <> 3.
Proof.
  destruct (deleted_ids_are_not_reused false Fixtures.store_busy
              Fixtures.admin_session 3 (Fixtures.input_full None)
              "2025-09-01" store_busy_ok eq_refl eq_refl
              ltac:(discriminate) eq_refl)
    as (t & st' & E & _ & H & _).
  exists t, st'. split; [exact E|]. apply H. simpl. tauto.
Defined.

(** ** Updating twice *)

Lemma row_update_idem (task_id : Z) (data : TaskIn.t) (now : string)
    (r : TaskRow.t) :
  row_update task_id data now (row_update task_id data now r)
  = row_update task_id data now r.
Proof.
  destruct (Z.eq_dec (TaskRow.id r) task_id) as [E|E].
  - rewrite (upd_hit _ _ _ r E). now rewrite upd_hit.
  - now rewrite !(upd_miss _ _ _ r E).
Qed.

(** X15.  Sending the same update again, with the same clock reading,
    gives the same answer and leaves the store as the first update left
    it, whatever the session, the id and the input. *)
Theorem update_is_idempotent (st : Store) (sess : Session) (task_id : Z)
    (data : TaskIn.t) (now : string) :
  api_admin_update
    (snd (api_admin_update st sess task_id data now)) sess task_id data now
  = api_admin_update st sess task_id data now.
Proof.
  destruct (api_admin_update_result st sess task_id data now)
    as [(old & Ha & Ht & Hs & Hi & Hold & E)|(resp & _ & _ & E)].
  - rewrite E. cbn [snd].
    rewrite (api_admin_update_ok task_id data now _ sess
               (encode_row task_id data (TaskRow.created_at old) now)
               Ha Ht Hs Hi).
    + cbn [tasks admins admins_seq tasks_seq appointments appointments_seq
           encode_row TaskRow.created_at].
      rewrite map_map.
      now rewrite (map_ext _ _ (row_update_idem task_id data now)).
    + unfold select_task. cbn [tasks]. now apply find_upd_hit.
  - now rewrite E.
Qed.

(** ** Booking *)

Lemma req_trim_booking (data : BookIn.t) :
  req_task (trim_booking data) = req_task data
  /\ req_date (trim_booking data) = req_date data
  /\ req_start (trim_booking data) = req_start data
  /\ req_end (trim_booking data) = req_end data
  /\ req_phone (trim_booking data) = req_phone data.
Proof.
  unfold trim_booking, req_task, req_date, req_start, req_end, req_phone.
  cbn [BookIn.taskId BookIn.date BookIn.startTime BookIn.endTime
       BookIn.phone PyStr.or_empty].
  now rewrite !strip_idem.
Qed.

Lemma num_overlap_own (st : Store) (task_id : Z)
    (date start end_ phone now : string) :
  PyStr.lt start end_ = true ->
  num_overlap (insert_appointment st task_id date start end_ phone now)
    task_id date start end_
  = num_overlap st task_id date start end_ + 1.
Proof. intros H. now rewrite num_overlap_insert, H. Qed.

(** X16.  A booking request is read with its date, times and phone
    stripped: the request with the fields already stripped gets the same
    answer.  A request that is not answered 200 leaves the store as it was.
    A request that is answered 200 appends exactly one appointment, with
    the stripped fields and a rowid above all others, leaves tasks and
    admins as they were, and raises the overlap count of its own window on
    its date by one. *)
Theorem booking_appends_one_stripped_row (st : Store) (data : BookIn.t)
    (now : string) :
  api_appointments_create st (trim_booking data) now
  = api_appointments_create st data now
  /\ (status (fst (api_appointments_create st data now)) <> 200 ->
      snd (api_appointments_create st data now) = st)
  /\ (status (fst (api_appointments_create st data now)) = 200 ->
      exists id st',
        api_appointments_create st data now = (mkResponse 200 BOk, st')
        /\ appointments st'
           = (appointments st
              ++ [ApptRow.mk id (req_task data) (req_date data)
                    (req_start data) (req_end data) (req_phone data) now])%list
        /\ (forall a, In a (appointments st) -> ApptRow.id a < id)
        /\ tasks st' = tasks st /\ admins st' = admins st
        /\ num_overlap st' (req_task data) (req_date data) (req_start data)
             (req_end data)
           = num_overlap st (req_task data) (req_date data)
               (req_start data) (req_end data) + 1).
Proof.
  split; [|split].
  - rewrite !api_appointments_create_cases. unfold fields_present.
    destruct (req_trim_booking data) as (E1 & E2 & E3 & E4 & E5).
    now rewrite E1, E2, E3, E4, E5.
  - destruct (booking_result st data now)
      as [(resp & _ & ->)|(-> & _)]; [reflexivity|].
    simpl. congruence.
  - destruct (booking_result st data now)
      as [(resp & Hc & ->)|(-> & _ & Hlt & _)];
      [simpl; congruence|].
    intros _. eexists. eexists. split; [reflexivity|].
    split; [reflexivity|]. split.
    { intros a Ha.
      apply (proj2 (proj2 (next_rowid_above _ _))). now apply in_map. }
    split; [reflexivity|]. split; [reflexivity|].
    now apply num_overlap_own.
Qed.

Lemma booking_appends_one_stripped_row_witness :
  snd (api_appointments_create Fixtures.store_two_dates
         (booking 1 "2025-08-20" "09:30" "10:30" "0911") "t")
  = Fixtures.store_two_dates.
Proof.
  apply (proj1 (proj2 (booking_appends_one_stripped_row
                         Fixtures.store_two_dates
                         (booking 1 "2025-08-20" "09:30" "10:30" "0911")
                         "t"))).
  vm_compute. discriminate.
Defined.

Lemma select_active_task_insert (st : Store) (task_id task_id' : Z)
    (date start end_ phone now : string) :
  select_active_task
    (insert_appointment st task_id' date start end_ phone now) task_id
  = select_active_task st task_id.
Proof. reflexivity. Qed.

(** X17.  When the same well-formed booking is sent [n] times to an active
    task of capacity [N], the first answers are 200, as many as there are
    places left for its window on its date ([N] minus the overlap count at
    the start), and all later answers are 409; for a task without a
    capacity every answer is 200. *)
Theorem capacity_admits_the_free_places (n : nat) (st : Store)
    (task : TaskRow.t) (data : BookIn.t) (now : string) :
  select_active_task st (req_task data) = Some task ->
  fields_present data = true ->
  PyStr.lt (req_start data) (req_end data) = true ->
  fst (book_times n st data now)
  = match TaskRow.max_volunteers task with
    | Some N =>
        let free :=
          Z.to_nat (N - num_overlap st (req_task data) (req_date data)
                          (req_start data) (req_end data)) in
        (repeat 200 (Nat.min n free) ++ repeat 409 (n - free))%list
    | None => repeat 200 n
    end.
Proof.
  intros Hsel Hf Hlt. revert st Hsel.
  induction n as [|n IH]; intros st Hsel.
  - cbn. now destruct (TaskRow.max_volunteers task).
  - cbn [book_times fst snd].
    rewrite api_appointments_create_cases, Hf, (ge_of_lt _ _ Hlt), Hsel.
    cbn [negb].
    destruct (TaskRow.max_volunteers task) as [N|] eqn:Hmax.
    + destruct (Z.geb_spec
                 (num_overlap st (req_task data) (req_date data)
                    (req_start data) (req_end data)) N) as [Hge|Hless].
      * cbn [fst snd status json_error]. rewrite (IH st Hsel).
        cbv zeta.
        replace (Z.to_nat (N - _)) with 0%nat by lia.
        rewrite Nat.min_0_r, !Nat.sub_0_r. reflexivity.
      * cbn [fst snd status].
        rewrite (IH _ (eq_trans (select_active_task_insert st _ _ _ _ _ _ _)
                         Hsel)).
        cbv zeta. rewrite (num_overlap_own st _ _ _ _ _ _ Hlt).
        set (c := num_overlap st (req_task data) (req_date data)
                    (req_start data) (req_end data)) in *.
        replace (Z.to_nat (N - c)) with (S (Z.to_nat (N - (c + 1)))) by lia.
        reflexivity.
    + cbn [fst snd status].
      rewrite (IH _ (eq_trans (select_active_task_insert st _ _ _ _ _ _ _)
                       Hsel)).
      reflexivity.
Qed.

Lemma capacity_admits_the_free_places_witness :
  fst (book_times 4 Fixtures.store_busy
         (booking 1 "2025-08-20" "09:30" "10:30" "0911") "t")
  = [200; 409; 409; 409].
Proof.
  apply (capacity_admits_the_free_places 4 Fixtures.store_busy
           (Fixtures.task_row 1 (Some 2) 1)
           (booking 1 "2025-08-20" "09:30" "10:30" "0911") "t");
    reflexivity.
Defined.

(** ** Updating in place *)

Lemma insert_desc_map_update (task_id : Z) (data : TaskIn.t) (now : string)
    (r : TaskRow.t) (l : list TaskRow.t) :
  insert_desc (row_update task_id data now r)
    (map (row_update task_id data now) l)
  = map (row_update task_id data now) (insert_desc r l).
Proof.
  induction l as [|x l IH]; simpl; [reflexivity|].
  rewrite !upd_id.
  destruct (TaskRow.id x <=? TaskRow.id r); simpl; [reflexivity|].
  now rewrite IH.
Qed.

Lemma order_by_id_desc_map_update (task_id : Z) (data : TaskIn.t)
    (now : string) (l : list TaskRow.t) :
  order_by_id_desc (map (row_update task_id data now) l)
  = map (row_update task_id data now) (order_by_id_desc l).
Proof.
  induction l as [|x l IH]; simpl; [reflexivity|].
  now rewrite IH, insert_desc_map_update.
Qed.

Lemma key_determines_row (l : list TaskRow.t) (r old : TaskRow.t)
    (task_id : Z) :
  NoDup (map TaskRow.id l) ->
  find (fun x => TaskRow.id x =? task_id) l = Some old ->
  In r l -> TaskRow.id r = task_id -> r = old.
Proof.
  induction l as [|x l IH]; simpl; [contradiction|].
  intros Hnd Hf Hin Hid. inversion Hnd as [|? ? Hx Hl]; subst.
  destruct (Z.eqb_spec (TaskRow.id x) (TaskRow.id r)) as [E|E].
  - injection Hf as <-. destruct Hin as [->|Hin]; [reflexivity|].
    exfalso. apply Hx. rewrite E. now apply in_map.
  - destruct Hin as [->|Hin]; [congruence|]. now apply IH.
Qed.

(** X18.  Under the primary key, a successful update changes the listings
    in place: the admin listing afterwards is the listing before with the
    task of that id replaced by the task the update answers with, every
    other task and the order being the same. *)
Theorem update_replaces_in_the_listing (st : Store) (sess : Session)
    (task_id : Z) (data : TaskIn.t) (now : string) (t : Task.t)
    (st' : Store) :
  NoDup (map TaskRow.id (tasks st)) ->
  api_admin_update st sess task_id data now
  = (mkResponse 200 (BTask t), st') ->
  listing (api_admin_list st' sess)
  = map (fun u => if Task.id u =? task_id then t else u)
      (listing (api_admin_list st sess))
  /\ map Task.id (listing (api_admin_list st' sess))
     = map Task.id (listing (api_admin_list st sess)).
Proof.
  intros Hnd E.
  destruct (api_admin_update_result st sess task_id data now)
    as [(old & Ha & _ & _ & _ & Hold & E')|(resp & [_ Hb] & _ & E')];
    rewrite E' in E; [|injection E as E _; now destruct (Hb t); rewrite E].
  injection E as <- <-.
  rewrite !api_admin_list_status, Ha. unfold listing. cbn [body tasks].
  rewrite order_by_id_desc_map_update, !map_map.
  assert (Hrows : forall r, In r (order_by_id_desc (tasks st)) ->
    decoded (row_update task_id data now r)
    = if Task.id (decoded r) =? task_id
      then decoded (encode_row task_id data (TaskRow.created_at old) now)
      else decoded r).
  { intros r Hr. apply (Permutation_in _ (order_by_id_desc_perm _)) in Hr.
    cbn [decoded Task.id].
    destruct (Z.eqb_spec (TaskRow.id r) task_id) as [F|F].
    - rewrite (upd_hit _ _ _ r F).
      now rewrite (key_determines_row _ r old task_id Hnd Hold Hr F).
    - now rewrite (upd_miss _ _ _ r F). }
  split.
  - apply map_ext_in. exact Hrows.
  - apply map_ext. intros r. cbn [decoded Task.id]. apply upd_id.
Qed.

Lemma update_replaces_in_the_listing_witness :
  map Task.id
    (listing
       (api_admin_list
          (snd (api_admin_update Fixtures.store_tasks Fixtures.admin_session
                  1 (Fixtures.input_full None) "2025-09-01"))
          Fixtures.admin_session))
  = map Task.id
      (listing (api_admin_list Fixtures.store_tasks Fixtures.admin_session)).
Proof.
  refine (proj2 (update_replaces_in_the_listing Fixtures.store_tasks
                   Fixtures.admin_session 1 (Fixtures.input_full None)
                   "2025-09-01" _ _ _ eq_refl)).
  repeat constructor; simpl; intuition discriminate.
Defined.
